(** * Transportation optimisation: the model-building and solving layer

    A shallow embedding of [distribution_optimizer.py]
    ([TransportationOptimizer._get_valid_routes], [_add_constraints],
    [build_cost_model], [build_time_model] and [solve]) together with the
    part of [DataLoader.load_data] the optimiser depends on, and the
    properties of the two integer programs it builds.

    Conventions.
    - Python numbers read from the tables and returned by the solver are
      rationals [Q] (floating point is idealised as exact arithmetic);
      lead times, vehicle ceilings, the demand and the delivery-time ceiling
      are integers [Z], as the dataclass and the route table have them.
    - A Python [dict] is an insertion-ordered association list: assigning to
      an existing key keeps the key's position and replaces its value.
    - A raised Python exception is the [Raise] result of [PyResult]; calls to
      [st.error] and to the solver are recorded in a trace of [Event]s.
    - PuLP is the external solver interface: a program is a list of named
      linear constraints plus an objective, and the solver is an arbitrary
      function from programs to a status and a value for every variable.
      PuLP's own check that constraint names are pairwise distinct is not
      part of the model; names are carried as labels. *)

From Stdlib Require Import String Ascii List ZArith QArith Bool Lia Lqa.
Import ListNotations.
Local Open Scope string_scope.
Local Open Scope Z_scope.

Set Implicit Arguments.

(* ===================================================================== *)
(** * Python runtime: exceptions, effects, dictionaries, strings          *)
(* ===================================================================== *)

Inductive PyException : Type :=
| KeyError
| IndexError
| ValueError.

Inductive PyResult (A : Type) : Type :=
| Ok (a : A)
| Raise (e : PyException).

Arguments Ok {A} a.
Arguments Raise {A} e.

Definition bindR {A B : Type} (c : PyResult A) (k : A -> PyResult B)
  : PyResult B :=
  match c with
  | Ok a => k a
  | Raise e => Raise e
  end.

Declare Scope py_scope.
Delimit Scope py_scope with py.
Notation "x <- c ;; k" := (bindR c (fun x => k))
  (at level 61, c at next level, right associativity) : py_scope.
Notation "' p <- c ;; k" := (bindR c (fun x => let p := x in k))
  (at level 61, p pattern, c at next level, right associativity) : py_scope.

(** The generator expressions of the source: evaluate [f] on every element,
    left to right, stopping at the first exception. *)
Fixpoint mapR {A B : Type} (f : A -> PyResult B) (l : list A)
  : PyResult (list B) :=
  match l with
  | [] => Ok []
  | x :: rest =>
      (y <- f x ;;
       ys <- mapR f rest ;;
       Ok (y :: ys))%py
  end.

(** Key types of the dictionaries: strings and pairs of strings. *)
Class Key (K : Type) := key_eqb : K -> K -> bool.

#[global] Instance Key_string : Key string := String.eqb.
#[global] Instance Key_pair {A B : Type} `{Key A} `{Key B} : Key (A * B) :=
  fun x y => key_eqb (fst x) (fst y) && key_eqb (snd x) (snd y).

Section Dict.
Context {K V : Type} `{Key K}.

Definition dict := list (K * V).

Fixpoint dict_get (d : list (K * V)) (k : K) : option V :=
  match d with
  | [] => None
  | (k', v) :: rest => if key_eqb k k' then Some v else dict_get rest k
  end.

(** [d[k] = v] *)
Fixpoint dict_set (d : list (K * V)) (k : K) (v : V) : list (K * V) :=
  match d with
  | [] => [(k, v)]
  | (k', v') :: rest =>
      if key_eqb k k' then (k', v) :: rest
      else (k', v') :: dict_set rest k v
  end.

(** [k in d] *)
Definition dict_mem (d : list (K * V)) (k : K) : bool :=
  match dict_get d k with
  | Some _ => true
  | None => false
  end.

Definition dict_keys (d : list (K * V)) : list K := map fst d.
Definition dict_values (d : list (K * V)) : list V := map snd d.

(** [d[k]] as an expression: [KeyError] on a missing key. *)
Definition dict_index (d : list (K * V)) (k : K) : PyResult V :=
  match dict_get d k with
  | Some v => Ok v
  | None => Raise KeyError
  end.
End Dict.

Arguments dict K V : clear implicits.

(** [x in l] for a Python list of strings. *)
Definition list_mem (x : string) (l : list string) : bool :=
  existsb (String.eqb x) l.

(** The keys of a Python dictionary are pairwise distinct. *)
Fixpoint distinct {K : Type} `{Key K} (l : list K) : bool :=
  match l with
  | [] => true
  | x :: rest => negb (existsb (key_eqb x) rest) && distinct rest
  end.

(** ASCII white space as [str.isspace] has it: tab, line feed, vertical
    tab, form feed, carriage return, the four separators 28..31 and the
    space.  Strings are byte strings here, so white space outside ASCII is
    not recognised. *)
Definition isspace (c : ascii) : bool :=
  let n := nat_of_ascii c in
  ((9 <=? n)%nat && (n <=? 13)%nat) || ((28 <=? n)%nat && (n <=? 32)%nat).

Fixpoint lstrip (s : string) : string :=
  match s with
  | EmptyString => EmptyString
  | String c rest => if isspace c then lstrip rest else s
  end.

Fixpoint rstrip (s : string) : string :=
  match s with
  | EmptyString => EmptyString
  | String c rest =>
      match rstrip rest with
      | EmptyString => if isspace c then EmptyString else String c EmptyString
      | t => String c t
      end
  end.

(** [s.strip()] *)
Definition strip (s : string) : string := lstrip (rstrip s).

(** [int(x)] on a float: truncation toward zero. *)
Definition int (x : Q) : Z := Z.quot (Qnum x) (Zpos (Qden x)).

(** [x > y] on numbers. *)
Definition Qgt_bool (x y : Q) : bool := negb (Qle_bool x y).

(** [max(0, x)]: Python returns the first argument unless the second is
    strictly greater. *)
Definition max0 (x : Q) : Q := if Qgt_bool x 0 then x else 0%Q.

(* ===================================================================== *)
(** * Catalog tables and the run parameters                               *)
(* ===================================================================== *)

(** A row of [wh_capacity.csv]. *)
Record Warehouse : Type := mkWarehouse {
  warehouse_name : string;
  capacity : Q;
  stock_level : Q
}.

(** A row of [tp_capacity.csv]; the column is [mode_name] in the source. *)
Record Mode : Type := mkMode {
  mode_mode_name : string;
  weight_capacity : Q
}.

(** A row of [tp_route.csv]; [lead_time] is the column [lead_time (days)]. *)
Record Route : Type := mkRoute {
  origin : string;
  destination : string;
  mode_name : string;
  lead_time : Z;
  total_cost : Q
}.

(** The tables of [DataLoader] the optimiser reads ([plants] is only read
    by the input form). *)
Record DataLoader : Type := mkDataLoader {
  warehouses : list Warehouse;
  modes : list Mode;
  routes : list Route
}.

(** [DataLoader.load_data], lines 43-46: every string column of every table
    is stripped before the optimiser sees it. *)
Definition load_data (raw : DataLoader) : DataLoader :=
  {| warehouses :=
       map (fun w => mkWarehouse (strip (warehouse_name w)) (capacity w)
                       (stock_level w)) (warehouses raw);
     modes :=
       map (fun m => mkMode (strip (mode_mode_name m)) (weight_capacity m))
         (modes raw);
     routes :=
       map (fun r => mkRoute (strip (origin r)) (strip (destination r))
                       (strip (mode_name r)) (lead_time r) (total_cost r))
         (routes raw) |}.



(** A [(warehouse, mode)] pair. *)
Definition Edge : Type := (string * string)%type.

Record OptimizationInput : Type := mkOptimizationInput {
  total_demand : Z;
  max_delivery_time : Z;
  selected_warehouses : list string;
  max_vehicles : dict Edge Z
}.

(* ===================================================================== *)
(** * The solver interface (PuLP)                                          *)
(* ===================================================================== *)

(** Variable names.  [LpVariable.dicts("Shipment", keys, ...)] and
    [LpVariable.dicts("Route_Used", keys, ...)] name one variable per key;
    [LpVariable("Max_Delivery_Time", ...)] is a single variable. *)
Inductive LpVar : Type :=
| Shipment (e : Edge)
| Route_Used (e : Edge)
| Max_Delivery_Time.

Inductive LpCategory : Type :=
| LpContinuous
| LpInteger
| LpBinary.

Record LpVariable : Type := mkLpVariable {
  var_name : LpVar;
  lowBound : option Q;
  upBound : option Q;
  cat : LpCategory
}.

(** [LpVariable.dicts(name, keys, lowBound, cat)] *)
Definition LpVariable_dicts (name : Edge -> LpVar) (keys : list Edge)
  (lb : option Q) (c : LpCategory) : dict Edge LpVariable :=
  map (fun k => (k, mkLpVariable (name k) lb None c)) keys.

(** A linear expression [constant + sum of coefficient * variable]. *)
Record LpAffineExpression : Type := mkAffine {
  terms : list (LpVar * Q);
  constant : Q
}.

Definition lp_var (v : LpVariable) : LpAffineExpression :=
  mkAffine [(var_name v, 1%Q)] 0%Q.

Definition lp_const (q : Q) : LpAffineExpression := mkAffine [] q.

Definition lp_mul (e : LpAffineExpression) (q : Q) : LpAffineExpression :=
  mkAffine (map (fun t => (fst t, (snd t * q)%Q)) (terms e))
    (constant e * q)%Q.

Definition lp_add (e1 e2 : LpAffineExpression) : LpAffineExpression :=
  mkAffine (terms e1 ++ terms e2)%list (constant e1 + constant e2)%Q.

Definition lp_sub (e1 e2 : LpAffineExpression) : LpAffineExpression :=
  lp_add e1 (lp_mul e2 (-1)%Q).

Definition lpSum (l : list LpAffineExpression) : LpAffineExpression :=
  fold_left lp_add l (lp_const 0%Q).

Inductive LpSense : Type :=
| LpConstraintLE
| LpConstraintGE
| LpConstraintEQ.

Record LpConstraint : Type := mkLpConstraint {
  c_lhs : LpAffineExpression;
  c_sense : LpSense;
  c_rhs : LpAffineExpression
}.

Definition lp_le (l r : LpAffineExpression) : LpConstraint :=
  mkLpConstraint l LpConstraintLE r.
Definition lp_ge (l r : LpAffineExpression) : LpConstraint :=
  mkLpConstraint l LpConstraintGE r.

(** [LpProblem(name, LpMinimize)]: the objective, once set, and the named
    constraints in the order they were added. *)
Record LpProblem : Type := mkLpProblem {
  problem_name : string;
  objective : option (string * LpAffineExpression);
  constraints : list (string * LpConstraint)
}.

Definition LpProblem_new (name : string) : LpProblem :=
  mkLpProblem name None [].

(** [model += expression, name] *)
Definition set_objective (model : LpProblem) (e : LpAffineExpression)
  (name : string) : LpProblem :=
  mkLpProblem (problem_name model) (Some (name, e)) (constraints model).

(** [model += constraint, name] *)
Definition add_constraint (model : LpProblem) (c : LpConstraint)
  (name : string) : LpProblem :=
  mkLpProblem (problem_name model) (objective model)
    (constraints model ++ [(name, c)])%list.

(** Status codes of PuLP and their names, [LpStatus]. *)
Inductive LpStatusCode : Type :=
| LpStatusNotSolved
| LpStatusOptimal
| LpStatusInfeasible
| LpStatusUnbounded
| LpStatusUndefined.

Definition LpStatus (s : LpStatusCode) : string :=
  match s with
  | LpStatusNotSolved => "Not Solved"
  | LpStatusOptimal => "Optimal"
  | LpStatusInfeasible => "Infeasible"
  | LpStatusUnbounded => "Unbounded"
  | LpStatusUndefined => "Undefined"
  end.

(** What [model.solve()] leaves behind: [model.status] and the [varValue]
    of every variable. *)
Record SolverOutput : Type := mkSolverOutput {
  status : LpStatusCode;
  varValue : LpVar -> Q
}.

Definition Solver : Type := LpProblem -> SolverOutput.

(** ** Meaning of a program *)

Definition Assignment : Type := LpVar -> Q.

Definition value (a : Assignment) (e : LpAffineExpression) : Q :=
  fold_right (fun t acc => (snd t * a (fst t) + acc)%Q) (constant e)
    (terms e).

Definition holdsb (a : Assignment) (c : LpConstraint) : bool :=
  match c_sense c with
  | LpConstraintLE => Qle_bool (value a (c_lhs c)) (value a (c_rhs c))
  | LpConstraintGE => Qle_bool (value a (c_rhs c)) (value a (c_lhs c))
  | LpConstraintEQ => Qeq_bool (value a (c_lhs c)) (value a (c_rhs c))
  end.

Definition holds (a : Assignment) (c : LpConstraint) : Prop :=
  match c_sense c with
  | LpConstraintLE => (value a (c_lhs c) <= value a (c_rhs c))%Q
  | LpConstraintGE => (value a (c_rhs c) <= value a (c_lhs c))%Q
  | LpConstraintEQ => (value a (c_lhs c) == value a (c_rhs c))%Q
  end.

Definition is_integral (q : Q) : bool := Qeq_bool q (inject_Z (int q)).

Definition in_bounds (q : Q) (lb ub : option Q) : bool :=
  match lb with Some l => Qle_bool l q | None => true end
  && match ub with Some u => Qle_bool q u | None => true end.

(** The value of a variable respects its bounds and category. *)
Definition in_domain (a : Assignment) (v : LpVariable) : bool :=
  let q := a (var_name v) in
  match cat v with
  | LpContinuous => in_bounds q (lowBound v) (upBound v)
  | LpInteger => in_bounds q (lowBound v) (upBound v) && is_integral q
  | LpBinary => Qeq_bool q 0 || Qeq_bool q 1
  end.

(** [a] satisfies every constraint of [model] and the domain of every
    variable in [vars]. *)
Definition feasible (model : LpProblem) (vars : list LpVariable)
  (a : Assignment) : bool :=
  forallb (fun nc => holdsb a (snd nc)) (constraints model)
  && forallb (in_domain a) vars.

Definition objective_value (model : LpProblem) (a : Assignment) : Q :=
  match objective model with
  | Some (_, e) => value a e
  | None => 0%Q
  end.

(** An assignment the solver may report as [Optimal]: feasible, and no
    feasible assignment has a smaller objective. *)
Definition optimal (model : LpProblem) (vars : list LpVariable)
  (a : Assignment) : Prop :=
  feasible model vars a = true /\
  forall b, feasible model vars b = true ->
            (objective_value model a <= objective_value model b)%Q.

(** ** Effects of the optimiser: messages and solver calls *)

Inductive Event : Type :=
| st_error (msg : string)
| solve_call (model : LpProblem).

Definition Py (A : Type) : Type := list Event -> PyResult A * list Event.

Definition ret {A : Type} (a : A) : Py A := fun tr => (Ok a, tr).

Definition bind {A B : Type} (c : Py A) (k : A -> Py B) : Py B :=
  fun tr =>
    match c tr with
    | (Ok a, tr') => k a tr'
    | (Raise e, tr') => (Raise e, tr')
    end.

Definition emit (ev : Event) : Py unit := fun tr => (Ok tt, (tr ++ [ev])%list).

Definition lift {A : Type} (r : PyResult A) : Py A := fun tr => (r, tr).

Declare Scope eff_scope.
Delimit Scope eff_scope with eff.
Notation "x <- c ;; k" := (bind c (fun x => k))
  (at level 61, c at next level, right associativity) : eff_scope.
Notation "c ;; k" := (bind c (fun _ => k))
  (at level 61, right associativity) : eff_scope.

(** [model.solve()] *)
Definition call_solver (solver : Solver) (model : LpProblem)
  : Py SolverOutput :=
  (emit (solve_call model) ;; ret (solver model))%eff.
Notation "' p <- c ;; k" := (bind c (fun x => let p := x in k))
  (at level 61, p pattern, c at next level, right associativity) : eff_scope.

(* ===================================================================== *)
(** * TransportationOptimizer                                              *)
(* ===================================================================== *)

(** The loop of [_get_valid_routes] over the rows of the route table. *)
Fixpoint valid_routes_loop (rows : list Route) (input_data : OptimizationInput)
  : list (string * string * Q) :=
  match rows with
  | [] => []
  | route :: rest =>
      let wh := strip (destination route) in
      let mode := strip (mode_name route) in
      if list_mem wh (selected_warehouses input_data)
         && (lead_time route <=? max_delivery_time input_data)
         && dict_mem (max_vehicles input_data) (wh, mode)
      then (wh, mode, total_cost route) :: valid_routes_loop rest input_data
      else valid_routes_loop rest input_data
  end.

Definition _get_valid_routes (self : DataLoader)
  (input_data : OptimizationInput) : list (string * string * Q) :=
  valid_routes_loop (routes self) input_data.

(** [routes[(routes['destination'] == wh) & (routes['mode_name'] == mode)]
    .iloc[0]]: the first matching row, [IndexError] when there is none. *)
Definition routes_iloc0 (self : DataLoader) (wh mode : string)
  : PyResult Route :=
  match filter (fun r => String.eqb (destination r) wh
                         && String.eqb (mode_name r) mode) (routes self) with
  | [] => Raise IndexError
  | route :: _ => Ok route
  end.

(** [{(wh, mode): cost for wh, mode, cost in valid_routes}] *)
Definition route_costs_of (valid_routes : list (string * string * Q))
  : dict Edge Q :=
  fold_left (fun d r => dict_set d (fst (fst r), snd (fst r)) (snd r))
    valid_routes [].

(** [warehouse_info] of [_add_constraints]: name to (capacity, stock_level). *)
Definition warehouse_info_of (self : DataLoader) : dict string (Q * Q) :=
  fold_left (fun d row => dict_set d (warehouse_name row)
                            (capacity row, stock_level row))
    (warehouses self) [].

(** [dict(zip(modes['mode_name'], modes['weight_capacity']))] *)
Definition vehicle_capacities_of (self : DataLoader) : dict string Q :=
  fold_left (fun d row => dict_set d (mode_mode_name row) (weight_capacity row))
    (modes self) [].

(** [shipments[wh, mode] * vehicle_capacities[mode]] *)
Definition weight_term (shipments : dict Edge LpVariable)
  (vehicle_capacities : dict string Q) (k : Edge)
  : PyResult LpAffineExpression :=
  (v <- dict_index shipments k ;;
   w <- dict_index vehicle_capacities (snd k) ;;
   Ok (lp_mul (lp_var v) w))%py.

(** Step 2 of [_add_constraints]: the loop over [selected_warehouses]. *)
Fixpoint capacity_loop (warehouse_info : dict string (Q * Q))
  (vehicle_capacities : dict string Q) (shipments : dict Edge LpVariable)
  (route_costs : dict Edge Q) (whs : list string) (model : LpProblem)
  : PyResult LpProblem :=
  match whs with
  | [] => Ok model
  | wh :: rest =>
      match dict_get warehouse_info wh with
      | Some info =>
          let available_capacity := max0 (fst info - snd info) in
          (ts <- mapR (weight_term shipments vehicle_capacities)
                 (filter (fun k : Edge => String.eqb (fst k) wh)
                    (dict_keys route_costs)) ;;
           capacity_loop warehouse_info vehicle_capacities shipments
             route_costs rest
             (add_constraint model
                (lp_le (lpSum ts) (lp_const available_capacity))
                ("Capacity_" ++ wh)))%py
      | None =>
          capacity_loop warehouse_info vehicle_capacities shipments
            route_costs rest model
      end
  end.

(** Step 3 of [_add_constraints]: the loop over [max_vehicles.items()]. *)
Fixpoint vehicle_loop (shipments : dict Edge LpVariable)
  (items : list (Edge * Z)) (model : LpProblem) : LpProblem :=
  match items with
  | [] => model
  | (k, max_veh) :: rest =>
      match dict_get shipments k with
      | Some v =>
          vehicle_loop shipments rest
            (add_constraint model
               (lp_le (lp_var v) (lp_const (inject_Z max_veh)))
               ("Max_Vehicles_" ++ fst k ++ "_" ++ snd k))
      | None => vehicle_loop shipments rest model
      end
  end.

Definition _add_constraints (self : DataLoader) (model : LpProblem)
  (shipments : dict Edge LpVariable) (input_data : OptimizationInput)
  (route_costs : dict Edge Q) : PyResult LpProblem :=
  let warehouse_info := warehouse_info_of self in
  let vehicle_capacities := vehicle_capacities_of self in
  (ts <- mapR (weight_term shipments vehicle_capacities)
         (dict_keys route_costs) ;;
   let model :=
     add_constraint model
       (lp_ge (lpSum ts) (lp_const (inject_Z (total_demand input_data))))
       "Total_Demand" in
   model <- capacity_loop warehouse_info vehicle_capacities shipments
              route_costs (selected_warehouses input_data) model ;;
   Ok (vehicle_loop shipments (max_vehicles input_data) model))%py.

Definition no_valid_routes_msg : string :=
  "No valid routes found with the current constraints.".

Definition build_cost_model (self : DataLoader)
  (input_data : OptimizationInput)
  : Py (option (LpProblem * dict Edge LpVariable)) :=
  let model := LpProblem_new "Cost_Minimization" in
  let valid_routes := _get_valid_routes self input_data in
  match valid_routes with
  | [] => (emit (st_error no_valid_routes_msg) ;; ret None)%eff
  | _ :: _ =>
      let route_costs := route_costs_of valid_routes in
      let shipments :=
        LpVariable_dicts Shipment (dict_keys route_costs) (Some 0%Q)
          LpInteger in
      lift
        (ts <- mapR (fun kc => v <- dict_index shipments (fst kc) ;;
                               Ok (lp_mul (lp_var v) (snd kc)))
               route_costs ;;
         let model := set_objective model (lpSum ts) "Total_Cost" in
         model <- _add_constraints self model shipments input_data
                    route_costs ;;
         Ok (Some (model, shipments)))%py
  end.

(** The first loop of [build_time_model]: [route_info] and [lead_times]. *)
Fixpoint route_info_loop (self : DataLoader)
  (valid_routes : list (string * string * Q)) (route_info : dict Edge Q)
  (lead_times : dict Edge Z) : PyResult (dict Edge Q * dict Edge Z) :=
  match valid_routes with
  | [] => Ok (route_info, lead_times)
  | (wh, mode, cost) :: rest =>
      let route_info := dict_set route_info (wh, mode) cost in
      (route <- routes_iloc0 self wh mode ;;
       route_info_loop self rest route_info
         (dict_set lead_times (wh, mode) (lead_time route)))%py
  end.

(** [max(values)]: [ValueError] on an empty sequence. *)
Definition py_max (l : list Z) : PyResult Z :=
  match l with
  | [] => Raise ValueError
  | x :: rest => Ok (fold_left Z.max rest x)
  end.

(** The tolerance of the lower linkage constraint, [0.0001]. *)
Definition epsilon : Q := 1 # 10000.

(** The loop that links [route_used] with [shipments]. *)
Fixpoint linkage_loop (shipments route_used : dict Edge LpVariable) (M : Z)
  (keys : list Edge) (model : LpProblem) : PyResult LpProblem :=
  match keys with
  | [] => Ok model
  | k :: rest =>
      (u <- dict_index route_used k ;;
       s <- dict_index shipments k ;;
       let model :=
         add_constraint model (lp_le (lp_mul (lp_var u) epsilon) (lp_var s))
           ("Route_Used_Lower_" ++ fst k ++ "_" ++ snd k) in
       let model :=
         add_constraint model
           (lp_ge (lp_mul (lp_var u) (inject_Z M)) (lp_var s))
           ("Route_Used_Upper_" ++ fst k ++ "_" ++ snd k) in
       linkage_loop shipments route_used M rest model)%py
  end.

(** [lead_time - M * (1 - route_used[wh, mode])] *)
Definition max_time_rhs (u : LpVariable) (M lt : Z) : LpAffineExpression :=
  lp_sub (lp_const (inject_Z lt))
    (lp_mul (lp_sub (lp_const 1%Q) (lp_var u)) (inject_Z M)).

(** The loop over [lead_times.items()] adding the max-time constraints. *)
Fixpoint max_time_loop (route_used : dict Edge LpVariable)
  (max_time : LpVariable) (M : Z) (items : list (Edge * Z))
  (model : LpProblem) : PyResult LpProblem :=
  match items with
  | [] => Ok model
  | (k, lt) :: rest =>
      (u <- dict_index route_used k ;;
       max_time_loop route_used max_time M rest
         (add_constraint model
            (lp_ge (lp_var max_time) (max_time_rhs u M lt))
            ("Max_Time_" ++ fst k ++ "_" ++ snd k)))%py
  end.

Definition build_time_model (self : DataLoader)
  (input_data : OptimizationInput)
  : Py (option (LpProblem * dict Edge LpVariable * LpVariable)) :=
  let model := LpProblem_new "Time_Minimization" in
  let valid_routes := _get_valid_routes self input_data in
  match valid_routes with
  | [] => (emit (st_error no_valid_routes_msg) ;; ret None)%eff
  | _ :: _ =>
      lift
        (' (route_info, lead_times) <-
           route_info_loop self valid_routes [] [] ;;
         let shipments :=
           LpVariable_dicts Shipment (dict_keys route_info) (Some 0%Q)
             LpInteger in
         let route_used :=
           LpVariable_dicts Route_Used (dict_keys route_info) None
             LpBinary in
         m <- py_max (dict_values lead_times) ;;
         let M := m + 1 in
         model <- linkage_loop shipments route_used M (dict_keys route_info)
                    model ;;
         let max_time :=
           mkLpVariable Max_Delivery_Time (Some 0%Q) None LpContinuous in
         let model :=
           set_objective model (lp_var max_time)
             "Minimize_Max_Delivery_Time" in
         model <- max_time_loop route_used max_time M lead_times model ;;
         model <- _add_constraints self model shipments input_data
                    route_info ;;
         Ok (Some (model, shipments, max_time)))%py
  end.

(** ** Extraction of the results *)

(** [solution[wh][mode]]: warehouse to mode to vehicle count. *)
Definition Plan : Type := dict string (dict string Z).

(** The values stored in a result dictionary. *)
Inductive PyVal : Type :=
| VNone
| VStr (s : string)
| VInt (z : Z)
| VNum (q : Q)
| VPlan (p : Plan).

Definition ResultDict : Type := dict string PyVal.

(** [if wh not in solution: solution[wh] = {}] then
    [solution[wh][mode] = val]. *)
Definition plan_set (solution : Plan) (wh mode : string) (val : Z) : Plan :=
  let solution :=
    if dict_mem solution wh then solution else dict_set solution wh [] in
  match dict_get solution wh with
  | Some inner => dict_set solution wh (dict_set inner mode val)
  | None => solution
  end.

(** The loop "collect all non-zero shipments", which [solve] runs in the
    same form for the cost model (lines 333-345) and for the time model
    (lines 377-389). *)
Fixpoint collect_shipments (self : DataLoader) (values : LpVar -> Q)
  (items : list (Edge * LpVariable)) (solution : Plan) (cost : Q)
  : PyResult (Plan * Q) :=
  match items with
  | [] => Ok (solution, cost)
  | ((wh, mode), var) :: rest =>
      let val := int (values (var_name var)) in
      if 0 <? val then
        let solution := plan_set solution wh mode val in
        (route <- routes_iloc0 self wh mode ;;
         collect_shipments self values rest solution
           (cost + inject_Z val * total_cost route)%Q)%py
      else collect_shipments self values rest solution cost
  end.

(** The loop "calculate the actual maximum lead time" of the time model
    (lines 392-399). *)
Fixpoint max_lead_time_loop (self : DataLoader) (values : LpVar -> Q)
  (items : list (Edge * LpVariable)) (max_lead_time : Z) : PyResult Z :=
  match items with
  | [] => Ok max_lead_time
  | ((wh, mode), count) :: rest =>
      if Qgt_bool (values (var_name count)) 0 then
        (route <- routes_iloc0 self wh mode ;;
         max_lead_time_loop self values rest
           (Z.max max_lead_time (lead_time route)))%py
      else max_lead_time_loop self values rest max_lead_time
  end.

(** What [solve] stores under ['cost_optimization'] once the cost model has
    been solved (lines 328-357). *)
Definition extract_cost (self : DataLoader)
  (cost_vars : dict Edge LpVariable) (out : SolverOutput)
  : PyResult ResultDict :=
  if String.eqb (LpStatus (status out)) "Optimal" then
    (' (cost_solution, cost) <-
       collect_shipments self (varValue out) cost_vars [] 0%Q ;;
     Ok [("status", VStr "Optimal");
         ("solution", VPlan cost_solution);
         ("total_cost", VNum cost)])%py
  else
    Ok [("status", VStr (LpStatus (status out)));
        ("solution", VPlan []);
        ("total_cost", VNone)].

(** What [solve] stores under ['time_optimization'] once the time model has
    been solved (lines 372-413). *)
Definition extract_time (self : DataLoader)
  (time_vars : dict Edge LpVariable) (out : SolverOutput)
  : PyResult ResultDict :=
  if String.eqb (LpStatus (status out)) "Optimal" then
    (' (time_solution, cost) <-
       collect_shipments self (varValue out) time_vars [] 0%Q ;;
     max_lead_time <- max_lead_time_loop self (varValue out) time_vars 0 ;;
     Ok [("status", VStr "Optimal");
         ("solution", VPlan time_solution);
         ("max_lead_time", VInt max_lead_time);
         ("total_cost", VNum cost)])%py
  else
    Ok [("status", VStr (LpStatus (status out)));
        ("solution", VPlan []);
        ("max_lead_time", VNone);
        ("total_cost", VNone)].

Definition failed_cost_msg : string :=
  "Failed to build cost optimization model. Please check your input parameters.".

Definition failed_time_msg : string :=
  "Failed to build time optimization model. Please check your input parameters.".

(** The first half of [solve] (lines 316-357). *)
Definition solve_cost (self : DataLoader) (solver : Solver)
  (input_data : OptimizationInput) : Py ResultDict :=
  (built <- build_cost_model self input_data ;;
   match built with
   | None =>
       emit (st_error failed_cost_msg) ;;
       ret [("status", VStr "Infeasible");
            ("solution", VPlan []);
            ("total_cost", VNone)]
   | Some (cost_model, cost_vars) =>
       out <- call_solver solver cost_model ;;
       lift (extract_cost self cost_vars out)
   end)%eff.

(** The second half of [solve] (lines 360-413). *)
Definition solve_time (self : DataLoader) (solver : Solver)
  (input_data : OptimizationInput) : Py ResultDict :=
  (built <- build_time_model self input_data ;;
   match built with
   | None =>
       emit (st_error failed_time_msg) ;;
       ret [("status", VStr "Infeasible");
            ("solution", VPlan []);
            ("max_delivery_time", VNone);
            ("total_cost", VNone)]
   | Some (time_model, time_vars, max_time_var) =>
       out <- call_solver solver time_model ;;
       lift (extract_time self time_vars out)
   end)%eff.

Definition solve (self : DataLoader) (solver : Solver)
  (input_data : OptimizationInput) : Py (dict string ResultDict) :=
  (let results := [] in
   r <- solve_cost self solver input_data ;;
   let results := dict_set results "cost_optimization" r in
   r <- solve_time self solver input_data ;;
   let results := dict_set results "time_optimization" r in
   ret results)%eff.

(** [solve] run from an empty trace. *)
Definition run_solve (self : DataLoader) (solver : Solver)
  (input_data : OptimizationInput)
  : PyResult (dict string ResultDict) * list Event :=
  solve self solver input_data [].

(** ** The variables of the two programs *)

Definition cost_variables (shipments : dict Edge LpVariable)
  : list LpVariable :=
  dict_values shipments.

(** [build_time_model] creates one [Route_Used] variable per key of
    [shipments] and the single [Max_Delivery_Time] variable. *)
Definition time_variables (shipments : dict Edge LpVariable)
  (max_time : LpVariable) : list LpVariable :=
  (dict_values shipments
   ++ dict_values
        (LpVariable_dicts Route_Used (dict_keys shipments) None LpBinary)
   ++ [max_time])%list.

(** The eligible-edge set: the keys of [route_costs] / [route_info]. *)
Definition eligible_edges (self : DataLoader)
  (input_data : OptimizationInput) : list Edge :=
  dict_keys (route_costs_of (_get_valid_routes self input_data)).

(** The program and variables a builder returns, from an empty trace; the
    empty program stands in when the builder returned [None] or raised. *)
Definition built_cost (self : DataLoader) (input_data : OptimizationInput)
  : LpProblem * dict Edge LpVariable :=
  match fst (build_cost_model self input_data []) with
  | Ok (Some p) => p
  | _ => (LpProblem_new "", [])
  end.

Definition built_time (self : DataLoader) (input_data : OptimizationInput)
  : LpProblem * dict Edge LpVariable * LpVariable :=
  match fst (build_time_model self input_data []) with
  | Ok (Some p) => p
  | _ => (LpProblem_new "", [], mkLpVariable Max_Delivery_Time None None
                                   LpContinuous)
  end.

(** [solution[wh][mode]], [None] when either key is missing. *)
Definition plan_get (solution : Plan) (e : Edge) : option Z :=
  match dict_get solution (fst e) with
  | Some inner => dict_get inner (snd e)
  | None => None
  end.

(* ===================================================================== *)
(** * The fixed instance of Scenarios A and B                             *)
(* ===================================================================== *)

Module Scenario.

Definition catalog : DataLoader :=
  {| warehouses := [mkWarehouse "A" 1000 200; mkWarehouse "B" 500 0];
     modes := [mkMode "Truck" 10; mkMode "Rail" 50];
     routes := [mkRoute "P" "A" "Rail" 5 80;
                mkRoute "P" "A" "Truck" 2 100;
                mkRoute "P" "B" "Truck" 1 120] |}.

Definition input : OptimizationInput :=
  {| total_demand := 300;
     max_delivery_time := 5;
     selected_warehouses := ["A"; "B"];
     max_vehicles := [(("A", "Rail"), 10); (("A", "Truck"), 20);
                      (("B", "Truck"), 15)] |}.

Definition A_Rail : Edge := ("A", "Rail").
Definition A_Truck : Edge := ("A", "Truck").
Definition B_Truck : Edge := ("B", "Truck").

(** An assignment given by the three shipment counts, the three
    indicators and the value of [Max_Delivery_Time]. *)
Definition assignment (r ta tb ur uta utb t : Q) : Assignment :=
  fun v =>
    match v with
    | Shipment e =>
        if key_eqb e A_Rail then r
        else if key_eqb e A_Truck then ta
        else if key_eqb e B_Truck then tb else 0%Q
    | Route_Used e =>
        if key_eqb e A_Rail then ur
        else if key_eqb e A_Truck then uta
        else if key_eqb e B_Truck then utb else 0%Q
    | Max_Delivery_Time => t
    end.


(** The same run with a ceiling no route meets. *)
Definition input_no_route : OptimizationInput :=
  {| total_demand := 300;
     max_delivery_time := 0;
     selected_warehouses := ["A"; "B"];
     max_vehicles := max_vehicles input |}.

(** The same run with a demand of 100. *)
Definition input_small : OptimizationInput :=
  {| total_demand := 100;
     max_delivery_time := 5;
     selected_warehouses := ["A"; "B"];
     max_vehicles := max_vehicles input |}.

Definition cost_model : LpProblem := fst (built_cost catalog input).
Definition cost_vars : dict Edge LpVariable :=
  snd (built_cost catalog input).
Definition time_model : LpProblem := fst (fst (built_time catalog input)).
Definition time_vars : dict Edge LpVariable :=
  snd (fst (built_time catalog input)).
Definition max_time : LpVariable := snd (built_time catalog input).

(** A solver that reports [Optimal] with the given values. *)
Definition solver_returning (a : Assignment) : Solver :=
  fun _ => mkSolverOutput LpStatusOptimal a.

(** The plan Scenario B expects: 15 trucks to A and 15 trucks to B, with
    both truck indicators set and [max_time = 2]. *)
Definition expected_B : Assignment := assignment 0 15 15 0 1 1 2.

(** Six rail vehicles to A, with [max_time = 5]. *)
Definition rail_only : Assignment := assignment 6 0 0 1 0 0 5.

(** Five trucks to A and to B, and a rail value of 1e-7 left by the
    solver's integrality tolerance. *)
Definition noisy_trucks : Assignment :=
  assignment (1 # 10000000) 5 5 0 1 1 2.

(** A catalog with two rows for the pair (A, Truck). *)
Definition duplicate_catalog : DataLoader :=
  {| warehouses := warehouses catalog;
     modes := modes catalog;
     routes := [mkRoute "P" "A" "Truck" 2 100;
                mkRoute "Q" "A" "Truck" 2 50] |}.

End Scenario.

(* ===================================================================== *)
(** * Further instances                                                    *)
(* ===================================================================== *)

Module Cases.

(** The Scenario tables with one more route, by ship to B, while the modes
    table knows trucks and rail only. *)
Definition unlisted_mode_catalog : DataLoader :=
  {| warehouses := warehouses Scenario.catalog;
     modes := modes Scenario.catalog;
     routes := (routes Scenario.catalog
                ++ [mkRoute "P" "B" "Ship" 3 10])%list |}.

Definition unlisted_mode_input : OptimizationInput :=
  {| total_demand := 100;
     max_delivery_time := 5;
     selected_warehouses := ["A"; "B"];
     max_vehicles := [(("A", "Truck"), 20); (("B", "Ship"), 4)] |}.



End Cases.

Module MoreCases.


(** The Scenario tables with warehouse A holding more than its capacity. *)
Definition overstocked_catalog : DataLoader :=
  {| warehouses := [mkWarehouse "A" 1000 1200; mkWarehouse "B" 500 0];
     modes := modes Scenario.catalog;
     routes := routes Scenario.catalog |}.

End MoreCases.

(* ===================================================================== *)
(** * The input form                                                       *)
(* ===================================================================== *)

(** The Streamlit widgets the form reads, as the user answers them: a
    number input, identified by its key (by its label when it has none),
    with its [min_value] and its default [value]; and a multi-selection
    with its label, its options and its default. *)
Record Streamlit : Type := mkStreamlit {
  number_input : string -> Z -> Z -> Z;
  multiselect : string -> list string -> list string -> list string
}.


(** [f"max_{wh}_{mode}"], the key of the ceiling widget of an edge. *)
Definition ceiling_key (wh mode : string) : string :=
  "max_" ++ wh ++ "_" ++ mode.

(** The inner loop of [get_user_input]: one ceiling widget per transport
    mode.  The state is the list of the widget keys already used in this
    run, and [max_vehicles]; Streamlit refuses a second widget with a key
    already used (its duplicate-key exception, [None] here). *)
Fixpoint ceilings_of_warehouse (st : Streamlit) (wh : string)
  (transport_modes : list string) (used : list string)
  (max_vehicles : dict Edge Z) : option (list string * dict Edge Z) :=
  match transport_modes with
  | [] => Some (used, max_vehicles)
  | mode :: rest =>
      if list_mem (ceiling_key wh mode) used then None
      else
        ceilings_of_warehouse st wh rest (ceiling_key wh mode :: used)
          (dict_set max_vehicles (wh, mode)
             (number_input st (ceiling_key wh mode) 0 5))
  end.

(** The outer loop of [get_user_input], over the selected warehouses. *)
Fixpoint ceilings_of_selection (st : Streamlit) (selected : list string)
  (transport_modes : list string) (used : list string)
  (max_vehicles : dict Edge Z) : option (list string * dict Edge Z) :=
  match selected with
  | [] => Some (used, max_vehicles)
  | wh :: rest =>
      match ceilings_of_warehouse st wh transport_modes used max_vehicles with
      | Some (used', max_vehicles') =>
          ceilings_of_selection st rest transport_modes used' max_vehicles'
      | None => None
      end
  end.

(** [TransportationOptimizer.get_user_input] as the class ends up with it:
    the second definition (lines 416-470) replaces the first.  The three
    widgets before the loop carry no key of their own. *)
Definition get_user_input (self : DataLoader) (st : Streamlit)
  : option OptimizationInput :=
  let total_demand := number_input st "Total Permintaan (ton)" 1 1000 in
  let max_delivery_time :=
    number_input st "Waktu Pengiriman Maksimum (hari)" 1 7 in
  let warehouse_options := map warehouse_name (warehouses self) in
  let selected_warehouses :=
    multiselect st "Pilih gudang yang akan digunakan dalam optimasi"
      warehouse_options (firstn 3 warehouse_options) in
  let transport_modes := map mode_mode_name (modes self) in
  match ceilings_of_selection st selected_warehouses transport_modes [] [] with
  | Some (_, max_vehicles) =>
      Some {| total_demand := total_demand;
              max_delivery_time := max_delivery_time;
              selected_warehouses := selected_warehouses;
              max_vehicles := max_vehicles |}
  | None => None
  end.

(** What the form reads before its loops. *)
Definition form_selection (self : DataLoader) (st : Streamlit) : list string :=
  multiselect st "Pilih gudang yang akan digunakan dalam optimasi"
    (map warehouse_name (warehouses self))
    (firstn 3 (map warehouse_name (warehouses self))).

Definition form_modes (self : DataLoader) : list string :=
  map mode_mode_name (modes self).

(** The edges the form asks a ceiling for, in the order of its two loops. *)
Definition form_edges (selected transport_modes : list string) : list Edge :=
  flat_map (fun wh => map (fun mode => (wh, mode)) transport_modes) selected.

Definition edge_key (e : Edge) : string := ceiling_key (fst e) (snd e).

(** The ceiling the user gives an edge. *)
Definition form_ceiling (st : Streamlit) (e : Edge) : Z :=
  number_input st (edge_key e) 0 5.

(** The two loops of the form run as one loop over its edges. *)
Fixpoint ceilings_of_edges (st : Streamlit) (edges : list Edge)
  (used : list string) (max_vehicles : dict Edge Z)
  : option (list string * dict Edge Z) :=
  match edges with
  | [] => Some (used, max_vehicles)
  | e :: rest =>
      if list_mem (edge_key e) used then None
      else ceilings_of_edges st rest (edge_key e :: used)
             (dict_set max_vehicles e (form_ceiling st e))
  end.

(* ===================================================================== *)
(** * Vocabulary of the properties                                        *)
(* ===================================================================== *)

Local Open Scope Q_scope.

(** The key comparison decides equality. *)
Class KeyOk (K : Type) {key : Key K} : Prop := {
  key_eqb_eq : forall a b : K, key_eqb a b = true <-> a = b
}.

Arguments KeyOk K {key}.

(** Sum of a list of numbers. *)
Definition sumQ (l : list Q) : Q := fold_right Qplus 0 l.

(** [weight_capacity[mode]] as [_add_constraints] reads it. *)
Definition mode_weight (self : DataLoader) (mode : string) : Q :=
  match dict_get (vehicle_capacities_of self) mode with
  | Some w => w
  | None => 0
  end.

(** [available_capacity[w] = max(0, capacity - stock_level)]. *)
Definition available_capacity (self : DataLoader) (w : string) : Q :=
  match dict_get (warehouse_info_of self) w with
  | Some info => max0 (fst info - snd info)
  | None => 0
  end.

(** Weight carried over [edges] under the assignment [a]. *)
Definition shipped_weight (self : DataLoader) (a : Assignment)
  (edges : list Edge) : Q :=
  sumQ (map (fun e => a (Shipment e) * mode_weight self (snd e)) edges).

(** Weight arriving at warehouse [w]. *)
Definition inbound_weight (self : DataLoader) (a : Assignment)
  (edges : list Edge) (w : string) : Q :=
  shipped_weight self a (filter (fun e => String.eqb (fst e) w) edges).

(** The shipment variables both builders create. *)
Definition shipment_vars (edges : list Edge) : dict Edge LpVariable :=
  LpVariable_dicts Shipment edges (Some 0) LpInteger.

(** The name of a vehicle-ceiling constraint. *)
Definition ceiling_name (e : Edge) : string :=
  "Max_Vehicles_" ++ fst e ++ "_" ++ snd e.

(** The [max_vehicles] items that receive a ceiling constraint. *)
Definition ceiling_items (keys : list Edge) (items : list (Edge * Z))
  : list (Edge * Z) :=
  filter (fun kv => dict_mem (shipment_vars keys) (fst kv)) items.

(** The selected warehouses that receive a capacity constraint. *)
Definition capacity_warehouses (self : DataLoader)
  (input_data : OptimizationInput) : list string :=
  filter (fun w => dict_mem (warehouse_info_of self) w)
    (selected_warehouses input_data).

(** A ceiling constraint for the item [kv]. *)
Definition is_ceiling (kv : Edge * Z) (nc : string * LpConstraint) : Prop :=
  fst nc = ceiling_name (fst kv) /\
  forall a, holds a (snd nc) <-> a (Shipment (fst kv)) <= inject_Z (snd kv).

(** A capacity constraint for the warehouse [w]. *)
Definition is_capacity (self : DataLoader) (edges : list Edge) (w : string)
  (nc : string * LpConstraint) : Prop :=
  fst nc = "Capacity_" ++ w /\
  forall a, holds a (snd nc) <->
            inbound_weight self a edges w <= available_capacity self w.

(** The demand constraint. *)
Definition is_demand (self : DataLoader) (input_data : OptimizationInput)
  (edges : list Edge) (nc : string * LpConstraint) : Prop :=
  fst nc = "Total_Demand" /\
  forall a, holds a (snd nc) <->
            inject_Z (total_demand input_data) <= shipped_weight self a edges.

(** The lead time [build_time_model] and [solve] read for an edge: that of
    the first route row with the edge's destination and mode. *)
Definition edge_lead_time (self : DataLoader) (e : Edge) : option Z :=
  match routes_iloc0 self (fst e) (snd e) with
  | Ok route => Some (lead_time route)
  | Raise _ => None
  end.

(** The cost [solve] reads for an edge, from the same row. *)
Definition edge_cost (self : DataLoader) (e : Edge) : option Q :=
  match routes_iloc0 self (fst e) (snd e) with
  | Ok route => Some (total_cost route)
  | Raise _ => None
  end.

Definition ship_var (e : Edge) : LpVariable :=
  mkLpVariable (Shipment e) (Some 0) None LpInteger.

Definition used_var (e : Edge) : LpVariable :=
  mkLpVariable (Route_Used e) None None LpBinary.

Definition max_time_var : LpVariable :=
  mkLpVariable Max_Delivery_Time (Some 0) None LpContinuous.

(** [epsilon * used[e] <= shipments[e]] *)
Definition lower_link (e : Edge) : string * LpConstraint :=
  ("Route_Used_Lower_" ++ fst e ++ "_" ++ snd e,
   lp_le (lp_mul (lp_var (used_var e)) epsilon) (lp_var (ship_var e))).

(** [M * used[e] >= shipments[e]] *)
Definition upper_link (M : Z) (e : Edge) : string * LpConstraint :=
  ("Route_Used_Upper_" ++ fst e ++ "_" ++ snd e,
   lp_ge (lp_mul (lp_var (used_var e)) (inject_Z M)) (lp_var (ship_var e))).

(** [max_time >= lead_time[e] - M * (1 - used[e])] *)
Definition max_time_constraint (M : Z) (e : Edge) (lt : Z)
  : string * LpConstraint :=
  ("Max_Time_" ++ fst e ++ "_" ++ snd e,
   lp_ge (lp_var max_time_var) (max_time_rhs (used_var e) M lt)).

(** The composition of a list of constraints: the demand constraint, one
    capacity constraint per warehouse of [whs], one ceiling per
    [max_vehicles] item whose key is an eligible edge. *)
Definition assembled_with (self : DataLoader)
  (input_data : OptimizationInput) (whs : list string)
  (cs : list (string * LpConstraint)) : Prop :=
  let E := eligible_edges self input_data in
  exists demand caps ceils,
    cs = (demand :: caps ++ ceils)%list /\
    is_demand self input_data E demand /\
    Forall2 (is_capacity self E) whs caps /\
    Forall2 is_ceiling (ceiling_items E (max_vehicles input_data)) ceils.

(** What [_add_constraints] attaches: the capacity constraints are those of
    the selected warehouses found in the warehouse table. *)
Definition assembled (self : DataLoader) (input_data : OptimizationInput)
  (cs : list (string * LpConstraint)) : Prop :=
  assembled_with self input_data (capacity_warehouses self input_data) cs.


(** The modes table lists the mode of every eligible edge. *)
Definition modes_listed (self : DataLoader) (input_data : OptimizationInput)
  : bool :=
  forallb (fun e : Edge => dict_mem (vehicle_capacities_of self) (snd e))
    (eligible_edges self input_data).

(** The objective the cost builder sets. *)
Definition cost_objective (route_costs : dict Edge Q) : LpAffineExpression :=
  lpSum (map (fun kc => lp_mul (lp_var (ship_var (fst kc))) (snd kc))
           route_costs).

(** [M] is one more than the largest lead time of an eligible edge. *)
Definition is_big_M (self : DataLoader) (input_data : OptimizationInput)
  (M : Z) : Prop :=
  (forall e, In e (eligible_edges self input_data) ->
     exists lt, edge_lead_time self e = Some lt /\ (lt + 1 <= M)%Z) /\
  (exists e, In e (eligible_edges self input_data) /\
             edge_lead_time self e = Some (M - 1)%Z).

(** What the three constraints of an edge force on an assignment that
    respects the domains of the edge's variables. *)
Definition linkage_forces (M : Z) (e : Edge) (lt : Z) (a : Assignment)
  : Prop :=
  (a (Route_Used e) == 0 -> a (Shipment e) == 0) /\
  (0 < a (Shipment e) -> a (Route_Used e) == 1) /\
  (a (Route_Used e) == 1 -> inject_Z lt <= a Max_Delivery_Time) /\
  (a (Route_Used e) == 0 ->
     value a (max_time_rhs (used_var e) M lt) < 0 /\
     value a (max_time_rhs (used_var e) M lt) <= a Max_Delivery_Time).

(** The cost [solve] multiplies a count with; [0] stands in where the
    lookup raises. *)
Definition cost_of (self : DataLoader) (e : Edge) : Q :=
  match edge_cost self e with
  | Some q => q
  | None => 0
  end.

(** Sum over the entries of a plan of [count * route_cost(warehouse, mode)],
    warehouse by warehouse. *)
Definition plan_cost (self : DataLoader) (p : Plan) : Q :=
  sumQ (map (fun wi =>
               sumQ (map (fun mc => inject_Z (snd mc)
                                    * cost_of self (fst wi, fst mc))
                       (snd wi)))
          p).

(** The edge has a positive count once its value is truncated. *)
Definition counted (values : LpVar -> Q) (e : Edge) : bool :=
  0 <? int (values (Shipment e)).

(** The raw value of the edge is positive. *)
Definition raw_positive (values : LpVar -> Q) (e : Edge) : bool :=
  Qgt_bool (values (Shipment e)) 0.

(** [_get_route_info]: weight capacity, lead time and cost per trip of an
    edge; [None] when the route row or the mode row is missing. *)
Definition _get_route_info (self : DataLoader) (wh mode : string)
  : option (Q * Z * Q) :=
  match routes_iloc0 self wh mode with
  | Ok route =>
      match filter (fun m => String.eqb (mode_mode_name m) mode)
              (modes self) with
      | mode_info :: _ =>
          Some (weight_capacity mode_info, lead_time route, total_cost route)
      | [] => None
      end
  | Raise _ => None
  end.

(** The maximum lead time of a plan as [_display_results] computes it for
    the cost solution (lines 566-573): over the entries with a positive
    count. *)
Definition plan_max_lead_time (self : DataLoader) (solution : Plan) : Z :=
  fold_left
    (fun acc wi =>
       fold_left
         (fun acc mc =>
            if 0 <? snd mc then
              match _get_route_info self (fst wi) (fst mc) with
              | Some info => Z.max acc (snd (fst info))
              | None => acc
              end
            else acc)
         (snd wi) acc)
    solution 0%Z.

(** The count a plan holds for an edge, [0] for an edge without entry. *)
Definition plan_count (solution : Plan) (e : Edge) : Z :=
  match plan_get solution e with
  | Some n => n
  | None => 0%Z
  end.

(** A plan read as an assignment of the shipment variables. *)
Definition plan_assignment (solution : Plan) : Assignment :=
  fun v =>
    match v with
    | Shipment e => inject_Z (plan_count solution e)
    | _ => 0
    end.

(** [max_vehicles[e]], [0] for a pair that is not a key. *)
Definition vehicle_ceiling (input_data : OptimizationInput) (e : Edge) : Z :=
  match dict_get (max_vehicles input_data) e with
  | Some z => z
  | None => 0%Z
  end.


(** No eligible edge has a negative weight capacity. *)
Definition weights_nonnegative (self : DataLoader)
  (input_data : OptimizationInput) : bool :=
  forallb (fun e : Edge => Qle_bool 0 (mode_weight self (snd e)))
    (eligible_edges self input_data).

(* --------------------------------------------------------------------- *)
(** ** The result page                                                     *)
(* --------------------------------------------------------------------- *)

(** One row of the shipment table (lines 521-530 and 593-602). *)
Record ShipmentRow : Type := mkShipmentRow {
  Gudang : string;
  Moda : string;
  Jumlah_Kendaraan : Z;
  Berat_per_Kendaraan : Q;
  Total_Berat : Q;
  Waktu_Tempuh : Z;
  Biaya_per_Perjalanan : Q;
  Total_Biaya : Q
}.

(** What [_display_results] puts on the page, call by call.  A formatted
    number is kept as the number, a fixed message as a constructor. *)
Inductive Shown : Type :=
| st_header (title : string)
| st_subheader (title : string)
| st_divider
| warning_cost_not_optimal
| warning_time_not_optimal
| write_status (status : PyVal)
| success_cost_optimal
| write_total_cost (total_cost : Q)
| write_total_weight (total_weight : Q)
| write_plan_title
| st_dataframe (rows : list ShipmentRow)
| write_max_lead_time (max_lead_time : Z)
| warning_no_plan
| success_shorter_time (max_lead_time : Q) (cost_max_lead_time : Z)
| info_not_shorter
| write_best_max_lead_time (cost_max_lead_time : Z).

(** The two loops over a plan that fill [shipment_details] and add up
    [total_weight] (lines 514-530 and 586-602). *)
Definition shipment_details (self : DataLoader) (solution : Plan)
  : list ShipmentRow * Q :=
  fold_left
    (fun acc wi =>
       fold_left
         (fun acc mc =>
            if (0 <? snd mc)%Z then
              match _get_route_info self (fst wi) (fst mc) with
              | Some (weight_capacity, lead_time_days, cost_per_trip) =>
                  let weight := inject_Z (snd mc) * weight_capacity in
                  ((fst acc
                    ++ [mkShipmentRow (fst wi) (fst mc) (snd mc)
                          weight_capacity weight lead_time_days cost_per_trip
                          (inject_Z (snd mc) * cost_per_trip)])%list,
                   snd acc + weight)
              | None => acc
              end
            else acc)
         (snd wi) acc)
    solution ([], 0).

(** [cost_df['Waktu Tempuh (hari)'].max()] of a table that is not empty. *)
Definition column_max (rows : list ShipmentRow) : option Z :=
  match rows with
  | [] => None
  | row :: rest =>
      Some (fold_left (fun m r => Z.max m (Waktu_Tempuh r)) rest
              (Waktu_Tempuh row))
  end.

(** [status != 'Optimal'], negated. *)
Definition is_optimal (status : PyVal) : bool :=
  match status with
  | VStr s => String.eqb s "Optimal"
  | _ => false
  end.

(** A value under the format [,.2f] or [.1f]: a number, an exception
    ([None] here) for anything else. *)
Definition as_number (v : PyVal) : option Q :=
  match v with
  | VInt z => Some (inject_Z z)
  | VNum q => Some q
  | _ => None
  end.

(** [result.get('solution')] followed, when it is truthy, by [.items()]:
    [Some None] for a missing or falsy value, [Some (Some p)] for a plan
    that is not empty, and [None] for a truthy value without [items], on
    which Python raises. *)
Definition solution_of (result : ResultDict) : option (option Plan) :=
  match dict_get result "solution" with
  | None => Some None
  | Some VNone => Some None
  | Some (VPlan []) => Some None
  | Some (VPlan p) => Some (Some p)
  | Some (VStr s) => if String.eqb s "" then Some None else None
  | Some (VInt z) => if (z =? 0)%Z then Some None else None
  | Some (VNum q) => if Qeq_bool q 0 then Some None else None
  end.

(** [time_result.get('max_lead_time', float('inf')) < cost_max_lead_time];
    [None] where Python refuses the comparison. *)
Definition lead_time_below (v : option PyVal) (cost_max_lead_time : Z)
  : option bool :=
  match v with
  | None => Some false
  | Some (VInt z) => Some (z <? cost_max_lead_time)%Z
  | Some (VNum q) => Some (negb (Qle_bool (inject_Z cost_max_lead_time) q))
  | Some _ => None
  end.

(** The first half of [_display_results] (lines 499-551); [None] when it
    raises. *)
Definition display_cost (self : DataLoader) (cost_result : ResultDict)
  : option (list Shown) :=
  match cost_result with
  | [] => Some [warning_cost_not_optimal]
  | _ :: _ =>
      match dict_get cost_result "status" with
      | None => None
      | Some status =>
          if is_optimal status then
            match dict_get cost_result "total_cost" with
            | None => None
            | Some v =>
                match as_number v, solution_of cost_result with
                | Some total_cost, Some (Some p) =>
                    let details := shipment_details self p in
                    Some ([success_cost_optimal; write_total_cost total_cost;
                           write_total_weight (snd details); write_plan_title;
                           st_dataframe (fst details)]
                          ++ match column_max (fst details) with
                             | Some m => [write_max_lead_time m]
                             | None => []
                             end)%list
                | Some total_cost, Some None =>
                    Some [success_cost_optimal; write_total_cost total_cost;
                          warning_no_plan]
                | _, _ => None
                end
            end
          else Some [warning_cost_not_optimal; write_status status]
      end
  end.

(** The second half of [_display_results] (lines 557-619); [None] when it
    raises. *)
Definition display_time (self : DataLoader)
  (cost_result time_result : ResultDict) : option (list Shown) :=
  match time_result with
  | [] => Some [warning_time_not_optimal]
  | _ :: _ =>
      match dict_get time_result "status" with
      | None => None
      | Some status =>
          if is_optimal status then
            match solution_of cost_result with
            | None => None
            | Some cost_solution =>
                let cost_max_lead_time :=
                  match cost_solution with
                  | Some p => plan_max_lead_time self p
                  | None => 0%Z
                  end in
                match lead_time_below (dict_get time_result "max_lead_time")
                        cost_max_lead_time with
                | None => None
                | Some false =>
                    Some [info_not_shorter;
                          write_best_max_lead_time cost_max_lead_time]
                | Some true =>
                    match dict_get time_result "max_lead_time",
                          dict_get time_result "total_cost" with
                    | Some t, Some c =>
                        match as_number t, as_number c,
                              solution_of time_result with
                        | Some max_lead_time, Some total_cost, Some sol =>
                            Some ([success_shorter_time max_lead_time
                                     cost_max_lead_time;
                                   write_total_cost total_cost]
                                  ++ match sol with
                                     | Some p =>
                                         let details :=
                                           shipment_details self p in
                                         [write_total_weight (snd details);
                                          write_plan_title;
                                          st_dataframe (fst details)]
                                     | None => []
                                     end)%list
                        | _, _, _ => None
                        end
                    | _, _ => None
                    end
                end
            end
          else Some [warning_time_not_optimal; write_status status]
      end
  end.

(** [results.get(key, {})] *)
Definition results_get (results : dict string ResultDict) (key : string)
  : ResultDict :=
  match dict_get results key with
  | Some r => r
  | None => []
  end.

(** [TransportationOptimizer._display_results] (lines 493-619). *)
Definition _display_results (self : DataLoader)
  (results : dict string ResultDict) : option (list Shown) :=
  let cost_result := results_get results "cost_optimization" in
  let time_result := results_get results "time_optimization" in
  match display_cost self cost_result,
        display_time self cost_result time_result with
  | Some c, Some t =>
      Some ([st_header "Hasil Optimasi"; st_subheader "1. Optimasi Biaya"]
            ++ c ++ [st_divider; st_subheader "2. Optimasi Waktu"] ++ t)%list
  | _, _ => None
  end.

(** The button of [main] (lines 667-670): [solve] on the input of the form,
    then the page of its results.  [None] when either raises. *)
Definition run_optimization (self : DataLoader) (solver : Solver)
  (input_data : OptimizationInput) : option (list Shown) :=
  match fst (run_solve self solver input_data) with
  | Ok results => _display_results self results
  | Raise _ => None
  end.

(** The two forms of a result [solve] stores for the cost model. *)
Definition cost_shape (r : ResultDict) : Prop :=
  (exists p c, r = [("status", VStr "Optimal");
                    ("solution", VPlan p);
                    ("total_cost", VNum c)]) \/
  (exists s, s <> "Optimal" /\
             r = [("status", VStr s);
                  ("solution", VPlan []);
                  ("total_cost", VNone)]).

(** The two forms of a result [solve] stores for the time model. *)
Definition time_shape (r : ResultDict) : Prop :=
  (exists p m c, (0 <= m)%Z /\
                 r = [("status", VStr "Optimal");
                      ("solution", VPlan p);
                      ("max_lead_time", VInt m);
                      ("total_cost", VNum c)]) \/
  (exists s k, s <> "Optimal" /\
               r = [("status", VStr s);
                    ("solution", VPlan []);
                    (k, VNone);
                    ("total_cost", VNone)]).

(** The entries of a plan, warehouse by warehouse, as the loops of the page
    meet them. *)
Definition plan_entries (p : Plan) : list (Edge * Z) :=
  flat_map (fun wi => map (fun mc => ((fst wi, fst mc), snd mc)) (snd wi)) p.

(** The row, if any, the page builds for an entry of a plan. *)
Definition row_of (self : DataLoader) (en : Edge * Z) : list ShipmentRow :=
  if (0 <? snd en)%Z then
    match _get_route_info self (fst (fst en)) (snd (fst en)) with
    | Some (weight_capacity, lead_time_days, cost_per_trip) =>
        [mkShipmentRow (fst (fst en)) (snd (fst en)) (snd en) weight_capacity
           (inject_Z (snd en) * weight_capacity) lead_time_days cost_per_trip
           (inject_Z (snd en) * cost_per_trip)]
    | None => []
    end
  else [].


(** The sum of the column [Total Berat (ton)] of a table. *)
Definition table_total_weight (rows : list ShipmentRow) : Q :=
  sumQ (map Total_Berat rows).



Local Close Scope Q_scope.

(* ===================================================================== *)
(** * Properties of the runtime model                                      *)
(* ===================================================================== *)

#[global] Instance KeyOk_string : KeyOk string.
Proof. constructor. exact String.eqb_eq. Qed.

#[global] Instance KeyOk_pair {A B : Type} `{KeyOk A} `{KeyOk B}
  : KeyOk (A * B).
Proof.
  constructor. intros [a1 b1] [a2 b2]. unfold key_eqb, Key_pair. simpl.
  rewrite andb_true_iff, !key_eqb_eq. split.
  - intros [-> ->]. reflexivity.
  - intros E. inversion E. auto.
Qed.

Lemma key_eqb_refl {K : Type} `{KeyOk K} (k : K) : key_eqb k k = true.
Proof. apply key_eqb_eq. reflexivity. Qed.

Lemma key_eqb_neq {K : Type} `{KeyOk K} (a b : K) :
  key_eqb a b = false <-> a <> b.
Proof.
  rewrite <- key_eqb_eq. destruct (key_eqb a b); split; congruence.
Qed.

Section StripFacts.

Lemma lstrip_idem (s : string) : lstrip (lstrip s) = lstrip s.
Proof.
  induction s as [|c s IH]; simpl; [reflexivity|].
  destruct (isspace c) eqn:E; [exact IH|].
  simpl. rewrite E. reflexivity.
Qed.

Lemma rstrip_idem (s : string) : rstrip (rstrip s) = rstrip s.
Proof.
  induction s as [|c s IH]; simpl; [reflexivity|].
  destruct (rstrip s) as [|d t] eqn:E.
  - destruct (isspace c) eqn:Ec; simpl; [reflexivity|].
    rewrite Ec. reflexivity.
  - simpl in *. rewrite IH. reflexivity.
Qed.

(** Dropping leading white space leaves a right-stripped string
    right-stripped. *)
Lemma rstrip_lstrip_fixed (s : string) :
  rstrip s = s -> rstrip (lstrip s) = lstrip s.
Proof.
  induction s as [|c s IH]; simpl; [reflexivity|].
  intros E. destruct (isspace c) eqn:Ec.
  - apply IH. destruct (rstrip s) as [|d t] eqn:Er.
    + discriminate E.
    + congruence.
  - simpl. rewrite Ec. exact E.
Qed.

Lemma strip_idem (s : string) : strip (strip s) = strip s.
Proof.
  unfold strip.
  rewrite (rstrip_lstrip_fixed (rstrip_idem s)).
  apply lstrip_idem.
Qed.

End StripFacts.



Section DictFacts.
Context {K V : Type} `{KeyOk K}.

Lemma dict_get_In (d : dict K V) (k : K) (v : V) :
  dict_get d k = Some v -> In (k, v) d.
Proof.
  induction d as [|[k' v'] d IH]; simpl; [discriminate|].
  destruct (key_eqb k k') eqn:E.
  - apply key_eqb_eq in E. intros [= ->]. left. congruence.
  - intros G. right. auto.
Qed.

Lemma dict_mem_keys (d : dict K V) (k : K) :
  dict_mem d k = true <-> In k (dict_keys d).
Proof.
  unfold dict_mem, dict_keys.
  induction d as [|[k' v'] d IH]; simpl.
  - split; [discriminate | tauto].
  - destruct (key_eqb k k') eqn:E.
    + apply key_eqb_eq in E. split; auto.
    + apply key_eqb_neq in E. rewrite IH. split; [auto|].
      intros [E'|I]; [congruence | exact I].
Qed.

Lemma dict_get_None (d : dict K V) (k : K) :
  dict_get d k = None <-> ~ In k (dict_keys d).
Proof.
  rewrite <- dict_mem_keys. unfold dict_mem.
  destruct (dict_get d k); split; intros; congruence.
Qed.

Lemma dict_keys_set (d : dict K V) (k : K) (v : V) (x : K) :
  In x (dict_keys (dict_set d k v)) <-> x = k \/ In x (dict_keys d).
Proof.
  unfold dict_keys. induction d as [|[k' v'] d IH]; simpl.
  - intuition congruence.
  - destruct (key_eqb k k') eqn:E; simpl.
    + apply key_eqb_eq in E. subst k'. intuition congruence.
    + rewrite IH. intuition congruence.
Qed.

Lemma dict_set_NoDup (d : dict K V) (k : K) (v : V) :
  NoDup (dict_keys d) -> NoDup (dict_keys (dict_set d k v)).
Proof.
  unfold dict_keys. induction d as [|[k' v'] d IH]; simpl; intros N.
  - constructor; [simpl; tauto | constructor].
  - inversion N as [|? ? Hn N']; subst.
    destruct (key_eqb k k') eqn:E; simpl.
    + constructor; assumption.
    + constructor; [|auto].
      intros I. apply (dict_keys_set d k v k') in I.
      apply key_eqb_neq in E. destruct I; [congruence | contradiction].
Qed.

Lemma dict_get_set_same (d : dict K V) (k : K) (v : V) :
  dict_get (dict_set d k v) k = Some v.
Proof.
  induction d as [|[k' v'] d IH]; simpl.
  - rewrite key_eqb_refl. reflexivity.
  - destruct (key_eqb k k') eqn:E; simpl; rewrite E; auto.
Qed.

Lemma dict_get_set_other (d : dict K V) (k : K) (v : V) (x : K) :
  x <> k -> dict_get (dict_set d k v) x = dict_get d x.
Proof.
  intros N. induction d as [|[k' v'] d IH]; simpl.
  - apply key_eqb_neq in N. rewrite N. reflexivity.
  - destruct (key_eqb k k') eqn:E; simpl.
    + apply key_eqb_eq in E. subst k'.
      apply key_eqb_neq in N. rewrite N. reflexivity.
    + destruct (key_eqb x k'); auto.
Qed.

End DictFacts.

(* ===================================================================== *)
(** * The route validity filter                                            *)
(* ===================================================================== *)

Lemma list_mem_In (x : string) (l : list string) :
  list_mem x l = true <-> In x l.
Proof.
  unfold list_mem. rewrite existsb_exists. split.
  - intros [y [I E]]. apply String.eqb_eq in E. subst y. exact I.
  - intros I. exists x. split; [exact I | apply String.eqb_refl].
Qed.

(** What the loop of [_get_valid_routes] keeps. *)
Lemma valid_routes_loop_In (rows : list Route) (input_data : OptimizationInput)
  (wh mode : string) (c : Q) :
  In (wh, mode, c) (valid_routes_loop rows input_data) <->
  exists r, In r rows /\ strip (destination r) = wh /\
            strip (mode_name r) = mode /\ total_cost r = c /\
            list_mem wh (selected_warehouses input_data) = true /\
            lead_time r <= max_delivery_time input_data /\
            dict_mem (max_vehicles input_data) (wh, mode) = true.
Proof.
  induction rows as [|r rows IH]; simpl.
  - split; [tauto | intros [r [[] _]]].
  - destruct (list_mem (strip (destination r)) (selected_warehouses input_data)
              && (lead_time r <=? max_delivery_time input_data)
              && dict_mem (max_vehicles input_data)
                   (strip (destination r), strip (mode_name r))) eqn:C.
    + simpl. rewrite IH. split.
      * intros [E | [r' [I R]]].
        -- inversion E; subst. exists r.
           apply andb_true_iff in C. destruct C as [C C3].
           apply andb_true_iff in C. destruct C as [C1 C2].
           apply Z.leb_le in C2. auto 10.
        -- exists r'. tauto.
      * intros [r' [[E | I] R]].
        -- subst r'. left. destruct R as [<- [<- [<- _]]]. reflexivity.
        -- right. exists r'. tauto.
    + rewrite IH. split.
      * intros [r' [I R]]. exists r'. tauto.
      * intros [r' [[E | I] R]].
        -- subst r'. exfalso.
           destruct R as [E1 [E2 [_ [M1 [L M2]]]]].
           rewrite E1, E2, M1, M2 in C.
           apply Z.leb_le in L. rewrite L in C. discriminate C.
        -- exists r'. tauto.
Qed.

Lemma route_costs_fold_keys (l : list (string * string * Q))
  (d : dict Edge Q) (k : Edge) :
  In k (dict_keys
          (fold_left (fun d r => dict_set d (fst (fst r), snd (fst r)) (snd r))
             l d)) <->
  In k (dict_keys d) \/ exists c, In (fst k, snd k, c) l.
Proof.
  revert d. induction l as [|[[w m] c] l IH]; intros d; simpl.
  - split; [auto | intros [I | [c []]]; exact I].
  - rewrite IH, dict_keys_set. destruct k as [kw km]. simpl. split.
    + intros [[E | I] | [c' I]].
      * inversion E; subst. right. exists c. auto.
      * auto.
      * right. exists c'. auto.
    + intros [I | [c' [E | I]]].
      * auto.
      * inversion E; subst. auto.
      * right. exists c'. exact I.
Qed.

Lemma route_costs_keys (l : list (string * string * Q)) (k : Edge) :
  In k (dict_keys (route_costs_of l)) <-> exists c, In (fst k, snd k, c) l.
Proof.
  unfold route_costs_of. rewrite route_costs_fold_keys. simpl. tauto.
Qed.

Lemma route_costs_fold_NoDup (l : list (string * string * Q))
  (d : dict Edge Q) :
  NoDup (dict_keys d) ->
  NoDup (dict_keys
           (fold_left
              (fun d r => dict_set d (fst (fst r), snd (fst r)) (snd r)) l d)).
Proof.
  revert d. induction l as [|r l IH]; intros d N; simpl; [exact N|].
  apply IH. apply dict_set_NoDup. exact N.
Qed.

(** The eligible edges are pairwise distinct: they are dictionary keys. *)
Lemma eligible_edges_NoDup (self : DataLoader)
  (input_data : OptimizationInput) :
  NoDup (eligible_edges self input_data).
Proof.
  unfold eligible_edges, route_costs_of. apply route_costs_fold_NoDup.
  constructor.
Qed.



(* ===================================================================== *)
(** * Linear expressions and constraints                                   *)
(* ===================================================================== *)

Local Open Scope Q_scope.

Lemma value_terms_app (a : Assignment) (t1 t2 : list (LpVar * Q)) (c1 c2 : Q) :
  value a (mkAffine (t1 ++ t2) (c1 + c2))
  == value a (mkAffine t1 c1) + value a (mkAffine t2 c2).
Proof.
  unfold value. simpl. induction t1 as [|t t1 IH]; simpl.
  - induction t2 as [|t t2 IH2]; simpl; [ring|]. rewrite IH2. ring.
  - rewrite IH. ring.
Qed.

Lemma value_lp_add (a : Assignment) (e1 e2 : LpAffineExpression) :
  value a (lp_add e1 e2) == value a e1 + value a e2.
Proof.
  unfold lp_add. rewrite value_terms_app.
  destruct e1, e2. reflexivity.
Qed.

Lemma value_lp_mul (a : Assignment) (e : LpAffineExpression) (q : Q) :
  value a (lp_mul e q) == value a e * q.
Proof.
  destruct e as [ts c]. unfold lp_mul, value. simpl.
  induction ts as [|t ts IH]; simpl; [ring|]. rewrite IH. ring.
Qed.

Lemma value_lp_var (a : Assignment) (v : LpVariable) :
  value a (lp_var v) == a (var_name v).
Proof. unfold lp_var, value. simpl. ring. Qed.

Lemma value_lp_const (a : Assignment) (q : Q) : value a (lp_const q) = q.
Proof. reflexivity. Qed.

Lemma value_lp_sub (a : Assignment) (e1 e2 : LpAffineExpression) :
  value a (lp_sub e1 e2) == value a e1 - value a e2.
Proof. unfold lp_sub. rewrite value_lp_add, value_lp_mul. ring. Qed.

Lemma value_fold_lp_add (a : Assignment) (l : list LpAffineExpression)
  (e : LpAffineExpression) :
  value a (fold_left lp_add l e) == value a e + sumQ (map (value a) l).
Proof.
  revert e. induction l as [|x l IH]; intros e; simpl.
  - ring.
  - rewrite IH, value_lp_add. ring.
Qed.

Lemma value_lpSum (a : Assignment) (l : list LpAffineExpression) :
  value a (lpSum l) == sumQ (map (value a) l).
Proof.
  unfold lpSum. rewrite value_fold_lp_add, value_lp_const. ring.
Qed.

Lemma Qeq_bool_true (x y : Q) : Qeq_bool x y = true <-> x == y.
Proof. split; [apply Qeq_bool_eq | apply Qeq_eq_bool]. Qed.

Lemma holdsb_holds (a : Assignment) (c : LpConstraint) :
  holdsb a c = true <-> holds a c.
Proof.
  unfold holdsb, holds. destruct (c_sense c).
  - apply Qle_bool_iff.
  - apply Qle_bool_iff.
  - apply Qeq_bool_true.
Qed.

Lemma Qgt_bool_true (x y : Q) : Qgt_bool x y = true <-> y < x.
Proof.
  unfold Qgt_bool. rewrite negb_true_iff. split.
  - intros E. apply Qnot_le_lt. intros L. apply Qle_bool_iff in L. congruence.
  - intros L. destruct (Qle_bool x y) eqn:E; [|reflexivity].
    apply Qle_bool_iff in E. exfalso. apply (Qlt_not_le _ _ L E).
Qed.

Lemma Qgt_bool_false (x y : Q) : Qgt_bool x y = false <-> x <= y.
Proof.
  unfold Qgt_bool. rewrite negb_false_iff. apply Qle_bool_iff.
Qed.

(** [max(0, x)] is the larger of [0] and [x]. *)
Lemma max0_spec (x : Q) : 0 <= max0 x /\ x <= max0 x /\
                          (max0 x == 0 \/ max0 x == x).
Proof.
  unfold max0. destruct (Qgt_bool x 0) eqn:E.
  - apply Qgt_bool_true in E. repeat split; [lra | lra | right; reflexivity].
  - apply Qgt_bool_false in E. repeat split; [lra | lra | left; reflexivity].
Qed.

(** Feasibility, constraint by constraint and variable by variable. *)
Lemma feasible_iff (model : LpProblem) (vars : list LpVariable)
  (a : Assignment) :
  feasible model vars a = true <->
  (forall n c, In (n, c) (constraints model) -> holds a c) /\
  (forall v, In v vars -> in_domain a v = true).
Proof.
  unfold feasible. rewrite andb_true_iff, !forallb_forall. split.
  - intros [Hc Hv]. split; [|exact Hv].
    intros n c I. apply holdsb_holds. exact (Hc (n, c) I).
  - intros [Hc Hv]. split; [|exact Hv].
    intros [n c] I. apply holdsb_holds. exact (Hc n c I).
Qed.

Lemma in_domain_binary (a : Assignment) (v : LpVariable) :
  cat v = LpBinary -> in_domain a v = true ->
  a (var_name v) == 0 \/ a (var_name v) == 1.
Proof.
  unfold in_domain. intros ->. rewrite orb_true_iff, !Qeq_bool_true. tauto.
Qed.

Lemma in_domain_lower (a : Assignment) (v : LpVariable) (l : Q) :
  cat v <> LpBinary -> lowBound v = Some l -> in_domain a v = true ->
  l <= a (var_name v).
Proof.
  unfold in_domain, in_bounds. intros C ->.
  destruct (cat v); try congruence; rewrite ?andb_true_iff;
    intros H; apply Qle_bool_iff; tauto.
Qed.

(* ===================================================================== *)
(** * The constraint assembler                                             *)
(* ===================================================================== *)

Lemma LpVariable_dicts_keys (name : Edge -> LpVar) (keys : list Edge)
  (lb : option Q) (c : LpCategory) :
  dict_keys (LpVariable_dicts name keys lb c) = keys.
Proof.
  unfold dict_keys, LpVariable_dicts. rewrite map_map. simpl. apply map_id.
Qed.

Lemma LpVariable_dicts_get (name : Edge -> LpVar) (keys : list Edge)
  (lb : option Q) (c : LpCategory) (k : Edge) :
  dict_get (LpVariable_dicts name keys lb c) k =
  if dict_mem (LpVariable_dicts name keys lb c) k
  then Some (mkLpVariable (name k) lb None c) else None.
Proof.
  unfold dict_mem, LpVariable_dicts.
  induction keys as [|k' keys IH]; simpl; [reflexivity|].
  destruct (key_eqb k k') eqn:E.
  - apply key_eqb_eq in E. subst k'. reflexivity.
  - exact IH.
Qed.

Lemma LpVariable_dicts_get_In (name : Edge -> LpVar) (keys : list Edge)
  (lb : option Q) (c : LpCategory) (k : Edge) :
  In k keys ->
  dict_get (LpVariable_dicts name keys lb c) k =
  Some (mkLpVariable (name k) lb None c).
Proof.
  intros I. rewrite LpVariable_dicts_get.
  rewrite <- (LpVariable_dicts_keys name keys lb c) in I.
  apply dict_mem_keys in I. rewrite I. reflexivity.
Qed.

Lemma mapR_inv {A B : Type} (f : A -> PyResult B) (l : list A) (ys : list B) :
  mapR f l = Ok ys -> Forall2 (fun x y => f x = Ok y) l ys.
Proof.
  revert ys. induction l as [|x l IH]; simpl; intros ys E.
  - inversion E. constructor.
  - destruct (f x) as [y|e] eqn:Fx; simpl in E; [|discriminate].
    destruct (mapR f l) as [ys'|e] eqn:Fl; simpl in E; [|discriminate].
    inversion E; subst. constructor; auto.
Qed.

Lemma mapR_ok {A B : Type} (f : A -> PyResult B) (g : A -> B) (l : list A) :
  (forall x, In x l -> f x = Ok (g x)) -> mapR f l = Ok (map g l).
Proof.
  induction l as [|x l IH]; simpl; intros Hf; [reflexivity|].
  rewrite (Hf x (or_introl eq_refl)). simpl.
  rewrite IH by auto. reflexivity.
Qed.

Lemma weight_term_eq (self : DataLoader) (keys : list Edge) (e : Edge) :
  In e keys ->
  weight_term (shipment_vars keys) (vehicle_capacities_of self) e =
  match dict_get (vehicle_capacities_of self) (snd e) with
  | Some w =>
      Ok (lp_mul (lp_var (mkLpVariable (Shipment e) (Some 0) None LpInteger)) w)
  | None => Raise KeyError
  end.
Proof.
  intros I. unfold weight_term, dict_index, shipment_vars.
  rewrite LpVariable_dicts_get_In by exact I. simpl.
  destruct (dict_get (vehicle_capacities_of self) (snd e)); reflexivity.
Qed.

(** The weight terms of a list of edges sum to the shipped weight. *)
Lemma weight_terms_value (self : DataLoader) (a : Assignment)
  (keys edges : list Edge) (ts : list LpAffineExpression) :
  incl edges keys ->
  mapR (weight_term (shipment_vars keys) (vehicle_capacities_of self)) edges
  = Ok ts ->
  value a (lpSum ts) == shipped_weight self a edges.
Proof.
  intros Hin E. rewrite value_lpSum. unfold shipped_weight.
  apply mapR_inv in E. induction E as [|e t edges ts Ht _ IH]; simpl.
  - reflexivity.
  - rewrite IH by (intros x I; apply Hin; right; exact I).
    rewrite weight_term_eq in Ht by (apply Hin; left; reflexivity).
    unfold mode_weight.
    destruct (dict_get (vehicle_capacities_of self) (snd e)) as [w|];
      [|discriminate].
    inversion Ht; subst t.
    rewrite value_lp_mul, value_lp_var. simpl. reflexivity.
Qed.


Lemma holds_lp_le_const (a : Assignment) (e : LpAffineExpression) (q : Q) :
  holds a (lp_le e (lp_const q)) <-> value a e <= q.
Proof. unfold holds. simpl. tauto. Qed.

Lemma holds_lp_ge_const (a : Assignment) (e : LpAffineExpression) (q : Q) :
  holds a (lp_ge e (lp_const q)) <-> q <= value a e.
Proof. unfold holds. simpl. tauto. Qed.

Lemma vehicle_loop_cons (keys : list Edge) (k : Edge) (mv : Z)
  (items : list (Edge * Z)) (model : LpProblem) :
  vehicle_loop (shipment_vars keys) ((k, mv) :: items) model =
  if dict_mem (shipment_vars keys) k
  then vehicle_loop (shipment_vars keys) items
         (add_constraint model
            (lp_le (lp_var (mkLpVariable (Shipment k) (Some 0) None LpInteger))
               (lp_const (inject_Z mv)))
            (ceiling_name k))
  else vehicle_loop (shipment_vars keys) items model.
Proof.
  simpl. unfold shipment_vars at 1. rewrite LpVariable_dicts_get.
  fold (shipment_vars keys).
  destruct (dict_mem (shipment_vars keys) k); reflexivity.
Qed.

Lemma vehicle_loop_spec (keys : list Edge) (items : list (Edge * Z))
  (model : LpProblem) :
  exists ceils,
    constraints (vehicle_loop (shipment_vars keys) items model)
    = (constraints model ++ ceils)%list /\
    objective (vehicle_loop (shipment_vars keys) items model)
    = objective model /\
    Forall2 is_ceiling (ceiling_items keys items) ceils.
Proof.
  revert model. induction items as [|[k mv] items IH]; intros model.
  - exists []. simpl. rewrite app_nil_r. repeat split. constructor.
  - rewrite vehicle_loop_cons. unfold ceiling_items. simpl.
    destruct (dict_mem (shipment_vars keys) k) eqn:Mk.
    + destruct (IH (add_constraint model
            (lp_le (lp_var (mkLpVariable (Shipment k) (Some 0) None LpInteger))
               (lp_const (inject_Z mv)))
            (ceiling_name k))) as [ceils [C [O F]]].
      eexists. rewrite C, O. simpl. rewrite <- app_assoc. simpl.
      repeat split. constructor; [|exact F].
      split; [reflexivity|]. intros a. simpl.
      rewrite holds_lp_le_const, value_lp_var. simpl. tauto.
    + destruct (IH model) as [ceils [C [O F]]].
      exists ceils. repeat split; assumption.
Qed.

Lemma capacity_loop_spec (self : DataLoader) (keys : list Edge)
  (route_costs : dict Edge Q) (whs : list string) (model model' : LpProblem) :
  dict_keys route_costs = keys ->
  capacity_loop (warehouse_info_of self) (vehicle_capacities_of self)
    (shipment_vars keys) route_costs whs model = Ok model' ->
  exists caps,
    constraints model' = (constraints model ++ caps)%list /\
    objective model' = objective model /\
    Forall2 (is_capacity self keys)
      (filter (fun w => dict_mem (warehouse_info_of self) w) whs) caps.
Proof.
  intros Hk. revert model. induction whs as [|w whs IH]; intros model; simpl.
  - intros [= <-]. exists []. rewrite app_nil_r. repeat split. constructor.
  - unfold dict_mem at 1.
    destruct (dict_get (warehouse_info_of self) w) as [info|] eqn:G.
    + destruct (mapR _ _) as [ts|e] eqn:Ets; simpl; [|discriminate].
      intros E. destruct (IH _ E) as [caps [C [O F]]].
      eexists. rewrite C, O. simpl. rewrite <- app_assoc. simpl.
      repeat split. constructor; [|exact F].
      split; [reflexivity|]. intros a. simpl.
      rewrite holds_lp_le_const. unfold inbound_weight, available_capacity.
      rewrite G. rewrite Hk in Ets.
      assert (Hi : incl (filter (fun k : Edge => String.eqb (fst k) w) keys)
                     keys)
        by (intros x I; apply filter_In in I; tauto).
      rewrite (weight_terms_value self a Hi Ets). tauto.
    + intros E. destruct (IH _ E) as [caps [C [O F]]].
      exists caps. repeat split; assumption.
Qed.

Lemma add_constraints_spec (self : DataLoader) (model model' : LpProblem)
  (input_data : OptimizationInput) (route_costs : dict Edge Q) :
  _add_constraints self model (shipment_vars (dict_keys route_costs))
    input_data route_costs = Ok model' ->
  exists demand caps ceils,
    constraints model' = (constraints model ++ demand :: caps ++ ceils)%list /\
    objective model' = objective model /\
    is_demand self input_data (dict_keys route_costs) demand /\
    Forall2 (is_capacity self (dict_keys route_costs))
      (capacity_warehouses self input_data) caps /\
    Forall2 is_ceiling
      (ceiling_items (dict_keys route_costs) (max_vehicles input_data)) ceils.
Proof.
  unfold _add_constraints.
  destruct (mapR _ (dict_keys route_costs)) as [ts|e] eqn:Ets; simpl;
    [|discriminate].
  destruct (capacity_loop _ _ _ _ _ _) as [m1|e] eqn:Ecap; simpl;
    [|discriminate].
  intros [= <-].
  destruct (capacity_loop_spec self route_costs _ _ eq_refl Ecap)
    as [caps [C1 [O1 F1]]].
  destruct (vehicle_loop_spec (dict_keys route_costs)
              (max_vehicles input_data) m1) as [ceils [C2 [O2 F2]]].
  eexists. exists caps, ceils. rewrite C2, O2, C1, O1. simpl.
  rewrite <- !app_assoc. simpl.
  split; [reflexivity|]. split; [reflexivity|].
  split; [|split; assumption].
  split; [reflexivity|]. intros a. simpl. rewrite holds_lp_ge_const.
  rewrite (weight_terms_value self a (incl_refl _) Ets). tauto.
Qed.


(* ===================================================================== *)
(** * The two model builders                                               *)
(* ===================================================================== *)

Lemma dict_keys_set_congr {K V W : Type} `{KeyOk K} (d1 : dict K V)
  (d2 : dict K W) (k : K) (v : V) (w : W) :
  dict_keys d1 = dict_keys d2 ->
  dict_keys (dict_set d1 k v) = dict_keys (dict_set d2 k w).
Proof.
  unfold dict_keys. revert d2.
  induction d1 as [|[k1 v1] d1 IH]; intros [|[k2 v2] d2]; simpl;
    try discriminate; [reflexivity|].
  intros [= -> E]. destruct (key_eqb k k2); simpl.
  - rewrite E. reflexivity.
  - rewrite (IH d2 E). reflexivity.
Qed.

Lemma dict_In_get {K V : Type} `{KeyOk K} (d : dict K V) (k : K) (v : V) :
  NoDup (dict_keys d) -> In (k, v) d -> dict_get d k = Some v.
Proof.
  unfold dict_keys. induction d as [|[k' v'] d IH]; simpl; intros N I;
    [contradiction|].
  inversion N as [|? ? Hn N']; subst. destruct I as [E|I].
  - inversion E; subst. rewrite key_eqb_refl. reflexivity.
  - destruct (key_eqb k k') eqn:E.
    + apply key_eqb_eq in E. subst k'. exfalso. apply Hn.
      apply in_map_iff. exists (k, v). auto.
    + auto.
Qed.

Lemma route_info_loop_spec (self : DataLoader)
  (valid_routes : list (string * string * Q)) (route_info ri' : dict Edge Q)
  (lead_times lt' : dict Edge Z) :
  route_info_loop self valid_routes route_info lead_times = Ok (ri', lt') ->
  dict_keys lead_times = dict_keys route_info ->
  NoDup (dict_keys lead_times) ->
  (forall k v, dict_get lead_times k = Some v ->
               edge_lead_time self k = Some v) ->
  ri' = fold_left (fun d r => dict_set d (fst (fst r), snd (fst r)) (snd r))
          valid_routes route_info /\
  dict_keys lt' = dict_keys ri' /\
  NoDup (dict_keys lt') /\
  (forall k v, dict_get lt' k = Some v -> edge_lead_time self k = Some v).
Proof.
  revert route_info lead_times.
  induction valid_routes as [|[[wh mode] cost] rest IH];
    intros route_info lead_times; simpl.
  - intros [= <- <-]. auto.
  - destruct (routes_iloc0 self wh mode) as [route|e] eqn:R; simpl;
      [|discriminate].
    intros E Hk Hn Hl. apply (IH _ _ E).
    + apply dict_keys_set_congr. exact Hk.
    + apply dict_set_NoDup. exact Hn.
    + intros k v G. destruct (key_eqb k (wh, mode)) eqn:Ek.
      * apply key_eqb_eq in Ek. subst k.
        rewrite dict_get_set_same in G. inversion G; subst v.
        unfold edge_lead_time. simpl. rewrite R. reflexivity.
      * apply key_eqb_neq in Ek.
        rewrite dict_get_set_other in G by exact Ek. auto.
Qed.

Lemma fold_max_spec (l : list Z) (x : Z) :
  (x <= fold_left Z.max l x)%Z /\
  (forall y, In y l -> y <= fold_left Z.max l x)%Z /\
  (fold_left Z.max l x = x \/ In (fold_left Z.max l x) l).
Proof.
  revert x. induction l as [|y l IH]; intros x; simpl.
  - repeat split; [lia | tauto | auto].
  - destruct (IH (Z.max x y)) as [H1 [H2 H3]]. repeat split.
    + lia.
    + intros z [<- | I]; [lia | auto].
    + destruct H3 as [E | I]; [|auto].
      rewrite E. destruct (Z.max_spec x y) as [[_ ->] | [_ ->]]; auto.
Qed.

Lemma py_max_spec (l : list Z) (m : Z) :
  py_max l = Ok m -> In m l /\ (forall y, In y l -> y <= m)%Z.
Proof.
  destruct l as [|x l]; simpl; [discriminate|].
  intros [= <-]. destruct (fold_max_spec l x) as [H1 [H2 H3]]. split.
  - destruct H3 as [-> | I]; auto.
  - intros y [<- | I]; auto.
Qed.

Lemma linkage_loop_spec (all keys : list Edge) (M : Z) (model : LpProblem) :
  incl keys all ->
  exists model',
    linkage_loop (shipment_vars all)
      (LpVariable_dicts Route_Used all None LpBinary) M keys model
    = Ok model' /\
    constraints model' =
      (constraints model
       ++ flat_map (fun k => [lower_link k; upper_link M k]) keys)%list /\
    objective model' = objective model.
Proof.
  revert model. induction keys as [|k keys IH]; intros model Hin; simpl.
  - exists model. rewrite app_nil_r. auto.
  - unfold dict_index, shipment_vars.
    rewrite !LpVariable_dicts_get_In by (apply Hin; left; reflexivity).
    simpl. fold (shipment_vars all).
    match goal with
    | |- context [linkage_loop _ _ _ _ ?m] =>
        destruct (IH m) as [model' [E [C O]]]
    end.
    + intros x I. apply Hin. right. exact I.
    + exists model'. rewrite E, C, O. simpl. rewrite <- !app_assoc.
      split; [reflexivity | split; reflexivity].
Qed.

Lemma max_time_loop_spec (all : list Edge) (M : Z) (items : list (Edge * Z))
  (model : LpProblem) :
  incl (dict_keys items) all ->
  exists model',
    max_time_loop (LpVariable_dicts Route_Used all None LpBinary)
      max_time_var M items model = Ok model' /\
    constraints model' =
      (constraints model
       ++ map (fun kv => max_time_constraint M (fst kv) (snd kv)) items)%list /\
    objective model' = objective model.
Proof.
  revert model. induction items as [|[k lt] items IH]; intros model Hin; simpl.
  - exists model. rewrite app_nil_r. auto.
  - unfold dict_index.
    rewrite LpVariable_dicts_get_In by (apply Hin; left; reflexivity).
    simpl.
    match goal with
    | |- context [max_time_loop _ _ _ _ ?m] =>
        destruct (IH m) as [model' [E [C O]]]
    end.
    + intros x I. apply Hin. right. exact I.
    + exists model'. rewrite E, C, O. simpl. rewrite <- !app_assoc.
      split; [reflexivity | split; reflexivity].
Qed.

Lemma objective_terms_ok (keys : list Edge) (route_costs : dict Edge Q) :
  incl (dict_keys route_costs) keys ->
  mapR (fun kc : Edge * Q =>
          (v <- dict_index (shipment_vars keys) (fst kc) ;;
           Ok (lp_mul (lp_var v) (snd kc)))%py) route_costs
  = Ok (map (fun kc => lp_mul (lp_var (ship_var (fst kc))) (snd kc))
          route_costs).
Proof.
  intros Hin. apply mapR_ok. intros [k c] I. simpl.
  unfold dict_index, shipment_vars.
  rewrite LpVariable_dicts_get_In; [reflexivity|].
  apply Hin. unfold dict_keys. apply in_map_iff. exists (k, c). auto.
Qed.

Lemma build_cost_model_inv (self : DataLoader)
  (input_data : OptimizationInput) (tr tr' : list Event) (cm : LpProblem)
  (cs : dict Edge LpVariable) :
  build_cost_model self input_data tr = (Ok (Some (cm, cs)), tr') ->
  tr' = tr /\
  eligible_edges self input_data <> [] /\
  cs = shipment_vars (eligible_edges self input_data) /\
  objective cm =
    Some ("Total_Cost",
          cost_objective (route_costs_of (_get_valid_routes self input_data)))
  /\ assembled self input_data (constraints cm).
Proof.
  unfold build_cost_model, assembled, assembled_with, eligible_edges.
  remember (_get_valid_routes self input_data) as vr eqn:V.
  destruct vr as [|r vr]; [discriminate|].
  remember (route_costs_of (r :: vr)) as rc eqn:Hrc.
  fold (shipment_vars (dict_keys rc)). unfold lift.
  rewrite (objective_terms_ok rc (incl_refl _)). simpl.
  destruct (_add_constraints _ _ _ _ _) as [m|e] eqn:A; simpl;
    [|discriminate].
  intros [= <- <- <-]. split; [reflexivity|]. split.
  - subst rc. destruct r as [[w m0] c]. intros N.
    assert (I : In (w, m0) (dict_keys (route_costs_of ((w, m0, c) :: vr)))).
    { apply route_costs_keys. exists c. simpl. auto. }
    rewrite N in I. exact I.
  - split; [reflexivity|].
    destruct (add_constraints_spec _ _ _ _ A)
      as [demand [caps [ceils [C [O [D [F1 F2]]]]]]].
    split; [rewrite O; reflexivity|].
    exists demand, caps, ceils. simpl in C. auto.
Qed.


Lemma build_time_model_inv (self : DataLoader)
  (input_data : OptimizationInput) (tr tr' : list Event) (tm : LpProblem)
  (ts : dict Edge LpVariable) (mt : LpVariable) :
  build_time_model self input_data tr = (Ok (Some (tm, ts, mt)), tr') ->
  let E := eligible_edges self input_data in
  tr' = tr /\ E <> [] /\ ts = shipment_vars E /\ mt = max_time_var /\
  objective tm = Some ("Minimize_Max_Delivery_Time", lp_var max_time_var) /\
  exists (lead_times : dict Edge Z) (M : Z) (common : list (string * LpConstraint)),
    dict_keys lead_times = E /\
    (forall k v, dict_get lead_times k = Some v ->
                 edge_lead_time self k = Some v) /\
    py_max (dict_values lead_times) = Ok (M - 1)%Z /\
    constraints tm =
      (flat_map (fun k => [lower_link k; upper_link M k]) E
       ++ map (fun kv => max_time_constraint M (fst kv) (snd kv)) lead_times
       ++ common)%list /\
    assembled self input_data common.
Proof.
  unfold build_time_model, assembled, assembled_with, eligible_edges.
  remember (_get_valid_routes self input_data) as vr eqn:V.
  destruct vr as [|r vr]; [discriminate|].
  unfold lift.
  destruct (route_info_loop self (r :: vr) [] []) as [[ri lts]|e] eqn:R;
    [|discriminate].
  destruct (route_info_loop_spec self (r :: vr) [] [] R eq_refl
              (NoDup_nil _)) as [Hri [Hk [Hn Hl]]].
  { simpl. discriminate. }
  change (ri = route_costs_of (r :: vr)) in Hri. subst ri.
  remember (route_costs_of (r :: vr)) as rc eqn:Hrc.
  cbn [bindR].
  destruct (py_max (dict_values lts)) as [m|e] eqn:Pm; [|discriminate].
  cbn [bindR]. fold (shipment_vars (dict_keys rc)).
  destruct (@linkage_loop_spec (dict_keys rc) (dict_keys rc) (m + 1)
              (LpProblem_new "Time_Minimization") (incl_refl _))
    as [m1 [E1 [C1 O1]]].
  rewrite E1. cbn [bindR]. fold max_time_var.
  destruct (@max_time_loop_spec (dict_keys rc) (m + 1) lts
              (set_objective m1 (lp_var max_time_var)
                 "Minimize_Max_Delivery_Time")) as [m2 [E2 [C2 O2]]].
  { rewrite Hk. apply incl_refl. }
  rewrite E2. cbn [bindR].
  destruct (_add_constraints _ _ _ _ _) as [m3|e] eqn:A; [|discriminate].
  cbn [bindR]. intros [= <- <- <- <-].
  split; [reflexivity|]. split.
  { subst rc. destruct r as [[w m0] c]. intros N.
    assert (I : In (w, m0) (dict_keys (route_costs_of ((w, m0, c) :: vr)))).
    { apply route_costs_keys. exists c. simpl. auto. }
    rewrite N in I. exact I. }
  split; [reflexivity|]. split; [reflexivity|].
  destruct (add_constraints_spec _ _ _ _ A)
    as [demand [caps [ceils [C [O [D [F1 F2]]]]]]].
  split; [rewrite O, O2; reflexivity|].
  exists lts, (m + 1)%Z, (demand :: caps ++ ceils)%list.
  split; [exact Hk|]. split; [exact Hl|].
  split; [rewrite Pm; f_equal; lia|].
  split.
  - rewrite C, C2. simpl. rewrite C1. simpl. rewrite <- app_assoc.
    reflexivity.
  - exists demand, caps, ceils. auto.
Qed.


(* ===================================================================== *)
(** * The big-M linkage of the time model                                  *)
(* ===================================================================== *)

Lemma holds_lower_link (a : Assignment) (e : Edge) :
  holds a (snd (lower_link e)) <->
  a (Route_Used e) * epsilon <= a (Shipment e).
Proof.
  unfold holds, lower_link. simpl.
  rewrite value_lp_mul, !value_lp_var. simpl. tauto.
Qed.

Lemma holds_upper_link (a : Assignment) (M : Z) (e : Edge) :
  holds a (snd (upper_link M e)) <->
  a (Shipment e) <= a (Route_Used e) * inject_Z M.
Proof.
  unfold holds, upper_link. simpl.
  rewrite value_lp_mul, !value_lp_var. simpl. tauto.
Qed.

Lemma value_max_time_rhs (a : Assignment) (e : Edge) (M lt : Z) :
  value a (max_time_rhs (used_var e) M lt)
  == inject_Z lt - inject_Z M * (1 - a (Route_Used e)).
Proof.
  unfold max_time_rhs.
  rewrite !value_lp_sub, value_lp_mul, value_lp_sub, value_lp_var,
    !value_lp_const.
  simpl. ring.
Qed.

Lemma holds_max_time_constraint (a : Assignment) (M : Z) (e : Edge) (lt : Z) :
  holds a (snd (max_time_constraint M e lt)) <->
  inject_Z lt - inject_Z M * (1 - a (Route_Used e)) <= a Max_Delivery_Time.
Proof.
  unfold holds, max_time_constraint. simpl snd. simpl c_sense. cbv iota.
  simpl c_lhs. simpl c_rhs.
  rewrite value_max_time_rhs, value_lp_var. simpl. tauto.
Qed.

Lemma linkage_arith (M lt : Z) (e : Edge) (a : Assignment) :
  (lt + 1 <= M)%Z ->
  in_domain a (ship_var e) = true ->
  in_domain a (used_var e) = true ->
  in_domain a max_time_var = true ->
  holds a (snd (lower_link e)) ->
  holds a (snd (upper_link M e)) ->
  holds a (snd (max_time_constraint M e lt)) ->
  linkage_forces M e lt a.
Proof.
  intros HM Ds Du Dt Hl Hu Ht.
  apply holds_upper_link in Hu. apply holds_max_time_constraint in Ht.
  assert (Hs : 0 <= a (Shipment e)).
  { apply (in_domain_lower a (ship_var e)); [discriminate | reflexivity | exact Ds]. }
  assert (Hmt : 0 <= a Max_Delivery_Time).
  { apply (in_domain_lower a max_time_var);
      [discriminate | reflexivity | exact Dt]. }
  assert (HMq : inject_Z lt + 1 <= inject_Z M).
  { change 1 with (inject_Z 1). rewrite <- inject_Z_plus.
    rewrite <- Zle_Qle. exact HM. }
  apply (in_domain_binary a (used_var e) eq_refl) in Du. simpl in Du.
  unfold linkage_forces. rewrite value_max_time_rhs.
  split; [|split; [|split]].
  - intros U. rewrite U in Hu. lra.
  - intros P. destruct Du as [U | U]; [|exact U].
    rewrite U in Hu. lra.
  - intros U. rewrite U in Ht. lra.
  - intros U. rewrite U. split; lra.
Qed.

(** The shape of a built time program: the constant [M] and, for every
    eligible edge, its lead time and its three constraints. *)
Lemma time_model_structure (self : DataLoader)
  (input_data : OptimizationInput) (tm : LpProblem)
  (ts : dict Edge LpVariable) (mt : LpVariable) :
  fst (build_time_model self input_data []) = Ok (Some (tm, ts, mt)) ->
  exists M : Z,
    is_big_M self input_data M /\
    forall e, In e (eligible_edges self input_data) ->
      exists lt, edge_lead_time self e = Some lt /\ (lt + 1 <= M)%Z /\
        In (lower_link e) (constraints tm) /\
        In (upper_link M e) (constraints tm) /\
        In (max_time_constraint M e lt) (constraints tm).
Proof.
  intros B.
  destruct (build_time_model self input_data []) as [res tr'] eqn:Bt.
  simpl in B. subst res.
  destruct (build_time_model_inv _ _ _ Bt)
    as [_ [_ [_ [_ [_ [lts [M [common [Hk [Hl [Pm [C _]]]]]]]]]]]].
  apply py_max_spec in Pm. destruct Pm as [Pin Pmax].
  assert (Hn : NoDup (dict_keys lts)).
  { rewrite Hk. apply eligible_edges_NoDup. }
  assert (Hlt : forall e, In e (eligible_edges self input_data) ->
            exists lt, In (e, lt) lts /\ edge_lead_time self e = Some lt /\
                       (lt + 1 <= M)%Z).
  { intros e I. rewrite <- Hk in I. apply dict_mem_keys in I.
    unfold dict_mem in I.
    destruct (dict_get lts e) as [lt|] eqn:G; [|discriminate].
    exists lt. split; [apply dict_get_In; exact G|].
    split; [apply Hl; exact G|].
    assert (lt <= M - 1)%Z; [|lia].
    apply Pmax. unfold dict_values. apply in_map_iff. exists (e, lt).
    split; [reflexivity | apply dict_get_In; exact G]. }
  exists M. split; [split|].
  - intros e I. destruct (Hlt e I) as [lt [_ [El Hb]]]. exists lt. auto.
  - unfold dict_values in Pin. apply in_map_iff in Pin.
    destruct Pin as [[e lt] [E I]]. simpl in E. subst lt.
    exists e. split.
    + rewrite <- Hk. unfold dict_keys. apply in_map_iff. exists (e, (M - 1)%Z).
      auto.
    + apply Hl. apply dict_In_get; assumption.
  - intros e I. destruct (Hlt e I) as [lt [Il [El Hb]]]. exists lt.
    split; [exact El|]. split; [exact Hb|]. rewrite C.
    split; [|split].
    + apply in_or_app. left. apply in_flat_map. exists e. simpl. auto.
    + apply in_or_app. left. apply in_flat_map. exists e. simpl. auto.
    + apply in_or_app. right. apply in_or_app. left.
      apply in_map_iff. exists (e, lt). auto.
Qed.

(** In every built time program the upper linkage constraint keeps the
    shipment count of each eligible edge at or below [M], whatever
    [max_vehicles] allows. *)
Lemma time_model_shipment_cap (self : DataLoader)
  (input_data : OptimizationInput) (tm : LpProblem)
  (ts : dict Edge LpVariable) (mt : LpVariable) :
  fst (build_time_model self input_data []) = Ok (Some (tm, ts, mt)) ->
  exists M : Z,
    is_big_M self input_data M /\
    forall e a, In e (eligible_edges self input_data) ->
      in_domain a (used_var e) = true ->
      (forall n c, In (n, c) (constraints tm) -> holds a c) ->
      a (Shipment e) <= inject_Z (Z.max 0 M).
Proof.
  intros B. destruct (time_model_structure _ _ B) as [M [HM Hs]].
  exists M. split; [exact HM|]. intros e a I Du Hc.
  destruct (Hs e I) as [lt [_ [_ [_ [Hu _]]]]].
  pose proof (Hc _ _ Hu) as Hu'.
  change (holds a (snd (upper_link M e))) in Hu'.
  apply holds_upper_link in Hu'.
  apply in_domain_binary in Du; [simpl in Du | reflexivity].
  assert (H0 : inject_Z 0 <= inject_Z (Z.max 0 M))
    by (rewrite <- Zle_Qle; lia).
  assert (H1 : inject_Z M <= inject_Z (Z.max 0 M))
    by (rewrite <- Zle_Qle; lia).
  change (inject_Z 0) with 0 in H0.
  destruct Du as [U | U]; rewrite U in Hu'; lra.
Qed.

(** C2.  In the time model [M] is the largest lead time of an eligible edge
    plus one and the tolerance is 1/10000.  For every eligible edge the
    program contains the lower linkage constraint, the upper linkage
    constraint and the max-time constraint, and every assignment that
    satisfies these three with a non-negative shipment value, a binary
    indicator and a non-negative [max_time] has: indicator 0 forces shipment
    0, a positive shipment forces indicator 1, indicator 1 forces
    [max_time >= lead_time], and indicator 0 makes the right side of the
    max-time constraint negative, so that the constraint holds by itself. *)
Theorem time_model_linkage (self : DataLoader)
  (input_data : OptimizationInput) (tm : LpProblem)
  (ts : dict Edge LpVariable) (mt : LpVariable) :
  fst (build_time_model self input_data []) = Ok (Some (tm, ts, mt)) ->
  epsilon == 1 / 10000 /\
  exists M : Z,
    is_big_M self input_data M /\
    forall e, In e (eligible_edges self input_data) ->
      exists lt, edge_lead_time self e = Some lt /\
        In (lower_link e) (constraints tm) /\
        In (upper_link M e) (constraints tm) /\
        In (max_time_constraint M e lt) (constraints tm) /\
        forall a : Assignment,
          in_domain a (ship_var e) = true ->
          in_domain a (used_var e) = true ->
          in_domain a max_time_var = true ->
          holds a (snd (lower_link e)) ->
          holds a (snd (upper_link M e)) ->
          holds a (snd (max_time_constraint M e lt)) ->
          linkage_forces M e lt a.
Proof.
  intros B. split; [reflexivity|].
  destruct (time_model_structure _ _ B) as [M [HM Hs]].
  exists M. split; [exact HM|]. intros e I.
  destruct (Hs e I) as [lt [El [Hb [H1 [H2 H3]]]]].
  exists lt. repeat (split; [assumption|]).
  intros a Ds Du Dt L1 L2 L3. apply linkage_arith; assumption.
Qed.

Lemma time_model_linkage_witness :
  fst (build_time_model Scenario.catalog Scenario.input [])
  = Ok (Some (Scenario.time_model, Scenario.time_vars, Scenario.max_time)) /\
  exists M : Z, is_big_M Scenario.catalog Scenario.input M.
Proof.
  split; [reflexivity|].
  destruct (@time_model_linkage Scenario.catalog Scenario.input
              Scenario.time_model Scenario.time_vars Scenario.max_time
              eq_refl) as [_ [M [HM _]]].
  exists M. exact HM.
Defined.

(* ===================================================================== *)
(** * The constraints shared by the two programs                          *)
(* ===================================================================== *)


Lemma shipment_vars_mem (keys : list Edge) (k : Edge) :
  dict_mem (shipment_vars keys) k = true <-> In k keys.
Proof.
  rewrite dict_mem_keys. unfold shipment_vars.
  rewrite LpVariable_dicts_keys. tauto.
Qed.


(** Every eligible edge is a key of [max_vehicles]. *)
Lemma eligible_in_max_vehicles (self : DataLoader)
  (input_data : OptimizationInput) (e : Edge) :
  In e (eligible_edges self input_data) ->
  In e (dict_keys (max_vehicles input_data)).
Proof.
  unfold eligible_edges, _get_valid_routes. rewrite route_costs_keys.
  intros [c I]. apply valid_routes_loop_In in I.
  destruct I as [r [_ [_ [_ [_ [_ [_ M]]]]]]].
  apply dict_mem_keys in M. destruct e. exact M.
Qed.






(* ===================================================================== *)
(** * No eligible route                                                    *)
(* ===================================================================== *)

Lemma eligible_edges_nil (self : DataLoader)
  (input_data : OptimizationInput) :
  eligible_edges self input_data = [] ->
  _get_valid_routes self input_data = [].
Proof.
  intros N. destruct (_get_valid_routes self input_data) as [|[[w m] c] vr] eqn:V;
    [reflexivity|].
  exfalso.
  assert (I : In (w, m) (eligible_edges self input_data)).
  { unfold eligible_edges. rewrite V. apply route_costs_keys.
    exists c. simpl. auto. }
  rewrite N in I. exact I.
Qed.

(** C3, as the code has it.  When no edge is eligible both builders return
    [None] after reporting the error, the solver is never called, no
    exception is raised, and [solve] stores for each model the status
    ["Infeasible"] with an empty plan and [None] totals; the time entry
    carries its [None] under the key [max_delivery_time]. *)
Theorem no_eligible_routes_short_circuit (self : DataLoader) (solver : Solver)
  (input_data : OptimizationInput) :
  eligible_edges self input_data = [] ->
  fst (build_cost_model self input_data []) = Ok None /\
  fst (build_time_model self input_data []) = Ok None /\
  run_solve self solver input_data =
    (Ok [("cost_optimization",
          [("status", VStr "Infeasible");
           ("solution", VPlan []);
           ("total_cost", VNone)]);
         ("time_optimization",
          [("status", VStr "Infeasible");
           ("solution", VPlan []);
           ("max_delivery_time", VNone);
           ("total_cost", VNone)])],
     [st_error no_valid_routes_msg; st_error failed_cost_msg;
      st_error no_valid_routes_msg; st_error failed_time_msg]).
Proof.
  intros N. apply eligible_edges_nil in N.
  unfold run_solve, solve, solve_cost, solve_time, build_cost_model,
    build_time_model.
  rewrite N. repeat split.
Qed.

Lemma no_eligible_routes_short_circuit_witness :
  eligible_edges Scenario.catalog Scenario.input_no_route = [] /\
  fst (build_cost_model Scenario.catalog Scenario.input_no_route []) = Ok None.
Proof.
  split; [reflexivity|].
  exact (proj1 (@no_eligible_routes_short_circuit Scenario.catalog
                  (Scenario.solver_returning Scenario.rail_only)
                  Scenario.input_no_route eq_refl)).
Defined.

(** C3, as the specification words it, fails: on a run without an eligible
    edge the status stored for both models is ["Infeasible"], the name of a
    solver status, and not a status of its own. *)
Lemma no_routes_status_is_infeasible :
  eligible_edges Scenario.catalog Scenario.input_no_route = [] /\
  exists results tr cost_result time_result,
    run_solve Scenario.catalog (Scenario.solver_returning Scenario.rail_only)
      Scenario.input_no_route = (Ok results, tr) /\
    dict_get results "cost_optimization" = Some cost_result /\
    dict_get results "time_optimization" = Some time_result /\
    dict_get cost_result "status" = Some (VStr "Infeasible") /\
    dict_get time_result "status" = Some (VStr "Infeasible") /\
    dict_get cost_result "status" <> Some (VStr "NoEligibleRoutes") /\
    dict_get time_result "status" <> Some (VStr "NoEligibleRoutes").
Proof.
  split; [reflexivity|].
  do 4 eexists. split; [vm_compute; reflexivity|].
  split; [reflexivity|]. split; [reflexivity|].
  split; [reflexivity|]. split; [reflexivity|].
  split; discriminate.
Qed.

(* ===================================================================== *)
(** * Solver statuses other than Optimal                                   *)
(* ===================================================================== *)

(** C9.  When the solver's status is not Optimal, extraction returns,
    without raising, the name of that status, an empty plan and [None]
    for [total_cost] and, in the time model, for [max_lead_time]. *)
Theorem non_optimal_status_propagated (self : DataLoader)
  (vars : dict Edge LpVariable) (out : SolverOutput) :
  status out <> LpStatusOptimal ->
  extract_cost self vars out =
    Ok [("status", VStr (LpStatus (status out)));
        ("solution", VPlan []);
        ("total_cost", VNone)] /\
  extract_time self vars out =
    Ok [("status", VStr (LpStatus (status out)));
        ("solution", VPlan []);
        ("max_lead_time", VNone);
        ("total_cost", VNone)].
Proof.
  intros N. unfold extract_cost, extract_time.
  destruct (status out); try (split; reflexivity). congruence.
Qed.

Lemma non_optimal_status_propagated_witness :
  LpStatusInfeasible <> LpStatusOptimal /\
  extract_time Scenario.catalog Scenario.time_vars
    (mkSolverOutput LpStatusInfeasible Scenario.rail_only) =
    Ok [("status", VStr "Infeasible");
        ("solution", VPlan []);
        ("max_lead_time", VNone);
        ("total_cost", VNone)].
Proof.
  split; [discriminate|].
  apply (@non_optimal_status_propagated Scenario.catalog Scenario.time_vars
           (mkSolverOutput LpStatusInfeasible Scenario.rail_only)).
  simpl. discriminate.
Defined.

(* ===================================================================== *)
(** * The time program of the fixed instance                              *)
(* ===================================================================== *)

Lemma feasible_Forall (model : LpProblem) (vars : list LpVariable)
  (a : Assignment) :
  feasible model vars a = true <->
  Forall (fun nc => holds a (snd nc)) (constraints model) /\
  Forall (fun v => in_domain a v = true) vars.
Proof.
  rewrite feasible_iff, !Forall_forall. split.
  - intros [Hc Hv]. split; [|exact Hv]. intros [n c] I. exact (Hc n c I).
  - intros [Hc Hv]. split; [|exact Hv]. intros n c I. exact (Hc (n, c) I).
Qed.

Lemma scenario_time_build :
  build_time_model Scenario.catalog Scenario.input [] =
  (Ok (Some (Scenario.time_model, Scenario.time_vars, Scenario.max_time)), []).
Proof. reflexivity. Qed.

(** Unfold a feasibility hypothesis over the time program of the fixed
    instance into one inequality per constraint and one fact per variable. *)
Ltac scenario_time_facts H :=
  apply feasible_Forall in H;
  let cs := eval vm_compute in (constraints Scenario.time_model) in
  change (constraints Scenario.time_model) with cs in H;
  let vs := eval vm_compute in
              (time_variables Scenario.time_vars Scenario.max_time) in
  change (time_variables Scenario.time_vars Scenario.max_time) with vs in H;
  destruct H as [?Hc ?Hv];
  repeat match goal with
         | F : Forall _ (_ :: _) |- _ => inversion F; clear F; subst
         | F : Forall _ [] |- _ => clear F
         end;
  repeat match goal with
         | D : in_domain _ {| cat := LpBinary |} = true |- _ =>
             apply in_domain_binary in D; [simpl in D | reflexivity]
         | D : in_domain _ {| cat := LpInteger |} = true |- _ =>
             apply (@in_domain_lower _ _ 0) in D;
             [simpl in D | discriminate | reflexivity]
         | D : in_domain _ {| cat := LpContinuous |} = true |- _ =>
             apply (@in_domain_lower _ _ 0) in D;
             [simpl in D | discriminate | reflexivity]
         end;
  unfold holds, value in *; simpl in *.

(** C4 at the fixed instance.  [max_vehicles] allows 20 trucks to A, and
    the cost program accepts the plan with 15 trucks to A and 15 to B; yet
    no assignment feasible for the time program sends more than 6 trucks to
    A, because the upper linkage constraint [shipments <= M * used] bounds
    every shipment count by [M = 6]. *)
Theorem time_model_caps_shipments_at_M (a : Assignment) :
  feasible Scenario.time_model
    (time_variables Scenario.time_vars Scenario.max_time) a = true ->
  dict_get (max_vehicles Scenario.input) Scenario.A_Truck = Some 20%Z /\
  In (upper_link 6 Scenario.A_Truck) (constraints Scenario.time_model) /\
  feasible Scenario.cost_model (cost_variables Scenario.cost_vars)
    Scenario.expected_B = true /\
  a (Shipment Scenario.A_Truck) <= 6.
Proof.
  intros F. split; [reflexivity|]. split.
  { vm_compute. repeat (first [left; reflexivity | right]). }
  split; [reflexivity|].
  scenario_time_facts F. unfold Scenario.A_Truck.
  match goal with
  | B : a (Route_Used ("A", "Truck")) == 0 \/ _ |- _ =>
      destruct B as [U | U]; rewrite U in *; lra
  end.
Qed.

Lemma time_model_caps_shipments_at_M_witness :
  feasible Scenario.time_model
    (time_variables Scenario.time_vars Scenario.max_time)
    Scenario.rail_only = true /\
  Scenario.rail_only (Shipment Scenario.A_Truck) <= 6.
Proof.
  split; [reflexivity|].
  apply (time_model_caps_shipments_at_M Scenario.rail_only). reflexivity.
Defined.

(* ===================================================================== *)
(** * Extraction                                                           *)
(* ===================================================================== *)

Lemma dict_set_fresh {K V : Type} `{KeyOk K} (d : dict K V) (k : K) (v : V) :
  dict_get d k = None -> dict_set d k v = (d ++ [(k, v)])%list.
Proof.
  induction d as [|[k' v'] d IH]; simpl; [reflexivity|].
  destruct (key_eqb k k'); [discriminate|].
  intros G. rewrite IH by exact G. reflexivity.
Qed.

Lemma plan_get_set_same (p : Plan) (wh mode : string) (val : Z) :
  plan_get (plan_set p wh mode val) (wh, mode) = Some val.
Proof.
  unfold plan_get, plan_set. simpl.
  destruct (dict_mem p wh) eqn:M.
  - unfold dict_mem in M. destruct (dict_get p wh) as [inner|] eqn:G;
      [|discriminate].
    rewrite dict_get_set_same. apply dict_get_set_same.
  - rewrite dict_get_set_same. rewrite dict_get_set_same.
    apply dict_get_set_same.
Qed.

Lemma plan_get_set_other (p : Plan) (wh mode : string) (val : Z) (e : Edge) :
  e <> (wh, mode) ->
  plan_get (plan_set p wh mode val) e = plan_get p e.
Proof.
  intros N. destruct e as [w m]. unfold plan_get, plan_set. simpl.
  destruct (dict_mem p wh) eqn:M; unfold dict_mem in M.
  - destruct (dict_get p wh) as [inner|] eqn:G; [|discriminate].
    destruct (String.eqb w wh) eqn:Ew.
    + apply String.eqb_eq in Ew. subst w.
      rewrite dict_get_set_same, G.
      apply dict_get_set_other. congruence.
    + apply String.eqb_neq in Ew. rewrite dict_get_set_other by exact Ew.
      reflexivity.
  - destruct (dict_get p wh) as [inner|] eqn:G; [discriminate|].
    rewrite dict_get_set_same.
    destruct (String.eqb w wh) eqn:Ew.
    + apply String.eqb_eq in Ew. subst w.
      rewrite dict_get_set_same, G.
      rewrite dict_get_set_other by congruence. reflexivity.
    + apply String.eqb_neq in Ew.
      rewrite !dict_get_set_other by exact Ew. reflexivity.
Qed.




Lemma shipment_vars_named (keys : list Edge) (k : Edge) (var : LpVariable) :
  In (k, var) (shipment_vars keys) -> var_name var = Shipment k.
Proof.
  unfold shipment_vars, LpVariable_dicts. intros I.
  apply in_map_iff in I. destruct I as [k' [E _]].
  inversion E; subst. reflexivity.
Qed.

(** The plan after the collecting loop: the counted edges of [items] with
    their truncated values, on top of the plan the loop started from. *)
Lemma collect_shipments_plan (self : DataLoader) (values : LpVar -> Q)
  (items : list (Edge * LpVariable)) (p p' : Plan) (c c' : Q) :
  (forall k var, In (k, var) items -> var_name var = Shipment k) ->
  collect_shipments self values items p c = Ok (p', c') ->
  forall e,
    plan_get p' e =
    if existsb (key_eqb e) (dict_keys items) && counted values e
    then Some (int (values (Shipment e)))
    else plan_get p e.
Proof.
  revert p c. induction items as [|[[wh mode] var] rest IH]; intros p c Hn.
  - simpl. intros [= <- <-] e. reflexivity.
  - simpl. rewrite (Hn (wh, mode) var (or_introl eq_refl)).
    assert (Hn' : forall k v, In (k, v) rest -> var_name v = Shipment k)
      by (intros k v I; apply Hn; right; exact I).
    destruct (0 <? int (values (Shipment (wh, mode)))) eqn:Cnt.
    + destruct (routes_iloc0 self wh mode) as [route|ex]; simpl;
        [|discriminate].
      intros E e. rewrite (IH _ _ Hn' E e).
      destruct (key_eqb e (wh, mode)) eqn:Ek; simpl.
      * apply key_eqb_eq in Ek. subst e. unfold counted. rewrite Cnt.
        rewrite andb_true_r.
        destruct (existsb _ _); [reflexivity | apply plan_get_set_same].
      * apply key_eqb_neq in Ek.
        rewrite plan_get_set_other by exact Ek. reflexivity.
    + intros E e. rewrite (IH _ _ Hn' E e).
      destruct (key_eqb e (wh, mode)) eqn:Ek; simpl; [|reflexivity].
      apply key_eqb_eq in Ek. subst e. unfold counted. rewrite Cnt.
      rewrite andb_false_r. reflexivity.
Qed.


(** The recomputed maximum lead time: at least the start value and the lead
    time of every edge with a positive raw value, and equal to one of them. *)
Lemma max_lead_time_loop_spec (self : DataLoader) (values : LpVar -> Q)
  (items : list (Edge * LpVariable)) (acc m : Z) :
  (forall k var, In (k, var) items -> var_name var = Shipment k) ->
  max_lead_time_loop self values items acc = Ok m ->
  (acc <= m)%Z /\
  (forall e, In e (dict_keys items) -> raw_positive values e = true ->
     exists lt, edge_lead_time self e = Some lt /\ (lt <= m)%Z) /\
  (m = acc \/
   exists e, In e (dict_keys items) /\ raw_positive values e = true /\
             edge_lead_time self e = Some m).
Proof.
  revert acc. induction items as [|[[wh mode] var] rest IH]; intros acc Hn.
  - simpl. intros [= <-]. split; [lia|]. split; [intros e []|auto].
  - simpl. rewrite (Hn (wh, mode) var (or_introl eq_refl)).
    assert (Hn' : forall k v, In (k, v) rest -> var_name v = Shipment k)
      by (intros k v I; apply Hn; right; exact I).
    destruct (Qgt_bool (values (Shipment (wh, mode))) 0) eqn:Pos.
    + destruct (routes_iloc0 self wh mode) as [route|ex] eqn:R; simpl;
        [|discriminate].
      intros E. destruct (IH _ Hn' E) as [H1 [H2 H3]].
      assert (El : edge_lead_time self (wh, mode) = Some (lead_time route))
        by (unfold edge_lead_time; simpl; rewrite R; reflexivity).
      split; [lia|]. split.
      * intros e [<- | I] P; [|auto].
        exists (lead_time route). split; [exact El | lia].
      * destruct H3 as [-> | [e [I [P L]]]].
        -- destruct (Z.max_spec acc (lead_time route)) as [[_ ->] | [_ ->]];
             [|auto].
           right. exists (wh, mode). auto.
        -- right. exists e. auto.
    + intros E. destruct (IH _ Hn' E) as [H1 [H2 H3]].
      split; [exact H1|]. split.
      * intros e [<- | I] P; [|auto].
        unfold raw_positive in P. congruence.
      * destruct H3 as [-> | [e [I [P L]]]]; [auto|].
        right. exists e. auto.
Qed.



Lemma collect_shipments_ok (self : DataLoader) (values : LpVar -> Q)
  (items : list (Edge * LpVariable)) (p : Plan) (c : Q) :
  (forall k, In k (dict_keys items) ->
     exists r, routes_iloc0 self (fst k) (snd k) = Ok r) ->
  exists p' c', collect_shipments self values items p c = Ok (p', c').
Proof.
  revert p c. induction items as [|[[wh mode] var] rest IH]; intros p c Hr.
  - simpl. eauto.
  - simpl.
    assert (Hr' : forall k, In k (dict_keys rest) ->
                    exists r, routes_iloc0 self (fst k) (snd k) = Ok r)
      by (intros k I; apply Hr; right; exact I).
    destruct (0 <? int (values (var_name var))); [|apply IH; exact Hr'].
    destruct (Hr (wh, mode) (or_introl eq_refl)) as [r R]. simpl in R.
    rewrite R. simpl. apply IH. exact Hr'.
Qed.

Lemma max_lead_time_loop_ok (self : DataLoader) (values : LpVar -> Q)
  (items : list (Edge * LpVariable)) (acc : Z) :
  (forall k, In k (dict_keys items) ->
     exists r, routes_iloc0 self (fst k) (snd k) = Ok r) ->
  exists m, max_lead_time_loop self values items acc = Ok m.
Proof.
  revert acc. induction items as [|[[wh mode] var] rest IH]; intros acc Hr.
  - simpl. eauto.
  - simpl.
    assert (Hr' : forall k, In k (dict_keys rest) ->
                    exists r, routes_iloc0 self (fst k) (snd k) = Ok r)
      by (intros k I; apply Hr; right; exact I).
    destruct (Qgt_bool (values (var_name var)) 0); [|apply IH; exact Hr'].
    destruct (Hr (wh, mode) (or_introl eq_refl)) as [r R]. simpl in R.
    rewrite R. simpl. apply IH. exact Hr'.
Qed.

(** Truncation keeps a value below an integer bound it respects. *)
Lemma int_le_bound (q : Q) (z : Z) :
  (0 <= z)%Z -> q <= inject_Z z -> (int q <= z)%Z.
Proof.
  destruct q as [n d]. unfold Qle, int. simpl. intros Hz H.
  apply Z.quot_le_upper_bound; lia.
Qed.

Lemma scenario_routes_found (k : Edge) :
  In k (dict_keys Scenario.time_vars) ->
  exists r, routes_iloc0 Scenario.catalog (fst k) (snd k) = Ok r.
Proof.
  intros I. vm_compute in I.
  destruct I as [<- | [<- | [<- | []]]]; eexists; reflexivity.
Qed.

(** Every feasible assignment of the time program of the fixed instance
    uses the rail route and has [max_time >= 5]. *)
Lemma scenario_time_needs_rail (a : Assignment) :
  feasible Scenario.time_model
    (time_variables Scenario.time_vars Scenario.max_time) a = true ->
  0 < a (Shipment Scenario.A_Rail) /\ 5 <= a Max_Delivery_Time /\
  a (Shipment Scenario.A_Truck) <= 6 /\ a (Shipment Scenario.B_Truck) <= 6.
Proof.
  intros F. scenario_time_facts F.
  unfold Scenario.A_Rail, Scenario.A_Truck, Scenario.B_Truck.
  repeat match goal with
         | B : _ == 0 \/ _ == 1 |- _ => destruct B as [B | B]
         end;
  repeat match goal with
         | U : a (Route_Used _) == _ |- _ => rewrite U in *; clear U
         end;
  repeat split; lra.
Qed.

(** C5 at the code.  On the fixed instance the built time program rejects
    the plan Scenario B expects (15 trucks to A and 15 to B): its upper
    linkage constraints allow at most 6 vehicles per edge.  The optimum of
    the program is 5, reached with six rail vehicles, and whatever feasible
    values the solver reports as Optimal, [solve] stores a maximum lead time
    of 5 and a plan with at most 6 trucks to A. *)
Theorem scenario_B_time_model_outcome :
  let vars := time_variables Scenario.time_vars Scenario.max_time in
  feasible Scenario.time_model vars Scenario.expected_B = false /\
  optimal Scenario.time_model vars Scenario.rail_only /\
  objective_value Scenario.time_model Scenario.rail_only == 5 /\
  forall solver : Solver,
    status (solver Scenario.time_model) = LpStatusOptimal ->
    feasible Scenario.time_model vars
      (varValue (solver Scenario.time_model)) = true ->
    exists plan cost,
      solve_time Scenario.catalog solver Scenario.input [] =
        (Ok [("status", VStr "Optimal");
             ("solution", VPlan plan);
             ("max_lead_time", VInt 5);
             ("total_cost", VNum cost)],
         [solve_call Scenario.time_model]) /\
      forall n, plan_get plan Scenario.A_Truck = Some n -> (n <= 6)%Z.
Proof.
  intros vars. split; [reflexivity|]. split; [|split].
  - split; [reflexivity|]. intros b Fb.
    apply scenario_time_needs_rail in Fb. destruct Fb as [_ [Fb _]].
    change (objective_value Scenario.time_model Scenario.rail_only) with (1 * 5 + 0).
    change (objective_value Scenario.time_model b)
      with (1 * b Max_Delivery_Time + 0).
    lra.
  - vm_compute. reflexivity.
  - intros solver St F.
    pose proof (scenario_time_needs_rail _ F) as [Hr [_ [Ht _]]].
    unfold solve_time, bind. rewrite scenario_time_build.
    unfold call_solver, bind, emit, ret, lift, extract_time. simpl app.
    cbv iota beta. rewrite St.
    change (String.eqb (LpStatus LpStatusOptimal) "Optimal") with true.
    cbv iota.
    set (a := varValue (solver Scenario.time_model)) in *.
    destruct (collect_shipments_ok Scenario.catalog a Scenario.time_vars
                [] 0 scenario_routes_found) as [plan [cost Ec]].
    destruct (max_lead_time_loop_ok Scenario.catalog a Scenario.time_vars
                0 scenario_routes_found) as [m Em].
    rewrite Ec. cbn [bindR]. rewrite Em. cbn [bindR].
    assert (Hn : forall k var, In (k, var) Scenario.time_vars ->
                   var_name var = Shipment k).
    { intros k var I.
      apply (shipment_vars_named
               (eligible_edges Scenario.catalog Scenario.input)). exact I. }
    destruct (max_lead_time_loop_spec _ _ _ _ Hn Em) as [_ [H2 H3]].
    assert (m = 5%Z) as ->.
    { destruct (H2 Scenario.A_Rail) as [lt [El Hl]].
      - vm_compute. auto.
      - unfold raw_positive. apply Qgt_bool_true. exact Hr.
      - vm_compute in El. inversion El; subst lt.
        destruct H3 as [-> | [e [I [_ L]]]]; [lia|].
        vm_compute in I.
        destruct I as [<- | [<- | [<- | []]]]; vm_compute in L;
          inversion L; subst; lia. }
    exists plan, cost. split; [reflexivity|].
    intros n G.
    rewrite (collect_shipments_plan _ _ _ _ _ Hn Ec Scenario.A_Truck) in G.
    destruct (_ && _); [|discriminate].
    inversion G; subst n. apply int_le_bound; [lia | exact Ht].
Qed.



(** C7 at the code.  With a demand of 100 the solver may report 5 trucks to
    A, 5 trucks to B and a rail value of 1e-7.  The stored plan holds the
    two truck entries and [total_cost] is 5 * 100 + 5 * 120, re-read from
    the catalog; but the stored [max_lead_time] is 5, the lead time of the
    rail route, whereas the largest lead time among the plan's entries
    is 2. *)
Theorem reported_max_lead_time_not_of_plan :
  let plan := [("A", [("Truck", 5%Z)]); ("B", [("Truck", 5%Z)])] in
  fst (solve_time Scenario.catalog
         (Scenario.solver_returning Scenario.noisy_trucks)
         Scenario.input_small []) =
    Ok [("status", VStr "Optimal");
        ("solution", VPlan plan);
        ("max_lead_time", VInt 5);
        ("total_cost", VNum 1100)] /\
  plan_cost Scenario.catalog plan == 1100 /\
  plan_max_lead_time Scenario.catalog plan = 2%Z /\
  plan_get plan Scenario.A_Rail = None /\
  edge_lead_time Scenario.catalog Scenario.A_Rail = Some 5%Z.
Proof.
  intros plan. split; [vm_compute; reflexivity|].
  split; [vm_compute; reflexivity|].
  split; [reflexivity|]. split; reflexivity.
Qed.



(* ===================================================================== *)
(** * Several route rows for one pair                                      *)
(* ===================================================================== *)

(** [routes_iloc0] returns the first row, in catalog order, with the given
    destination and mode. *)
Lemma routes_iloc0_first (self : DataLoader) (wh mode : string) (r : Route) :
  routes_iloc0 self wh mode = Ok r ->
  exists before after,
    routes self = (before ++ r :: after)%list /\
    destination r = wh /\ mode_name r = mode /\
    forall r', In r' before ->
               ~ (destination r' = wh /\ mode_name r' = mode).
Proof.
  unfold routes_iloc0. induction (routes self) as [|x l IH]; simpl;
    [discriminate|].
  destruct (String.eqb (destination x) wh && String.eqb (mode_name x) mode)
    eqn:E.
  - intros [= <-]. apply andb_true_iff in E. destruct E as [E1 E2].
    apply String.eqb_eq in E1, E2.
    exists [], l. simpl. repeat split; auto.
  - intros F. destruct (IH F) as [before [after [L [D [Mo N]]]]].
    exists (x :: before), after. simpl. rewrite L.
    repeat split; auto.
    intros r' [<- | I]; [|auto].
    intros [D' M']. rewrite D', M', !String.eqb_refl in E. discriminate E.
Qed.

Lemma route_costs_fold_keeps (l : list (string * string * Q))
  (d : dict Edge Q) (wh mode : string) (c : Q) :
  (forall c', ~ In (wh, mode, c') l) ->
  dict_get d (wh, mode) = Some c ->
  dict_get (fold_left
              (fun d r => dict_set d (fst (fst r), snd (fst r)) (snd r)) l d)
    (wh, mode) = Some c.
Proof.
  revert d. induction l as [|[[w m] c'] l IH]; intros d Hn G; simpl;
    [exact G|].
  apply IH.
  - intros c'' I. apply (Hn c''). right. exact I.
  - rewrite dict_get_set_other; [exact G|].
    intros E. inversion E; subst. apply (Hn c'). left. reflexivity.
Qed.

(** The cost [route_costs] holds for an edge is that of the last valid
    route with the edge's pair. *)
Lemma route_costs_last (before after : list (string * string * Q))
  (wh mode : string) (c : Q) :
  (forall c', ~ In (wh, mode, c') after) ->
  dict_get (route_costs_of (before ++ (wh, mode, c) :: after)%list) (wh, mode)
  = Some c.
Proof.
  intros Hn. unfold route_costs_of. rewrite fold_left_app. simpl.
  apply route_costs_fold_keeps; [exact Hn|]. apply dict_get_set_same.
Qed.

(** C8 at the code.  With two rows for the pair (A, Truck), costing 100 and
    50 in catalog order, the lookups by [.iloc[0]] resolve to the first
    row, so the extraction prices 10 trucks at 1000; the coefficient of
    the cost objective, however, is 50, the cost of the last row. *)
Theorem duplicate_rows_objective_cost :
  let built := built_cost Scenario.duplicate_catalog Scenario.input in
  fst (build_cost_model Scenario.duplicate_catalog Scenario.input [])
  = Ok (Some built) /\
  routes_iloc0 Scenario.duplicate_catalog "A" "Truck"
  = Ok (mkRoute "P" "A" "Truck" 2 100) /\
  edge_cost Scenario.duplicate_catalog Scenario.A_Truck = Some 100 /\
  objective (fst built)
  = Some ("Total_Cost", mkAffine [(Shipment Scenario.A_Truck, 50)] 0) /\
  extract_cost Scenario.duplicate_catalog (snd built)
    (mkSolverOutput LpStatusOptimal (Scenario.assignment 0 10 0 0 0 0 0))
  = Ok [("status", VStr "Optimal");
        ("solution", VPlan [("A", [("Truck", 10%Z)])]);
        ("total_cost", VNum 1000)] /\
  objective_value (fst built) (Scenario.assignment 0 10 0 0 0 0 0) == 500.
Proof.
  intros built. split; [reflexivity|]. split; [reflexivity|].
  split; [reflexivity|]. split; [vm_compute; reflexivity|].
  split; vm_compute; reflexivity.
Qed.

(* ===================================================================== *)
(** * Loading and filtering, on any catalog                                *)
(* ===================================================================== *)

(** X1.  Loading is idempotent: the tables [load_data] delivers are left
    unchanged by a second run of its stripping step. *)
Theorem load_data_idempotent (raw : DataLoader) :
  load_data (load_data raw) = load_data raw.
Proof.
  unfold load_data. simpl. rewrite !map_map. simpl.
  f_equal; apply map_ext; intros x; rewrite ?strip_idem; reflexivity.
Qed.

(** X2.  On every catalog, stripped or not, the eligible edges are pairwise
    distinct, and each of them has a selected warehouse, is a key of
    [max_vehicles], and comes from a route row whose stripped destination
    and mode are the edge and whose lead time is within the ceiling. *)
Theorem eligible_edges_sound (self : DataLoader)
  (input_data : OptimizationInput) :
  NoDup (eligible_edges self input_data) /\
  forall wh mode, In (wh, mode) (eligible_edges self input_data) ->
    In wh (selected_warehouses input_data) /\
    In (wh, mode) (dict_keys (max_vehicles input_data)) /\
    exists r, In r (routes self) /\
              strip (destination r) = wh /\ strip (mode_name r) = mode /\
              (lead_time r <= max_delivery_time input_data)%Z.
Proof.
  split.
  - unfold eligible_edges, route_costs_of. apply route_costs_fold_NoDup.
    constructor.
  - intros wh mode I. unfold eligible_edges, _get_valid_routes in I.
    apply route_costs_keys in I. destruct I as [c I]. simpl in I.
    apply valid_routes_loop_In in I.
    destruct I as [r [Ir [E1 [E2 [_ [M1 [L M2]]]]]]].
    apply list_mem_In in M1. apply dict_mem_keys in M2.
    split; [exact M1|]. split; [exact M2|]. exists r. auto.
Qed.

(** X3.  The route lookup [.iloc[0]] of a filtered table returns the first
    row, in catalog order, with the given destination and mode, and raises
    [IndexError], and nothing else, exactly when no row has them. *)
Theorem route_lookup_first_or_IndexError (self : DataLoader)
  (wh mode : string) :
  match routes_iloc0 self wh mode with
  | Ok r =>
      exists before after,
        routes self = (before ++ r :: after)%list /\
        destination r = wh /\ mode_name r = mode /\
        forall r', In r' before ->
                   ~ (destination r' = wh /\ mode_name r' = mode)
  | Raise e =>
      e = IndexError /\
      forall r', In r' (routes self) ->
                 ~ (destination r' = wh /\ mode_name r' = mode)
  end.
Proof.
  unfold routes_iloc0. induction (routes self) as [|x l IH]; simpl.
  - split; [reflexivity | tauto].
  - destruct (String.eqb (destination x) wh && String.eqb (mode_name x) mode)
      eqn:E.
    + apply andb_true_iff in E. destruct E as [E1 E2].
      apply String.eqb_eq in E1, E2.
      exists [], l. simpl. repeat split; auto.
    + destruct (filter _ l) as [|r rs].
      * destruct IH as [_ IH]. split; [reflexivity|].
        intros r' [<- | I]; [|auto].
        intros [D M]. rewrite D, M, !String.eqb_refl in E. discriminate E.
      * destruct IH as [before [after [L [D [M N]]]]].
        exists (x :: before), after. simpl. rewrite L.
        repeat split; auto.
        intros r' [<- | I]; [|auto].
        intros [D' M']. rewrite D', M', !String.eqb_refl in E. discriminate E.
Qed.

(* ===================================================================== *)
(** * Exceptions of the builders                                           *)
(* ===================================================================== *)

(** The weight terms raise [KeyError] as soon as one mode is unknown. *)
Lemma weight_terms_raise (self : DataLoader) (keys edges : list Edge) :
  incl edges keys ->
  (exists e, In e edges /\
             dict_mem (vehicle_capacities_of self) (snd e) = false) ->
  mapR (weight_term (shipment_vars keys) (vehicle_capacities_of self)) edges
  = Raise KeyError.
Proof.
  intros Hin. induction edges as [|x edges IH]; intros [e [I M]].
  - destruct I.
  - simpl. rewrite weight_term_eq by (apply Hin; left; reflexivity).
    destruct (dict_get (vehicle_capacities_of self) (snd x)) as [w|] eqn:G;
      [|reflexivity].
    simpl. rewrite IH; [reflexivity | |].
    + intros y Iy. apply Hin. right. exact Iy.
    + destruct I as [<- | I].
      * unfold dict_mem in M. rewrite G in M. discriminate M.
      * exists e. auto.
Qed.

Lemma build_cost_model_KeyError (self : DataLoader)
  (input_data : OptimizationInput) (tr : list Event) :
  modes_listed self input_data = false ->
  build_cost_model self input_data tr = (Raise KeyError, tr).
Proof.
  intros Hm. unfold modes_listed, eligible_edges in Hm.
  unfold build_cost_model.
  remember (_get_valid_routes self input_data) as vr eqn:V.
  destruct vr as [|r vr]; [discriminate Hm|].
  remember (route_costs_of (r :: vr)) as rc eqn:Hrc.
  fold (shipment_vars (dict_keys rc)). unfold lift.
  rewrite (objective_terms_ok rc (incl_refl _)). cbn [bindR].
  unfold _add_constraints.
  rewrite weight_terms_raise; [reflexivity | apply incl_refl |].
  assert (X : existsb (fun e : Edge =>
                negb (dict_mem (vehicle_capacities_of self) (snd e)))
                (dict_keys rc) = true).
  { clear - Hm. induction (dict_keys rc) as [|e l IH]; simpl in *;
      [discriminate|].
    destruct (dict_mem (vehicle_capacities_of self) (snd e)); simpl in *;
      auto. }
  apply existsb_exists in X. destruct X as [e [I N]].
  exists e. split; [exact I|]. apply negb_true_iff in N. exact N.
Qed.

(** X4.  When the mode of some eligible edge is missing from the modes
    table, the cost builder raises [KeyError], and so does [solve]: no
    result is stored, nothing is reported and the solver is not called. *)
Theorem unlisted_mode_raises_KeyError (self : DataLoader) (solver : Solver)
  (input_data : OptimizationInput) :
  modes_listed self input_data = false ->
  build_cost_model self input_data [] = (Raise KeyError, []) /\
  run_solve self solver input_data = (Raise KeyError, []).
Proof.
  intros Hm. split; [apply build_cost_model_KeyError; exact Hm|].
  unfold run_solve, solve, solve_cost, bind.
  rewrite (build_cost_model_KeyError self input_data [] Hm). reflexivity.
Qed.

Lemma unlisted_mode_raises_KeyError_witness :
  modes_listed Cases.unlisted_mode_catalog Cases.unlisted_mode_input = false /\
  run_solve Cases.unlisted_mode_catalog
    (Scenario.solver_returning Scenario.rail_only) Cases.unlisted_mode_input
  = (Raise KeyError, []).
Proof.
  split; [reflexivity|].
  apply (@unlisted_mode_raises_KeyError Cases.unlisted_mode_catalog
           (Scenario.solver_returning Scenario.rail_only)
           Cases.unlisted_mode_input).
  reflexivity.
Defined.







(* ===================================================================== *)
(** * What an Optimal result holds                                         *)
(* ===================================================================== *)



(** The plan of an Optimal extraction, in either model. *)
Lemma extracted_plan (self : DataLoader) (keys : list Edge)
  (out : SolverOutput) (plan : Plan) (cost : Q) :
  (extract_cost self (shipment_vars keys) out =
     Ok [("status", VStr "Optimal");
         ("solution", VPlan plan);
         ("total_cost", VNum cost)] \/
   exists mlt,
     extract_time self (shipment_vars keys) out =
       Ok [("status", VStr "Optimal");
           ("solution", VPlan plan);
           ("max_lead_time", VInt mlt);
           ("total_cost", VNum cost)]) ->
  exists c, collect_shipments self (varValue out) (shipment_vars keys) [] 0
            = Ok (plan, c).
Proof.
  intros [X | [mlt X]].
  - unfold extract_cost in X. destruct (String.eqb _ _); [|discriminate X].
    destruct (collect_shipments _ _ _ _ _) as [[p c]|e]; simpl in X;
      [|discriminate X].
    inversion X; subst. eauto.
  - unfold extract_time in X. destruct (String.eqb _ _); [|discriminate X].
    destruct (collect_shipments _ _ _ _ _) as [[p c]|e]; simpl in X;
      [|discriminate X].
    destruct (max_lead_time_loop _ _ _ _) as [m|e]; simpl in X;
      [|discriminate X].
    inversion X; subst. eauto.
Qed.

(** X7.  The plan of an Optimal result is sparse: it has an entry for an
    edge exactly when the edge is a variable of the program and its value,
    truncated toward zero, is positive, and the entry is that truncated
    value.  No zero and no negative count is ever stored. *)
Theorem plan_holds_positive_truncated_counts (self : DataLoader)
  (keys : list Edge) (out : SolverOutput) (plan : Plan) (cost : Q) :
  (extract_cost self (shipment_vars keys) out =
     Ok [("status", VStr "Optimal");
         ("solution", VPlan plan);
         ("total_cost", VNum cost)] \/
   exists mlt,
     extract_time self (shipment_vars keys) out =
       Ok [("status", VStr "Optimal");
           ("solution", VPlan plan);
           ("max_lead_time", VInt mlt);
           ("total_cost", VNum cost)]) ->
  forall e n,
    plan_get plan e = Some n <->
    In e keys /\ n = int (varValue out (Shipment e)) /\ (0 < n)%Z.
Proof.
  intros X e n. destruct (extracted_plan _ _ _ X) as [c Ec].
  pose proof (collect_shipments_plan _ _ _ _ _ (shipment_vars_named keys) Ec e)
    as Hp.
  unfold shipment_vars in Hp. rewrite LpVariable_dicts_keys in Hp.
  rewrite Hp. unfold counted.
  destruct (existsb (key_eqb e) keys) eqn:Ex.
  - apply existsb_exists in Ex. destruct Ex as [k [I Ek]].
    apply key_eqb_eq in Ek. subst k. simpl.
    destruct (0 <? int (varValue out (Shipment e)))%Z eqn:P.
    + apply Z.ltb_lt in P. split.
      * intros [= <-]. auto.
      * intros [_ [-> _]]. reflexivity.
    + apply Z.ltb_ge in P. simpl. split; [discriminate|].
      intros [_ [-> L]]. lia.
  - simpl. split; [discriminate|]. intros [I _]. exfalso.
    assert (Ex' : existsb (key_eqb e) keys = true).
    { apply existsb_exists. exists e. split; [exact I | apply key_eqb_refl]. }
    congruence.
Qed.

Lemma plan_holds_positive_truncated_counts_witness :
  plan_get [("A", [("Truck", 5%Z)]); ("B", [("Truck", 5%Z)])]
    Scenario.A_Rail = Some 0%Z <->
  In Scenario.A_Rail (eligible_edges Scenario.catalog Scenario.input) /\
  0%Z = int (Scenario.noisy_trucks (Shipment Scenario.A_Rail)) /\ (0 < 0)%Z.
Proof.
  apply (@plan_holds_positive_truncated_counts Scenario.catalog
           (eligible_edges Scenario.catalog Scenario.input)
           (mkSolverOutput LpStatusOptimal Scenario.noisy_trucks)
           [("A", [("Truck", 5%Z)]); ("B", [("Truck", 5%Z)])] 1100).
  right. exists 5%Z. vm_compute. reflexivity.
Defined.

(** X8.  The reported [max_lead_time] of an Optimal time result is the
    largest lead time, read from the first matching route row, among the
    edges whose raw value is positive: it is at least each of them, it is
    one of them unless it is 0, and it is 0 when no raw value is positive
    or no such lead time is positive. *)
Theorem reported_max_lead_time_is_raw_maximum (self : DataLoader)
  (keys : list Edge) (out : SolverOutput) (plan : Plan) (cost : Q)
  (mlt : Z) :
  extract_time self (shipment_vars keys) out =
    Ok [("status", VStr "Optimal");
        ("solution", VPlan plan);
        ("max_lead_time", VInt mlt);
        ("total_cost", VNum cost)] ->
  (0 <= mlt)%Z /\
  (forall e, In e keys -> 0 < varValue out (Shipment e) ->
     exists lt, edge_lead_time self e = Some lt /\ (lt <= mlt)%Z) /\
  (mlt = 0%Z \/
   exists e, In e keys /\ 0 < varValue out (Shipment e) /\
             edge_lead_time self e = Some mlt).
Proof.
  unfold extract_time. destruct (String.eqb _ _); [|discriminate].
  destruct (collect_shipments _ _ _ _ _) as [[p c]|ex]; simpl;
    [|discriminate].
  destruct (max_lead_time_loop _ _ _ _) as [m|ex] eqn:Em; simpl;
    [|discriminate].
  intros [= <- <- <-].
  destruct (max_lead_time_loop_spec _ _ _ _ (shipment_vars_named keys) Em)
    as [H1 [H2 H3]].
  unfold shipment_vars in H2, H3. rewrite LpVariable_dicts_keys in H2, H3.
  split; [exact H1|]. split.
  - intros e I P. apply H2; [exact I|]. unfold raw_positive.
    apply Qgt_bool_true. exact P.
  - destruct H3 as [-> | [e [I [P L]]]]; [auto|]. right. exists e.
    unfold raw_positive in P. apply Qgt_bool_true in P. auto.
Qed.

Lemma reported_max_lead_time_is_raw_maximum_witness :
  (0 <= 5)%Z /\
  exists e, In e (eligible_edges Scenario.catalog Scenario.input) /\
            0 < Scenario.noisy_trucks (Shipment e) /\
            edge_lead_time Scenario.catalog e = Some 5%Z.
Proof.
  destruct (@reported_max_lead_time_is_raw_maximum Scenario.catalog
              (eligible_edges Scenario.catalog Scenario.input)
              (mkSolverOutput LpStatusOptimal Scenario.noisy_trucks)
              [("A", [("Truck", 5%Z)]); ("B", [("Truck", 5%Z)])] 1100 5%Z)
    as [H0 [_ [H | H]]].
  - vm_compute. reflexivity.
  - discriminate H.
  - split; [exact H0 | exact H].
Defined.

(* ===================================================================== *)
(** * From a feasible solver answer to the reported plan                  *)
(* ===================================================================== *)

Lemma Forall2_In_left {A B : Type} (R : A -> B -> Prop) (l1 : list A)
  (l2 : list B) (x : A) :
  Forall2 R l1 l2 -> In x l1 -> exists y, In y l2 /\ R x y.
Proof.
  intros F. induction F as [|a b l1 l2 Hab _ IH]; intros I; [destruct I|].
  destruct I as [<- | I].
  - exists b. split; [left; reflexivity | exact Hab].
  - destruct (IH I) as [y [Iy Ry]]. exists y. split; [right; exact Iy | exact Ry].
Qed.

Lemma shipped_weight_agree (self : DataLoader) (a b : Assignment)
  (edges : list Edge) :
  (forall e, In e edges -> a (Shipment e) == b (Shipment e)) ->
  shipped_weight self a edges == shipped_weight self b edges.
Proof.
  unfold shipped_weight. induction edges as [|e edges IH]; intros H; simpl.
  - reflexivity.
  - rewrite (H e (or_introl eq_refl)).
    rewrite IH by (intros x I; apply H; right; exact I). reflexivity.
Qed.

Lemma ship_var_in_cost_variables (keys : list Edge) (e : Edge) :
  In e keys -> In (ship_var e) (cost_variables (shipment_vars keys)).
Proof.
  intros I. unfold cost_variables, dict_values, shipment_vars,
    LpVariable_dicts.
  rewrite map_map. simpl. apply in_map_iff. exists e. auto.
Qed.

(** A value within the domain of a shipment variable is a natural number. *)
Lemma ship_var_domain (a : Assignment) (e : Edge) :
  in_domain a (ship_var e) = true ->
  (0 <= int (a (Shipment e)))%Z /\
  a (Shipment e) == inject_Z (int (a (Shipment e))).
Proof.
  unfold in_domain, in_bounds, is_integral. simpl.
  rewrite !andb_true_iff. intros [[L _] I].
  apply Qle_bool_iff in L. apply Qeq_bool_true in I. split; [|exact I].
  rewrite I in L. change 0 with (inject_Z 0) in L.
  rewrite <- Zle_Qle in L. exact L.
Qed.

(** On values within the domain, the plan holds the values themselves. *)
Lemma plan_assignment_agrees (self : DataLoader) (keys : list Edge)
  (values : LpVar -> Q) (plan : Plan) (c : Q) (e : Edge) :
  collect_shipments self values (shipment_vars keys) [] 0 = Ok (plan, c) ->
  In e keys ->
  in_domain values (ship_var e) = true ->
  plan_count plan e = int (values (Shipment e)) /\
  plan_assignment plan (Shipment e) == values (Shipment e).
Proof.
  intros Ec I D. destruct (ship_var_domain _ _ D) as [P Eq].
  pose proof (collect_shipments_plan _ _ _ _ _ (shipment_vars_named keys) Ec e)
    as Hp.
  unfold shipment_vars in Hp. rewrite LpVariable_dicts_keys in Hp.
  assert (Ex : existsb (key_eqb e) keys = true).
  { apply existsb_exists. exists e. split; [exact I | apply key_eqb_refl]. }
  rewrite Ex in Hp. simpl in Hp. unfold counted in Hp.
  assert (C : plan_count plan e = int (values (Shipment e))).
  { unfold plan_count. rewrite Hp.
    destruct (0 <? int (values (Shipment e)))%Z eqn:Pos; [reflexivity|].
    apply Z.ltb_ge in Pos. simpl. lia. }
  split; [exact C|]. simpl. rewrite C. symmetry. exact Eq.
Qed.

(** X9.  When the values the solver reports as Optimal are feasible for the
    built cost program, the reported plan itself meets the three families
    of constraints: the weight it ships covers the demand, the weight it
    sends to each selected warehouse of the warehouse table stays within
    [max(0, capacity - stock_level)], and no count exceeds the ceiling
    [max_vehicles] gives its edge. *)
Theorem cost_plan_meets_constraints (self : DataLoader)
  (input_data : OptimizationInput) (cm : LpProblem)
  (cs : dict Edge LpVariable) (out : SolverOutput) (plan : Plan) (cost : Q) :
  fst (build_cost_model self input_data []) = Ok (Some (cm, cs)) ->
  feasible cm (cost_variables cs) (varValue out) = true ->
  extract_cost self cs out =
    Ok [("status", VStr "Optimal");
        ("solution", VPlan plan);
        ("total_cost", VNum cost)] ->
  let E := eligible_edges self input_data in
  inject_Z (total_demand input_data)
  <= shipped_weight self (plan_assignment plan) E /\
  (forall w, In w (capacity_warehouses self input_data) ->
     inbound_weight self (plan_assignment plan) E w
     <= available_capacity self w) /\
  (forall e z, In e E -> dict_get (max_vehicles input_data) e = Some z ->
     (0 <= plan_count plan e <= z)%Z).
Proof.
  intros B F X E.
  destruct (build_cost_model self input_data []) as [res tr'] eqn:Bc.
  simpl in B. subst res.
  destruct (build_cost_model_inv _ _ _ Bc) as [_ [_ [Hcs [_ A]]]].
  subst cs. fold E in F, X.
  apply feasible_iff in F. destruct F as [Hc Hv].
  destruct (extracted_plan self E out (or_introl X)) as [c Ec].
  assert (Ag : forall e, In e E ->
            plan_count plan e = int (varValue out (Shipment e)) /\
            plan_assignment plan (Shipment e) == varValue out (Shipment e)).
  { intros e I. eapply plan_assignment_agrees; [exact Ec | exact I |].
    apply Hv. apply ship_var_in_cost_variables. exact I. }
  destruct A as [demand [caps [ceils [C [D [Fc Fv]]]]]]. fold E in D, Fc, Fv.
  assert (Hd : holds (varValue out) (snd demand)).
  { destruct demand as [n d]. apply (Hc n d). rewrite C. left. reflexivity. }
  split; [|split].
  - destruct D as [_ D]. apply D in Hd.
    rewrite (shipped_weight_agree self (plan_assignment plan) (varValue out) E);
      [exact Hd|].
    intros e I. apply (Ag e I).
  - intros w I. destruct (@Forall2_In_left _ _ _ _ _ w Fc I) as [[n c0] [Ic [_ Sem]]].
    assert (Hh : holds (varValue out) c0).
    { apply (Hc n c0). rewrite C. right. apply in_or_app. left. exact Ic. }
    apply Sem in Hh. unfold inbound_weight in *.
    rewrite (shipped_weight_agree self (plan_assignment plan) (varValue out));
      [exact Hh|].
    intros e Ie. apply filter_In in Ie. apply (Ag e). tauto.
  - intros e z I G. destruct (Ag e I) as [Cn Eq].
    assert (Dm : in_domain (varValue out) (ship_var e) = true)
      by (apply Hv; apply ship_var_in_cost_variables; exact I).
    destruct (ship_var_domain _ _ Dm) as [P Ei].
    split; [rewrite Cn; exact P|].
    assert (Ii : In (e, z) (ceiling_items E (max_vehicles input_data))).
    { unfold ceiling_items. apply filter_In. split.
      - apply dict_get_In. exact G.
      - simpl. apply shipment_vars_mem. exact I. }
    destruct (@Forall2_In_left _ _ _ _ _ (e, z) Fv Ii) as [[n c0] [Ic [_ Sem]]].
    assert (Hh : holds (varValue out) c0).
    { apply (Hc n c0). rewrite C. right. apply in_or_app. right. exact Ic. }
    apply Sem in Hh. simpl in Hh. rewrite Ei in Hh.
    rewrite <- Zle_Qle in Hh. rewrite Cn. exact Hh.
Qed.

Lemma cost_plan_meets_constraints_witness :
  fst (build_cost_model Scenario.catalog Scenario.input [])
  = Ok (Some (Scenario.cost_model, Scenario.cost_vars)) /\
  feasible Scenario.cost_model (cost_variables Scenario.cost_vars)
    Scenario.expected_B = true /\
  inject_Z (total_demand Scenario.input)
  <= shipped_weight Scenario.catalog
       (plan_assignment [("A", [("Truck", 15%Z)]); ("B", [("Truck", 15%Z)])])
       (eligible_edges Scenario.catalog Scenario.input).
Proof.
  split; [reflexivity|]. split; [reflexivity|].
  apply (@cost_plan_meets_constraints Scenario.catalog Scenario.input
           Scenario.cost_model Scenario.cost_vars
           (mkSolverOutput LpStatusOptimal Scenario.expected_B)
           [("A", [("Truck", 15%Z)]); ("B", [("Truck", 15%Z)])] 3300).
  - reflexivity.
  - reflexivity.
  - vm_compute. reflexivity.
Defined.

(* ===================================================================== *)
(** * Feasible answers of the time program                                 *)
(* ===================================================================== *)

Lemma time_variables_members (keys : list Edge) (e : Edge) :
  In e keys ->
  In (ship_var e) (time_variables (shipment_vars keys) max_time_var) /\
  In (used_var e) (time_variables (shipment_vars keys) max_time_var) /\
  In max_time_var (time_variables (shipment_vars keys) max_time_var).
Proof.
  intros I. unfold time_variables.
  assert (K : dict_keys (shipment_vars keys) = keys)
    by apply LpVariable_dicts_keys.
  rewrite K. split; [|split].
  - apply in_or_app. left.
    change (In (ship_var e) (cost_variables (shipment_vars keys))).
    apply ship_var_in_cost_variables. exact I.
  - apply in_or_app. right. apply in_or_app. left.
    unfold dict_values, LpVariable_dicts. rewrite map_map. simpl.
    apply in_map_iff. exists e. auto.
  - apply in_or_app. right. apply in_or_app. right. left. reflexivity.
Qed.

(** What a feasible assignment of a built time program satisfies, edge by
    edge. *)
Lemma feasible_time_edge (self : DataLoader)
  (input_data : OptimizationInput) (tm : LpProblem)
  (ts : dict Edge LpVariable) (mt : LpVariable) (a : Assignment) :
  fst (build_time_model self input_data []) = Ok (Some (tm, ts, mt)) ->
  feasible tm (time_variables ts mt) a = true ->
  ts = shipment_vars (eligible_edges self input_data) /\
  objective_value tm a == a Max_Delivery_Time /\
  0 <= a Max_Delivery_Time /\
  exists M : Z,
    is_big_M self input_data M /\
    forall e, In e (eligible_edges self input_data) ->
      exists lt, edge_lead_time self e = Some lt /\
                 linkage_forces M e lt a /\
                 0 <= a (Shipment e) /\
                 a (Shipment e) <= a (Route_Used e) * inject_Z M /\
                 (a (Route_Used e) == 0 \/ a (Route_Used e) == 1).
Proof.
  intros B F.
  destruct (time_model_structure _ _ B) as [M [HM Hs]].
  destruct (build_time_model self input_data []) as [res tr'] eqn:Bt.
  simpl in B. subst res.
  destruct (build_time_model_inv _ _ _ Bt) as [_ [Ne [Hts [Hmt [Ho _]]]]].
  subst ts mt. apply feasible_iff in F. destruct F as [Hc Hv].
  split; [reflexivity|].
  assert (Hobj : objective_value tm a == a Max_Delivery_Time).
  { unfold objective_value. rewrite Ho. apply value_lp_var. }
  split; [exact Hobj|].
  destruct (eligible_edges self input_data) as [|e0 E0] eqn:EE;
    [exfalso; apply Ne; reflexivity|].
  rewrite <- EE in *.
  assert (I0 : In e0 (eligible_edges self input_data))
    by (rewrite EE; left; reflexivity).
  destruct (time_variables_members _ _ I0) as [_ [_ Im]].
  assert (Hmt : 0 <= a Max_Delivery_Time).
  { apply (in_domain_lower a max_time_var);
      [discriminate | reflexivity | apply Hv; exact Im]. }
  split; [exact Hmt|].
  exists M. split; [exact HM|]. intros e I.
  destruct (Hs e I) as [lt [El [Hb [H1 [H2 H3]]]]].
  destruct (time_variables_members _ _ I) as [Is [Iu _]].
  exists lt. split; [exact El|].
  pose proof (Hc _ _ H1) as C1. pose proof (Hc _ _ H2) as C2.
  pose proof (Hc _ _ H3) as C3.
  split.
  - apply linkage_arith; try assumption; try (apply Hv; assumption).
  - split.
    + apply (in_domain_lower a (ship_var e));
        [discriminate | reflexivity | apply Hv; exact Is].
    + split.
      * apply (holds_upper_link a M e). exact C2.
      * apply (in_domain_binary a (used_var e) eq_refl). apply Hv. exact Iu.
Qed.

(** X10.  The objective of a built time program is the variable
    [Max_Delivery_Time] alone, and for every feasible answer reported as
    Optimal the [max_lead_time] that [solve] recomputes is at most the
    value of that objective. *)
Theorem reported_max_lead_time_below_objective (self : DataLoader)
  (input_data : OptimizationInput) (tm : LpProblem)
  (ts : dict Edge LpVariable) (mt : LpVariable) (out : SolverOutput)
  (plan : Plan) (cost : Q) (mlt : Z) :
  fst (build_time_model self input_data []) = Ok (Some (tm, ts, mt)) ->
  feasible tm (time_variables ts mt) (varValue out) = true ->
  extract_time self ts out =
    Ok [("status", VStr "Optimal");
        ("solution", VPlan plan);
        ("max_lead_time", VInt mlt);
        ("total_cost", VNum cost)] ->
  objective_value tm (varValue out) == varValue out Max_Delivery_Time /\
  inject_Z mlt <= objective_value tm (varValue out).
Proof.
  intros B F X.
  destruct (feasible_time_edge _ _ _ B F) as [Hts [Ho [H0 [M [_ He]]]]].
  subst ts. split; [exact Ho|]. rewrite Ho.
  unfold extract_time in X. destruct (String.eqb _ _); [|discriminate X].
  destruct (collect_shipments _ _ _ _ _) as [[p c]|ex]; simpl in X;
    [|discriminate X].
  destruct (max_lead_time_loop _ _ _ _) as [m|ex] eqn:Em; simpl in X;
    [|discriminate X].
  inversion X; subst. clear X.
  destruct (max_lead_time_loop_spec _ _ _ _
              (shipment_vars_named (eligible_edges self input_data)) Em)
    as [_ [_ H3]].
  unfold shipment_vars in H3. rewrite LpVariable_dicts_keys in H3.
  destruct H3 as [-> | [e [I [P L]]]]; [exact H0|].
  destruct (He e I) as [lt [El [[_ [Hpos [Hused _]]] _]]].
  rewrite El in L. inversion L; subst lt.
  apply Hused. apply Hpos. unfold raw_positive in P.
  apply Qgt_bool_true in P. exact P.
Qed.

Lemma reported_max_lead_time_below_objective_witness :
  fst (build_time_model Scenario.catalog Scenario.input [])
  = Ok (Some (Scenario.time_model, Scenario.time_vars, Scenario.max_time)) /\
  feasible Scenario.time_model
    (time_variables Scenario.time_vars Scenario.max_time)
    Scenario.rail_only = true /\
  inject_Z 5 <= objective_value Scenario.time_model Scenario.rail_only.
Proof.
  split; [reflexivity|]. split; [reflexivity|].
  apply (@reported_max_lead_time_below_objective Scenario.catalog
           Scenario.input Scenario.time_model Scenario.time_vars
           Scenario.max_time
           (mkSolverOutput LpStatusOptimal Scenario.rail_only)
           [("A", [("Rail", 6%Z)])] 480 5%Z).
  - reflexivity.
  - reflexivity.
  - vm_compute. reflexivity.
Defined.

(** X11.  In every built time program, whatever [max_vehicles] allows, a
    feasible assignment ships at most [M] vehicles over any eligible edge,
    [M] being one more than the largest lead time read for an eligible
    edge: the upper linkage constraint bounds the count by [M] times the
    binary indicator. *)
Theorem time_program_bounds_every_shipment (self : DataLoader)
  (input_data : OptimizationInput) (tm : LpProblem)
  (ts : dict Edge LpVariable) (mt : LpVariable) (a : Assignment) :
  fst (build_time_model self input_data []) = Ok (Some (tm, ts, mt)) ->
  feasible tm (time_variables ts mt) a = true ->
  exists M : Z,
    is_big_M self input_data M /\
    forall e, In e (eligible_edges self input_data) ->
      a (Shipment e) <= inject_Z (Z.max 0 M).
Proof.
  intros B F.
  destruct (feasible_time_edge _ _ _ B F) as [_ [_ [_ [M [HM He]]]]].
  exists M. split; [exact HM|]. intros e I.
  destruct (He e I) as [lt [_ [_ [_ [Hu Hb]]]]].
  assert (H0 : inject_Z 0 <= inject_Z (Z.max 0 M))
    by (rewrite <- Zle_Qle; lia).
  assert (H1 : inject_Z M <= inject_Z (Z.max 0 M))
    by (rewrite <- Zle_Qle; lia).
  change (inject_Z 0) with 0 in H0.
  destruct Hb as [U | U]; rewrite U in Hu; lra.
Qed.

Lemma time_program_bounds_every_shipment_witness :
  fst (build_time_model Scenario.catalog Scenario.input [])
  = Ok (Some (Scenario.time_model, Scenario.time_vars, Scenario.max_time)) /\
  feasible Scenario.time_model
    (time_variables Scenario.time_vars Scenario.max_time)
    Scenario.rail_only = true /\
  exists M : Z, is_big_M Scenario.catalog Scenario.input M.
Proof.
  split; [reflexivity|]. split; [reflexivity|].
  destruct (@time_program_bounds_every_shipment Scenario.catalog
              Scenario.input Scenario.time_model Scenario.time_vars
              Scenario.max_time Scenario.rail_only eq_refl eq_refl)
    as [M [HM _]].
  exists M. exact HM.
Defined.

(* ===================================================================== *)
(** * [solve] as a whole                                                   *)
(* ===================================================================== *)







(* ===================================================================== *)
(** * Instances the cost program cannot satisfy                            *)
(* ===================================================================== *)

Lemma cost_model_facts (self : DataLoader) (input_data : OptimizationInput)
  (cm : LpProblem) (cs : dict Edge LpVariable) (a : Assignment) :
  fst (build_cost_model self input_data []) = Ok (Some (cm, cs)) ->
  feasible cm (cost_variables cs) a = true ->
  let E := eligible_edges self input_data in
  inject_Z (total_demand input_data) <= shipped_weight self a E /\
  (forall w, In w (capacity_warehouses self input_data) ->
     inbound_weight self a E w <= available_capacity self w) /\
  (forall e, In e E ->
     0 <= a (Shipment e) /\
     a (Shipment e) <= inject_Z (vehicle_ceiling input_data e)).
Proof.
  intros B F E.
  destruct (build_cost_model self input_data []) as [res tr'] eqn:Bc.
  simpl in B. subst res.
  destruct (build_cost_model_inv _ _ _ Bc) as [_ [_ [Hcs [_ A]]]].
  subst cs. fold E in F.
  apply feasible_iff in F. destruct F as [Hc Hv].
  destruct A as [demand [caps [ceils [C [D [Fc Fv]]]]]]. fold E in D, Fc, Fv.
  split; [|split].
  - destruct D as [_ D]. apply D. destruct demand as [n d].
    apply (Hc n d). rewrite C. left. reflexivity.
  - intros w I.
    destruct (@Forall2_In_left _ _ _ _ _ w Fc I) as [[n c0] [Ic [_ Sem]]].
    apply Sem. apply (Hc n c0). rewrite C. right. apply in_or_app. left.
    exact Ic.
  - intros e I. split.
    + apply (in_domain_lower a (ship_var e));
        [discriminate | reflexivity |].
      apply Hv. apply ship_var_in_cost_variables. exact I.
    + pose proof (eligible_in_max_vehicles _ _ _ I) as Ik.
      apply dict_mem_keys in Ik. unfold dict_mem in Ik.
      unfold vehicle_ceiling.
      destruct (dict_get (max_vehicles input_data) e) as [z|] eqn:G;
        [|discriminate].
      assert (Ii : In (e, z) (ceiling_items E (max_vehicles input_data))).
      { unfold ceiling_items. apply filter_In. split.
        - apply dict_get_In. exact G.
        - simpl. apply shipment_vars_mem. exact I. }
      destruct (@Forall2_In_left _ _ _ _ _ (e, z) Fv Ii)
        as [[n c0] [Ic [_ Sem]]].
      apply (Sem a). apply (Hc n c0). rewrite C. right. apply in_or_app.
      right. exact Ic.
Qed.




Lemma nonneg_sum_zero (f : Edge -> Q) (edges : list Edge) :
  (forall e, In e edges -> 0 <= f e) ->
  sumQ (map f edges) <= 0 ->
  forall e, In e edges -> f e == 0.
Proof.
  induction edges as [|x edges IH]; intros Hn Hs e I; [destruct I|].
  simpl in Hs.
  assert (Hx : 0 <= f x) by (apply Hn; left; reflexivity).
  assert (Hr : 0 <= sumQ (map f edges)).
  { clear - Hn. induction edges as [|y edges IH]; simpl; [lra|].
    assert (0 <= f y) by (apply Hn; right; left; reflexivity).
    assert (0 <= sumQ (map f edges)).
    { apply IH. intros e [<- | I]; apply Hn; [left | right; right]; auto. }
    lra. }
  destruct I as [<- | I]; [lra|].
  apply IH; [| lra | exact I].
  intros y Iy. apply Hn. right. exact Iy.
Qed.

(** X14.  A selected warehouse whose stock has reached its capacity
    receives nothing: when no eligible edge has a negative weight capacity,
    every feasible assignment of the cost program ships 0 over each
    eligible edge into that warehouse whose mode has a positive weight
    capacity. *)
Theorem full_warehouse_receives_nothing (self : DataLoader)
  (input_data : OptimizationInput) (cm : LpProblem)
  (cs : dict Edge LpVariable) (a : Assignment) (w : string)
  (cap stock : Q) :
  fst (build_cost_model self input_data []) = Ok (Some (cm, cs)) ->
  feasible cm (cost_variables cs) a = true ->
  weights_nonnegative self input_data = true ->
  In w (selected_warehouses input_data) ->
  dict_get (warehouse_info_of self) w = Some (cap, stock) ->
  cap <= stock ->
  forall mode, In (w, mode) (eligible_edges self input_data) ->
               0 < mode_weight self mode ->
               a (Shipment (w, mode)) == 0.
Proof.
  intros B F W Is G Le mode I Pw.
  destruct (@cost_model_facts self input_data cm cs a B F) as [_ [Hcap Hc]].
  unfold weights_nonnegative in W. rewrite forallb_forall in W.
  assert (Iw : In w (capacity_warehouses self input_data)).
  { unfold capacity_warehouses. apply filter_In. split; [exact Is|].
    unfold dict_mem. rewrite G. reflexivity. }
  pose proof (Hcap w Iw) as Hi.
  unfold available_capacity in Hi. rewrite G in Hi. simpl in Hi.
  assert (M0 : max0 (cap - stock) == 0).
  { unfold max0. destruct (Qgt_bool (cap - stock) 0) eqn:P; [|reflexivity].
    apply Qgt_bool_true in P. lra. }
  rewrite M0 in Hi. unfold inbound_weight, shipped_weight in Hi.
  assert (Z0 : a (Shipment (w, mode)) * mode_weight self (snd (w, mode)) == 0).
  { apply (nonneg_sum_zero
             (fun e => a (Shipment e) * mode_weight self (snd e))
             (filter (fun e : Edge => String.eqb (fst e) w)
                (eligible_edges self input_data))).
    - intros e Ie. apply filter_In in Ie. destruct Ie as [Ie Ew].
      destruct (Hc e Ie) as [H0 _].
      apply Qmult_le_0_compat; [exact H0|].
      apply Qle_bool_iff. apply (W e Ie).
    - exact Hi.
    - apply filter_In. split; [exact I|]. simpl. apply String.eqb_refl. }
  simpl in Z0.
  destruct (Hc _ I) as [H0 _].
  destruct (Qlt_le_dec 0 (a (Shipment (w, mode)))) as [Pos | Np]; [|lra].
  exfalso. assert (0 < a (Shipment (w, mode)) * mode_weight self mode).
  { apply Qmult_lt_0_compat; assumption. }
  lra.
Qed.

Lemma full_warehouse_receives_nothing_witness :
  fst (build_cost_model MoreCases.overstocked_catalog Scenario.input_small [])
  = Ok (Some (built_cost MoreCases.overstocked_catalog Scenario.input_small))
  /\
  feasible
    (fst (built_cost MoreCases.overstocked_catalog Scenario.input_small))
    (cost_variables
       (snd (built_cost MoreCases.overstocked_catalog Scenario.input_small)))
    (Scenario.assignment 0 0 10 0 0 0 0) = true /\
  Scenario.assignment 0 0 10 0 0 0 0 (Shipment ("A", "Rail")) == 0.
Proof.
  split; [reflexivity|]. split; [reflexivity|].
  apply (@full_warehouse_receives_nothing MoreCases.overstocked_catalog
           Scenario.input_small
           (fst (built_cost MoreCases.overstocked_catalog
                   Scenario.input_small))
           (snd (built_cost MoreCases.overstocked_catalog
                   Scenario.input_small))
           (Scenario.assignment 0 0 10 0 0 0 0) "A" 1000 1200).
  - reflexivity.
  - reflexivity.
  - reflexivity.
  - vm_compute. auto.
  - reflexivity.
  - vm_compute. discriminate.
  - vm_compute. auto.
  - vm_compute. reflexivity.
Defined.

(* ===================================================================== *)
(** * The objective of the cost program                                    *)
(* ===================================================================== *)

Lemma value_cost_objective (a : Assignment) (route_costs : dict Edge Q) :
  value a (cost_objective route_costs)
  == sumQ (map (fun kc => a (Shipment (fst kc)) * snd kc) route_costs).
Proof.
  unfold cost_objective. rewrite value_lpSum, map_map.
  induction route_costs as [|[k c] rc IH]; simpl; [reflexivity|].
  rewrite IH, value_lp_mul, value_lp_var. simpl. reflexivity.
Qed.

(** X15.  The cost program minimises the sum over the eligible edges of the
    shipment count times the cost held for the edge, and the cost held for
    an edge is the one of the last route row, in catalog order, that passed
    the filter with the edge's pair. *)
Theorem cost_objective_prices_last_valid_row (self : DataLoader)
  (input_data : OptimizationInput) (cm : LpProblem)
  (cs : dict Edge LpVariable) (a : Assignment) :
  fst (build_cost_model self input_data []) = Ok (Some (cm, cs)) ->
  let route_costs := route_costs_of (_get_valid_routes self input_data) in
  objective_value cm a
  == sumQ (map (fun kc => a (Shipment (fst kc)) * snd kc) route_costs) /\
  forall before after wh mode c,
    _get_valid_routes self input_data
    = (before ++ (wh, mode, c) :: after)%list ->
    (forall c', ~ In (wh, mode, c') after) ->
    dict_get route_costs (wh, mode) = Some c.
Proof.
  intros B rc.
  destruct (build_cost_model self input_data []) as [res tr'] eqn:Bc.
  simpl in B. subst res.
  destruct (build_cost_model_inv _ _ _ Bc) as [_ [_ [_ [Ho _]]]].
  split.
  - unfold objective_value. rewrite Ho. apply value_cost_objective.
  - intros before after wh mode c V Hn. unfold rc. rewrite V.
    apply route_costs_last. exact Hn.
Qed.

Lemma cost_objective_prices_last_valid_row_witness :
  fst (build_cost_model Scenario.duplicate_catalog Scenario.input [])
  = Ok (Some (built_cost Scenario.duplicate_catalog Scenario.input)) /\
  dict_get
    (route_costs_of
       (_get_valid_routes Scenario.duplicate_catalog Scenario.input))
    ("A", "Truck") = Some 50.
Proof.
  split; [reflexivity|].
  destruct (@cost_objective_prices_last_valid_row Scenario.duplicate_catalog
              Scenario.input
              (fst (built_cost Scenario.duplicate_catalog Scenario.input))
              (snd (built_cost Scenario.duplicate_catalog Scenario.input))
              Scenario.rail_only eq_refl) as [_ H].
  apply (H [("A", "Truck", 100)] [] "A" "Truck" 50).
  - reflexivity.
  - intros c' [].
Defined.

(* ===================================================================== *)
(** * The input form                                                       *)
(* ===================================================================== *)

Lemma ceilings_of_warehouse_edges (st : Streamlit) (wh : string)
  (transport_modes used : list string) (d : dict Edge Z) :
  ceilings_of_warehouse st wh transport_modes used d =
  ceilings_of_edges st (map (fun mode => (wh, mode)) transport_modes) used d.
Proof.
  revert used d. induction transport_modes as [|mode rest IH]; intros used d;
    simpl; [reflexivity|].
  unfold edge_key, form_ceiling, edge_key. simpl.
  destruct (list_mem (ceiling_key wh mode) used); [reflexivity|]. apply IH.
Qed.

Lemma ceilings_of_edges_app (st : Streamlit) (es1 es2 : list Edge)
  (used : list string) (d : dict Edge Z) :
  ceilings_of_edges st (es1 ++ es2)%list used d =
  match ceilings_of_edges st es1 used d with
  | Some (used', d') => ceilings_of_edges st es2 used' d'
  | None => None
  end.
Proof.
  revert used d. induction es1 as [|e es1 IH]; intros used d; simpl;
    [reflexivity|].
  destruct (list_mem (edge_key e) used); [reflexivity|]. apply IH.
Qed.

Lemma ceilings_of_selection_edges (st : Streamlit)
  (selected transport_modes used : list string) (d : dict Edge Z) :
  ceilings_of_selection st selected transport_modes used d =
  ceilings_of_edges st (form_edges selected transport_modes) used d.
Proof.
  revert used d. induction selected as [|wh rest IH]; intros used d; simpl;
    [reflexivity|].
  rewrite ceilings_of_edges_app, ceilings_of_warehouse_edges.
  destruct (ceilings_of_edges st
              (map (fun mode => (wh, mode)) transport_modes) used d)
    as [[used' d']|]; [apply IH | reflexivity].
Qed.

Lemma fresh_keys_cons (a : string) (used l : list string) :
  forallb (fun k => negb (list_mem k (a :: used))) l =
  negb (existsb (key_eqb a) l) && forallb (fun k => negb (list_mem k used)) l.
Proof.
  induction l as [|x l IH]; cbn [forallb existsb]; [reflexivity|].
  rewrite IH.
  replace (list_mem x (a :: used)) with (String.eqb a x || list_mem x used)
    by (unfold list_mem; cbn [existsb]; rewrite (String.eqb_sym x a);
        reflexivity).
  change (key_eqb a x) with (String.eqb a x).
  destruct (String.eqb a x), (list_mem x used),
    (existsb (key_eqb a) l),
    (forallb (fun k => negb (list_mem k used)) l); reflexivity.
Qed.

(** The loop over the edges either meets a widget key a second time, or
    appends one ceiling per edge, in order. *)
Lemma ceilings_of_edges_spec (st : Streamlit) (es : list Edge)
  (used : list string) (d : dict Edge Z) :
  (forall e, In e (dict_keys d) -> In (edge_key e) used) ->
  ceilings_of_edges st es used d =
  if distinct (map edge_key es)
     && forallb (fun k => negb (list_mem k used)) (map edge_key es)
  then Some ((rev (map edge_key es) ++ used)%list,
             (d ++ map (fun e => (e, form_ceiling st e)) es)%list)
  else None.
Proof.
  revert used d. induction es as [|e es IH]; intros used d Inv; simpl.
  - rewrite app_nil_r. reflexivity.
  - destruct (list_mem (edge_key e) used) eqn:U; simpl.
    + rewrite andb_false_r. reflexivity.
    + assert (F : dict_get d e = None).
      { apply dict_get_None. intros I. apply Inv in I.
        apply list_mem_In in I. congruence. }
      rewrite (dict_set_fresh d e (form_ceiling st e) F).
      rewrite IH.
      * rewrite fresh_keys_cons.
        rewrite <- !app_assoc. simpl.
        destruct (existsb (key_eqb (edge_key e)) (map edge_key es)),
          (distinct (map edge_key es)),
          (forallb (fun k => negb (list_mem k used)) (map edge_key es));
          reflexivity.
      * intros x I. unfold dict_keys in I. rewrite map_app in I.
        apply in_app_or in I. destruct I as [I|[<-|[]]].
        -- right. apply Inv. exact I.
        -- left. reflexivity.
Qed.


(** X16.  The form returns an input exactly when the widget keys
    [max_<wh>_<mode>] of the selected warehouses and the listed modes are
    pairwise distinct; a repeated key stops it with Streamlit's duplicate-key
    exception.  The input then has one ceiling per selected warehouse and
    listed mode, in the order of the two loops, each one the answer to its
    own widget, and the selection is taken as it is, also when empty. *)
Theorem form_input_of_distinct_widget_keys (self : DataLoader)
  (st : Streamlit) :
  get_user_input self st =
  if distinct (map edge_key
                 (form_edges (form_selection self st) (form_modes self)))
  then Some {| total_demand := number_input st "Total Permintaan (ton)" 1 1000;
               max_delivery_time :=
                 number_input st "Waktu Pengiriman Maksimum (hari)" 1 7;
               selected_warehouses := form_selection self st;
               max_vehicles :=
                 map (fun e => (e, form_ceiling st e))
                   (form_edges (form_selection self st) (form_modes self)) |}
  else None.
Proof.
  unfold get_user_input.
  fold (form_selection self st). fold (form_modes self).
  rewrite ceilings_of_selection_edges, ceilings_of_edges_spec
    by (intros e []).
  assert (T : forall l : list string,
            forallb (fun k => negb (list_mem k [])) l = true)
    by (induction l; simpl; auto).
  rewrite T, andb_true_r.
  destruct (distinct _); reflexivity.
Qed.






Lemma valid_routes_no_selection (rows : list Route)
  (input_data : OptimizationInput) :
  selected_warehouses input_data = [] ->
  valid_routes_loop rows input_data = [].
Proof.
  intros E. induction rows as [|route rows IH]; simpl; [reflexivity|].
  rewrite E. simpl. exact IH.
Qed.

(** X18.  The form does not ask for a selection: with no warehouse
    selected it returns an input without any ceiling, and [solve] on that
    input reports the four errors of a run without eligible edge and stores
    the status Infeasible for both models, without calling the solver. *)
Theorem empty_selection_reports_infeasible (self : DataLoader)
  (st : Streamlit) (solver : Solver) :
  form_selection self st = [] ->
  exists input_data,
    get_user_input self st = Some input_data /\
    selected_warehouses input_data = [] /\
    max_vehicles input_data = [] /\
    run_solve self solver input_data =
      (Ok [("cost_optimization",
            [("status", VStr "Infeasible");
             ("solution", VPlan []);
             ("total_cost", VNone)]);
           ("time_optimization",
            [("status", VStr "Infeasible");
             ("solution", VPlan []);
             ("max_delivery_time", VNone);
             ("total_cost", VNone)])],
       [st_error no_valid_routes_msg; st_error failed_cost_msg;
        st_error no_valid_routes_msg; st_error failed_time_msg]).
Proof.
  intros E. unfold get_user_input. fold (form_selection self st).
  rewrite E. simpl. eexists. split; [reflexivity|]. simpl.
  split; [reflexivity|]. split; [reflexivity|].
  unfold run_solve, solve, solve_cost, solve_time, build_cost_model,
    build_time_model, _get_valid_routes.
  rewrite valid_routes_no_selection by reflexivity. reflexivity.
Qed.

Lemma empty_selection_reports_infeasible_witness :
  form_selection Scenario.catalog
    {| number_input := fun _ _ value => value;
       multiselect := fun _ _ _ => [] |} = [] /\
  exists input_data,
    get_user_input Scenario.catalog
      {| number_input := fun _ _ value => value;
         multiselect := fun _ _ _ => [] |} = Some input_data /\
    selected_warehouses input_data = [].
Proof.
  split; [reflexivity|].
  destruct (@empty_selection_reports_infeasible Scenario.catalog
              {| number_input := fun _ _ value => value;
                 multiselect := fun _ _ _ => [] |}
              (Scenario.solver_returning Scenario.rail_only) eq_refl)
    as [input_data [G [S _]]].
  exists input_data. split; assumption.
Defined.

(* ===================================================================== *)
(** * The result page                                                      *)
(* ===================================================================== *)

Lemma max_lead_time_loop_ge (self : DataLoader) (values : LpVar -> Q)
  (items : list (Edge * LpVariable)) (acc m : Z) :
  max_lead_time_loop self values items acc = Ok m -> (acc <= m)%Z.
Proof.
  revert acc. induction items as [|[[wh mode] var] rest IH]; intros acc; simpl.
  - intros [= <-]. lia.
  - destruct (Qgt_bool (values (var_name var)) 0); [|apply IH].
    destruct (routes_iloc0 self wh mode) as [route|e]; simpl; [|discriminate].
    intros E. apply IH in E. lia.
Qed.

Lemma extract_cost_shape (self : DataLoader) (vars : dict Edge LpVariable)
  (out : SolverOutput) (r : ResultDict) :
  extract_cost self vars out = Ok r -> cost_shape r.
Proof.
  unfold extract_cost.
  destruct (String.eqb (LpStatus (status out)) "Optimal") eqn:E.
  - destruct (collect_shipments self (varValue out) vars [] 0)
      as [[p c]|e]; simpl; [|discriminate].
    intros [= <-]. left. eauto.
  - intros [= <-]. right. exists (LpStatus (status out)).
    split; [apply String.eqb_neq; exact E | reflexivity].
Qed.

Lemma extract_time_shape (self : DataLoader) (vars : dict Edge LpVariable)
  (out : SolverOutput) (r : ResultDict) :
  extract_time self vars out = Ok r -> time_shape r.
Proof.
  unfold extract_time.
  destruct (String.eqb (LpStatus (status out)) "Optimal") eqn:E.
  - destruct (collect_shipments self (varValue out) vars [] 0)
      as [[p c]|e]; simpl; [|discriminate].
    destruct (max_lead_time_loop self (varValue out) vars 0) as [m|e] eqn:M;
      simpl; [|discriminate].
    intros [= <-]. left. exists p, m, c.
    split; [apply (max_lead_time_loop_ge _ _ _ _ M) | reflexivity].
  - intros [= <-]. right. exists (LpStatus (status out)), "max_lead_time".
    split; [apply String.eqb_neq; exact E | reflexivity].
Qed.

Lemma solve_cost_shape (self : DataLoader) (solver : Solver)
  (input_data : OptimizationInput) (tr tr' : list Event) (r : ResultDict) :
  solve_cost self solver input_data tr = (Ok r, tr') -> cost_shape r.
Proof.
  unfold solve_cost, bind.
  destruct (build_cost_model self input_data tr) as [[[[cm cs]|]|e] tr1];
    [| |discriminate].
  - unfold call_solver, bind, emit, ret, lift.
    intros [= E _]. apply (extract_cost_shape _ _ _ E).
  - unfold emit, ret. intros [= <- _]. right. exists "Infeasible".
    split; [discriminate | reflexivity].
Qed.

Lemma solve_time_shape (self : DataLoader) (solver : Solver)
  (input_data : OptimizationInput) (tr tr' : list Event) (r : ResultDict) :
  solve_time self solver input_data tr = (Ok r, tr') -> time_shape r.
Proof.
  unfold solve_time, bind.
  destruct (build_time_model self input_data tr) as [[[[[tm ts] mt]|]|e] tr1];
    [| |discriminate].
  - unfold call_solver, bind, emit, ret, lift.
    intros [= E _]. apply (extract_time_shape _ _ _ E).
  - unfold emit, ret. intros [= <- _]. right.
    exists "Infeasible", "max_delivery_time".
    split; [discriminate | reflexivity].
Qed.

(** What [solve] returns when it returns. *)
Lemma solve_results_shape (self : DataLoader) (solver : Solver)
  (input_data : OptimizationInput) (results : dict string ResultDict)
  (tr : list Event) :
  run_solve self solver input_data = (Ok results, tr) ->
  exists rc rt,
    results = [("cost_optimization", rc); ("time_optimization", rt)] /\
    cost_shape rc /\ time_shape rt.
Proof.
  unfold run_solve, solve, bind.
  destruct (solve_cost self solver input_data []) as [[rc|e] tr1] eqn:SC;
    [|discriminate].
  destruct (solve_time self solver input_data tr1) as [[rt|e] tr2] eqn:ST;
    [|discriminate].
  unfold ret. intros [= <- <-]. exists rc, rt.
  split; [reflexivity|].
  split; [apply (solve_cost_shape _ _ _ _ SC)
         | apply (solve_time_shape _ _ _ _ ST)].
Qed.

(** The page of a result of either form. *)
Lemma display_cost_shape (self : DataLoader) (rc : ResultDict) :
  cost_shape rc -> exists c, display_cost self rc = Some c.
Proof.
  intros [[p [c ->]]|[s [N ->]]].
  - destruct p; simpl; eauto.
  - apply String.eqb_neq in N. simpl. rewrite N. eauto.
Qed.

Lemma display_time_shape (self : DataLoader) (rc rt : ResultDict) :
  cost_shape rc -> time_shape rt ->
  exists t, display_time self rc rt = Some t.
Proof.
  intros Hc [[p [m [c [_ ->]]]]|[s [k [N ->]]]].
  - destruct Hc as [[cp [cc ->]]|[s [_ ->]]].
    + destruct cp as [|x cp]; simpl.
      * destruct (m <? 0)%Z; [destruct p|]; simpl; eauto.
      * destruct (m <? plan_max_lead_time self (x :: cp))%Z;
          [destruct p|]; simpl; eauto.
    + simpl. destruct (m <? 0)%Z; [destruct p|]; simpl; eauto.
  - apply String.eqb_neq in N. simpl. rewrite N. eauto.
Qed.

(** X19.  Pressing the button ends in an exception only when [solve] does:
    the page accepts every pair of results [solve] can return, Optimal or
    not, with or without a plan. *)
Theorem run_optimization_raises_only_with_solve (self : DataLoader)
  (solver : Solver) (input_data : OptimizationInput) :
  run_optimization self solver input_data = None <->
  exists e, fst (run_solve self solver input_data) = Raise e.
Proof.
  unfold run_optimization.
  destruct (run_solve self solver input_data) as [[results|e] tr] eqn:R;
    simpl.
  - split; [|intros [e E]; discriminate].
    destruct (solve_results_shape _ _ _ R) as [rc [rt [-> [Hc Ht]]]].
    destruct (display_cost_shape self Hc) as [c Dc].
    destruct (display_time_shape self Hc Ht) as [t Dt].
    unfold _display_results, results_get. simpl.
    rewrite Dc, Dt. discriminate.
  - split; [eauto | reflexivity].
Qed.

(** X20.  Without an optimal cost plan the page never shows a time plan,
    even when the time model was solved to optimality: the cost part is the
    warning with the status, the largest lead time of the missing cost plan
    counts as 0, no reported maximum is below it, and the time part either
    is the warning with the status or says that no shorter plan exists and
    names 0 days as the best achievable. *)
Theorem no_time_plan_without_cost_optimum (self : DataLoader)
  (solver : Solver) (input_data : OptimizationInput)
  (results : dict string ResultDict) (tr : list Event) :
  run_solve self solver input_data = (Ok results, tr) ->
  dict_get (results_get results "cost_optimization") "status"
    <> Some (VStr "Optimal") ->
  exists s time_part,
    _display_results self results =
      Some ([st_header "Hasil Optimasi"; st_subheader "1. Optimasi Biaya";
             warning_cost_not_optimal; write_status (VStr s);
             st_divider; st_subheader "2. Optimasi Waktu"]
            ++ time_part)%list /\
    (time_part = [info_not_shorter; write_best_max_lead_time 0] \/
     exists s', time_part = [warning_time_not_optimal; write_status (VStr s')]).
Proof.
  intros R N.
  destruct (solve_results_shape _ _ _ R) as [rc [rt [-> [Hc Ht]]]].
  unfold results_get in N. simpl in N.
  destruct Hc as [[cp [cc ->]]|[s [Ns ->]]]; [exfalso; apply N; reflexivity|].
  apply String.eqb_neq in Ns. exists s.
  unfold _display_results, results_get. simpl. rewrite Ns.
  destruct Ht as [[p [m [c [M ->]]]]|[s' [k [Ns' ->]]]].
  - simpl. assert (E : (m <? 0)%Z = false) by (apply Z.ltb_ge; exact M).
    rewrite E. eexists. split; [reflexivity|]. left. reflexivity.
  - apply String.eqb_neq in Ns'. simpl. rewrite Ns'.
    eexists. split; [reflexivity|]. right. exists s'. reflexivity.
Qed.

Lemma no_time_plan_without_cost_optimum_witness :
  exists results tr,
    run_solve Scenario.catalog (Scenario.solver_returning Scenario.rail_only)
      Scenario.input_no_route = (Ok results, tr) /\
    exists s time_part,
      _display_results Scenario.catalog results =
        Some ([st_header "Hasil Optimasi"; st_subheader "1. Optimasi Biaya";
               warning_cost_not_optimal; write_status (VStr s);
               st_divider; st_subheader "2. Optimasi Waktu"]
              ++ time_part)%list.
Proof.
  do 2 eexists. split; [vm_compute; reflexivity|].
  destruct (@no_time_plan_without_cost_optimum Scenario.catalog
              (Scenario.solver_returning Scenario.rail_only)
              Scenario.input_no_route _ _ eq_refl)
    as [s [time_part [D _]]].
  - vm_compute. discriminate.
  - exists s, time_part. exact D.
Defined.

(** X21.  With an Optimal time result the page shows the time plan exactly
    when the reported [max_lead_time] is strictly below the largest lead
    time that the exact lookups give the entries of the cost plan; on a tie
    or above, it shows no time plan and names that largest lead time of the
    cost plan as the best achievable. *)
Theorem time_plan_shown_iff_strictly_shorter (self : DataLoader)
  (solver : Solver) (input_data : OptimizationInput)
  (results : dict string ResultDict) (tr : list Event)
  (cp tp : Plan) (m : Z) (c : Q) :
  run_solve self solver input_data = (Ok results, tr) ->
  dict_get (results_get results "cost_optimization") "solution"
    = Some (VPlan cp) ->
  results_get results "time_optimization"
    = [("status", VStr "Optimal"); ("solution", VPlan tp);
       ("max_lead_time", VInt m); ("total_cost", VNum c)] ->
  exists cost_part time_part,
    _display_results self results =
      Some ([st_header "Hasil Optimasi"; st_subheader "1. Optimasi Biaya"]
            ++ cost_part
            ++ [st_divider; st_subheader "2. Optimasi Waktu"]
            ++ time_part)%list /\
    ((m < plan_max_lead_time self cp)%Z ->
     exists plan_part,
       time_part =
         (success_shorter_time (inject_Z m) (plan_max_lead_time self cp)
          :: write_total_cost c :: plan_part) /\
       (tp <> [] ->
        plan_part = [write_total_weight (snd (shipment_details self tp));
                     write_plan_title;
                     st_dataframe (fst (shipment_details self tp))])) /\
    ((plan_max_lead_time self cp <= m)%Z ->
     time_part = [info_not_shorter;
                  write_best_max_lead_time (plan_max_lead_time self cp)]).
Proof.
  intros R Sc St.
  destruct (solve_results_shape _ _ _ R) as [rc [rt [-> [Hc _]]]].
  unfold results_get in Sc, St. simpl in Sc, St. subst rt.
  destruct (display_cost_shape self Hc) as [cost_part Dc].
  unfold _display_results, results_get. simpl dict_get. cbv iota beta.
  rewrite Dc. exists cost_part.
  assert (So : solution_of rc
               = Some (match cp with [] => None | _ => Some cp end)).
  { unfold solution_of. rewrite Sc. destruct cp; reflexivity. }
  assert (Cm : match (match cp with [] => None | _ => Some cp end) with
               | Some p => plan_max_lead_time self p
               | None => 0%Z
               end = plan_max_lead_time self cp)
    by (destruct cp; reflexivity).
  unfold display_time. simpl dict_get. cbv iota beta.
  change (is_optimal (VStr "Optimal")) with true. cbv iota.
  rewrite So. cbv iota beta zeta. rewrite Cm.
  unfold lead_time_below.
  destruct (m <? plan_max_lead_time self cp)%Z eqn:L.
  - apply Z.ltb_lt in L. simpl as_number. cbv iota beta.
    destruct tp as [|x tp].
    + eexists. split; [reflexivity|]. split; [|lia].
      intros _. eexists. split; [reflexivity|]. intros N. congruence.
    + eexists. split; [reflexivity|]. split; [|lia].
      intros _. eexists. split; [reflexivity|]. intros _. reflexivity.
  - apply Z.ltb_ge in L. eexists. split; [reflexivity|].
    split; [lia|]. intros _. reflexivity.
Qed.

Lemma time_plan_shown_iff_strictly_shorter_witness :
  exists results tr cp tp m c,
    run_solve Scenario.catalog (Scenario.solver_returning Scenario.rail_only)
      Scenario.input = (Ok results, tr) /\
    dict_get (results_get results "cost_optimization") "solution"
      = Some (VPlan cp) /\
    results_get results "time_optimization"
      = [("status", VStr "Optimal"); ("solution", VPlan tp);
         ("max_lead_time", VInt m); ("total_cost", VNum c)] /\
    exists cost_part time_part,
      _display_results Scenario.catalog results =
        Some ([st_header "Hasil Optimasi"; st_subheader "1. Optimasi Biaya"]
              ++ cost_part
              ++ [st_divider; st_subheader "2. Optimasi Waktu"]
              ++ time_part)%list.
Proof.
  do 6 eexists.
  split; [vm_compute; reflexivity|].
  split; [vm_compute; reflexivity|].
  split; [vm_compute; reflexivity|].
  edestruct (@time_plan_shown_iff_strictly_shorter Scenario.catalog
               (Scenario.solver_returning Scenario.rail_only) Scenario.input)
    as [cost_part [time_part [D _]]];
    [vm_compute; reflexivity | vm_compute; reflexivity
     | vm_compute; reflexivity |].
  exists cost_part, time_part. exact D.
Defined.



(* ===================================================================== *)
(** * The shipment table                                                   *)
(* ===================================================================== *)





(** The table has the rows of the entries of the plan, in order. *)
Lemma shipment_details_rows (self : DataLoader) (p : Plan) :
  fst (shipment_details self p) = flat_map (row_of self) (plan_entries p).
Proof.
  unfold shipment_details.
  assert (G : forall (acc : list ShipmentRow * Q),
            fst (fold_left
                   (fun acc wi =>
                      fold_left
                        (fun acc mc =>
                           if (0 <? snd mc)%Z then
                             match _get_route_info self (fst wi) (fst mc) with
                             | Some (weight_capacity, lead_time_days,
                                     cost_per_trip) =>
                                 let weight :=
                                   inject_Z (snd mc) * weight_capacity in
                                 ((fst acc
                                   ++ [mkShipmentRow (fst wi) (fst mc) (snd mc)
                                         weight_capacity weight lead_time_days
                                         cost_per_trip
                                         (inject_Z (snd mc) * cost_per_trip)])%list,
                                  snd acc + weight)
                             | None => acc
                             end
                           else acc)
                        (snd wi) acc)
                   p acc)
            = (fst acc ++ flat_map (row_of self) (plan_entries p))%list).
  { induction p as [|[wh inner] p IH]; intros acc; simpl.
    - rewrite app_nil_r. reflexivity.
    - rewrite IH. unfold plan_entries at 2. simpl.
      fold (plan_entries p). rewrite flat_map_app, app_assoc. f_equal.
      clear IH. revert acc.
      induction inner as [|[mode n] inner IHi]; intros acc; simpl.
      + rewrite app_nil_r. reflexivity.
      + rewrite IHi. unfold row_of at 2. simpl.
        destruct (0 <? n)%Z; [|reflexivity].
        destruct (_get_route_info self wh mode) as [[[w lt] cpt]|];
          [|reflexivity].
        simpl. rewrite <- app_assoc. reflexivity. }
  rewrite G. reflexivity.
Qed.










Lemma fold_max_floor (rows : list ShipmentRow) (b a : Z) :
  fold_left (fun m r => Z.max m (Waktu_Tempuh r)) rows (Z.max b a)
  = Z.max b (fold_left (fun m r => Z.max m (Waktu_Tempuh r)) rows a).
Proof.
  revert a. induction rows as [|r rows IH]; intros a; simpl; [reflexivity|].
  rewrite <- Z.max_assoc. apply IH.
Qed.

(** The loop of the time part over the cost plan folds the lead times of
    the rows of the cost table. *)
Lemma plan_max_lead_time_rows (self : DataLoader) (p : Plan) :
  plan_max_lead_time self p =
  fold_left (fun m r => Z.max m (Waktu_Tempuh r))
    (flat_map (row_of self) (plan_entries p)) 0%Z.
Proof.
  unfold plan_max_lead_time.
  match goal with
  | |- fold_left ?f p _ = fold_left ?g _ _ =>
      enough (G : forall acc,
                fold_left f p acc
                = fold_left g (flat_map (row_of self) (plan_entries p)) acc)
        by apply G
  end.
  induction p as [|[wh inner] p IH]; intros acc; simpl; [reflexivity|].
  rewrite IH. unfold plan_entries at 2. simpl. fold (plan_entries p).
  rewrite flat_map_app, fold_left_app. f_equal.
  clear IH. revert acc.
  induction inner as [|[mode n] inner IHi]; intros acc; simpl; [reflexivity|].
  rewrite IHi. unfold row_of at 2. simpl.
  destruct (0 <? n)%Z; [|reflexivity].
  destruct (_get_route_info self wh mode) as [[[w lt] cpt]|]; reflexivity.
Qed.

(** X24.  The two places of the page that compute the largest lead time of
    the cost plan agree up to the floor at 0: the value the time part
    compares the reported [max_lead_time] with is the maximum written under
    the cost table when that is positive, and 0 otherwise, also for an
    empty table. *)
Theorem compared_maximum_is_table_maximum (self : DataLoader) (p : Plan) :
  plan_max_lead_time self p =
  match column_max (fst (shipment_details self p)) with
  | Some m => Z.max 0 m
  | None => 0%Z
  end.
Proof.
  rewrite plan_max_lead_time_rows, shipment_details_rows.
  destruct (flat_map (row_of self) (plan_entries p)) as [|row rows];
    simpl; [reflexivity|].
  apply fold_max_floor.
Qed.

Lemma vehicle_capacities_fold_keeps (rows : list Mode) (d : dict string Q)
  (mode : string) :
  (forall r, In r rows -> mode_mode_name r <> mode) ->
  dict_get (fold_left
              (fun d row => dict_set d (mode_mode_name row)
                              (weight_capacity row))
              rows d) mode
  = dict_get d mode.
Proof.
  revert d. induction rows as [|row rows IH]; intros d Hn; simpl;
    [reflexivity|].
  rewrite IH by (intros r I; apply Hn; right; exact I).
  apply dict_get_set_other. intros E. apply (Hn row); [left; reflexivity|].
  symmetry. exact E.
Qed.

(** X25.  The weight of a mode is read from two different rows when the
    modes table names it more than once: the page takes the first row with
    the name, the constraints take the last.  With a single row of that
    name the two agree. *)
Theorem table_weight_first_row_constraint_weight_last_row
  (self : DataLoader) (wh : string) (before after : list Mode) (row : Mode)
  (route : Route) :
  modes self = (before ++ row :: after)%list ->
  routes_iloc0 self wh (mode_mode_name row) = Ok route ->
  ((forall r, In r before -> mode_mode_name r <> mode_mode_name row) ->
   _get_route_info self wh (mode_mode_name row)
   = Some (weight_capacity row, lead_time route, total_cost route)) /\
  ((forall r, In r after -> mode_mode_name r <> mode_mode_name row) ->
   dict_get (vehicle_capacities_of self) (mode_mode_name row)
   = Some (weight_capacity row) /\
   mode_weight self (mode_mode_name row) = weight_capacity row).
Proof.
  intros Em R. split.
  - intros Hb. unfold _get_route_info. rewrite R, Em, filter_app.
    assert (F : filter (fun m => String.eqb (mode_mode_name m)
                                   (mode_mode_name row)) before = []).
    { clear - Hb. induction before as [|r before IH]; simpl; [reflexivity|].
      destruct (String.eqb (mode_mode_name r) (mode_mode_name row)) eqn:E.
      - apply String.eqb_eq in E. exfalso.
        apply (Hb r); [left; reflexivity | exact E].
      - apply IH. intros x I. apply Hb. right. exact I. }
    rewrite F. simpl. rewrite String.eqb_refl. reflexivity.
  - intros Ha.
    assert (G : dict_get (vehicle_capacities_of self) (mode_mode_name row)
                = Some (weight_capacity row)).
    { unfold vehicle_capacities_of. rewrite Em, fold_left_app. simpl.
      rewrite vehicle_capacities_fold_keeps by exact Ha.
      apply dict_get_set_same. }
    split; [exact G|]. unfold mode_weight. rewrite G. reflexivity.
Qed.

Lemma table_weight_first_row_constraint_weight_last_row_witness :
  _get_route_info
    {| warehouses := warehouses Scenario.catalog;
       modes := [mkMode "Truck" 10; mkMode "Rail" 50; mkMode "Truck" 12];
       routes := routes Scenario.catalog |} "A" "Truck"
  = Some (10, 2%Z, 100) /\
  mode_weight
    {| warehouses := warehouses Scenario.catalog;
       modes := [mkMode "Truck" 10; mkMode "Rail" 50; mkMode "Truck" 12];
       routes := routes Scenario.catalog |} "Truck"
  = 12.
Proof.
  split.
  - refine (proj1 (@table_weight_first_row_constraint_weight_last_row
                     {| warehouses := warehouses Scenario.catalog;
                        modes := [mkMode "Truck" 10; mkMode "Rail" 50;
                                  mkMode "Truck" 12];
                        routes := routes Scenario.catalog |}
                     "A" [] [mkMode "Rail" 50; mkMode "Truck" 12]
                     (mkMode "Truck" 10) (mkRoute "P" "A" "Truck" 2 100)
                     eq_refl eq_refl) _).
    intros r [].
  - refine (proj2 (proj2 (@table_weight_first_row_constraint_weight_last_row
                     {| warehouses := warehouses Scenario.catalog;
                        modes := [mkMode "Truck" 10; mkMode "Rail" 50;
                                  mkMode "Truck" 12];
                        routes := routes Scenario.catalog |}
                     "A" [mkMode "Truck" 10; mkMode "Rail" 50] []
                     (mkMode "Truck" 12) (mkRoute "P" "A" "Truck" 2 100)
                     eq_refl eq_refl) _)).
    intros r [].
Defined.

(* ===================================================================== *)
(** * The two programs side by side                                        *)
(* ===================================================================== *)

Lemma Forall2_same_index {A B : Type} (R : A -> B -> Prop) (l : list A)
  (cs cs' : list B) (y : B) :
  Forall2 R l cs -> Forall2 R l cs' -> In y cs ->
  exists x y', In y' cs' /\ R x y /\ R x y'.
Proof.
  intros F. revert cs'. induction F as [|a b l cs Hab _ IH]; intros cs' F' I;
    [destruct I|].
  inversion F' as [|a' b' l' cs1 Hab' F1]; subst.
  destruct I as [<- | I].
  - exists a, b'. split; [left; reflexivity | split; assumption].
  - destruct (IH cs1 F1 I) as [x [y' [Iy [Rx Ry]]]].
    exists x, y'. split; [right; exact Iy | split; assumption].
Qed.

(** Two lists of constraints that [_add_constraints] may have attached for
    one input hold together. *)
Lemma assembled_agree (self : DataLoader) (input_data : OptimizationInput)
  (cs cs' : list (string * LpConstraint)) (a : Assignment) :
  assembled self input_data cs -> assembled self input_data cs' ->
  (forall n c, In (n, c) cs' -> holds a c) ->
  forall n c, In (n, c) cs -> holds a c.
Proof.
  intros [d [caps [ceils [-> [D [Fc Fv]]]]]]
         [d' [caps' [ceils' [-> [D' [Fc' Fv']]]]]] H n c I.
  destruct I as [E | I].
  - subst d. apply (proj2 D a). apply (proj2 D' a).
    destruct d' as [n' c']. apply (H n' c'). left. reflexivity.
  - apply in_app_or in I. destruct I as [I|I].
    + destruct (@Forall2_same_index _ _ _ _ _ _ _ Fc Fc' I) as [w [[n' c'] [I' [S S']]]].
      apply (proj2 S). apply (proj2 S'). apply (H n' c').
      right. apply in_or_app. left. exact I'.
    + destruct (@Forall2_same_index _ _ _ _ _ _ _ Fv Fv' I) as [kv [[n' c'] [I' [S S']]]].
      apply (proj2 S). apply (proj2 S'). apply (H n' c').
      right. apply in_or_app. right. exact I'.
Qed.

(** X26.  The time program refines the cost program built for the same
    input: every assignment feasible for the time program is feasible for
    the cost program.  Minimising the delivery time relaxes none of the
    demand, capacity and ceiling constraints, and keeps the domain of every
    shipment variable. *)
Theorem time_program_refines_cost_program (self : DataLoader)
  (input_data : OptimizationInput) (cm tm : LpProblem)
  (cs ts : dict Edge LpVariable) (mt : LpVariable) (a : Assignment) :
  fst (build_cost_model self input_data []) = Ok (Some (cm, cs)) ->
  fst (build_time_model self input_data []) = Ok (Some (tm, ts, mt)) ->
  feasible tm (time_variables ts mt) a = true ->
  feasible cm (cost_variables cs) a = true.
Proof.
  intros Bc Bt F.
  destruct (build_cost_model self input_data []) as [rc trc] eqn:Ec.
  destruct (build_time_model self input_data []) as [rt trt] eqn:Et.
  simpl in Bc, Bt. subst rc rt.
  destruct (build_cost_model_inv _ _ _ Ec) as [_ [_ [-> [_ Ac]]]].
  destruct (build_time_model_inv _ _ _ Et)
    as [_ [_ [-> [_ [_ [lts [M [common [_ [_ [_ [C At]]]]]]]]]]]].
  apply feasible_iff in F. destruct F as [Hc Hv].
  apply feasible_iff. split.
  - apply (@assembled_agree self input_data _ _ a Ac At).
    intros n c I. apply (Hc n c).
    rewrite C. apply in_or_app. right. apply in_or_app. right. exact I.
  - intros v I. apply Hv. unfold time_variables, cost_variables in *.
    apply in_or_app. left. exact I.
Qed.

Lemma time_program_refines_cost_program_witness :
  fst (build_cost_model Scenario.catalog Scenario.input [])
  = Ok (Some (Scenario.cost_model, Scenario.cost_vars)) /\
  fst (build_time_model Scenario.catalog Scenario.input [])
  = Ok (Some (Scenario.time_model, Scenario.time_vars, Scenario.max_time)) /\
  feasible Scenario.time_model
    (time_variables Scenario.time_vars Scenario.max_time)
    Scenario.rail_only = true /\
  feasible Scenario.cost_model (cost_variables Scenario.cost_vars)
    Scenario.rail_only = true.
Proof.
  split; [reflexivity|]. split; [reflexivity|]. split; [reflexivity|].
  apply (@time_program_refines_cost_program Scenario.catalog Scenario.input
           Scenario.cost_model Scenario.time_model Scenario.cost_vars
           Scenario.time_vars Scenario.max_time Scenario.rail_only);
    reflexivity.
Defined.




